(** * Vigil: deduplication and issue-lifecycle engine

    A shallow embedding of the Go packages [loki] (log entries and the error
    predicate), [gitea] (the tracker client, seen at its method boundary),
    [notifier] (the notification interface) and [processor] (fingerprints,
    rendering, the issue lifecycle and the poll cycle), with the properties
    of the design document stated and settled against it.

    Go strings are byte sequences: they are modelled as [string] (a list of
    8-bit [ascii]), Go's [int] and [int64] as [Z] with the 64-bit wrap-around
    written out where the program does arithmetic. *)

From Stdlib Require Import ZArith List String Ascii Bool Lia Arith.
From Stdlib Require Import DecimalString Permutation.
Import ListNotations.

Local Open Scope string_scope.

(** ** Go values: strings, integers, errors, times *)

Module Go.

(** [int] and [int64] are 64-bit two's complement. *)
Definition MinInt64 : Z := - 2 ^ 63.
Definition MaxInt64 : Z := 2 ^ 63 - 1.
Definition wrap64 (x : Z) : Z := ((x + 2 ^ 63) mod 2 ^ 64 - 2 ^ 63)%Z.
Definition int_add (x y : Z) : Z := wrap64 (x + y).

(** An [error] is modelled by its message; [nil] is [None]. *)
Definition error : Type := string.

(** A [time.Time], as nanoseconds since the Unix epoch; the zero value
    [time.Time{}] is the first instant of year 1. *)
Definition Time : Type := Z.
Definition zeroTime : Time := (-62135596800 * 1000000000)%Z.

(** The built-in [append(s, x)] on slices. *)
Definition append {A : Type} (s : list A) (x : A) : list A :=
  (s ++ [x])%list.

(** [len(s)] *)
Definition len (s : string) : Z := Z.of_nat (String.length s).

Definition nl : string := String (ascii_of_nat 10) "".
Definition dquote : string := String (ascii_of_nat 34) "".

Definition bytes (s : string) : list ascii := list_ascii_of_string s.
Definition of_bytes (l : list ascii) : string := string_of_list_ascii l.

(** [strings.Join] *)
Fixpoint Join (parts : list string) (sep : string) : string :=
  match parts with
  | [] => ""
  | [p] => p
  | p :: rest => p ++ sep ++ Join rest sep
  end.

(** [strings.Contains] *)
Fixpoint Contains (s substr : string) : bool :=
  String.prefix substr s
  || match s with
     | String _ rest => Contains rest substr
     | EmptyString => false
     end.

(** [%d] of an integer: decimal digits, with a minus sign when negative. *)
Definition itoa (n : Z) : string := NilZero.string_of_int (Z.to_int n).

End Go.

(** ** The fragment of Go's [regexp] the program uses

    Both patterns of [normalizeEndpoint] are sequences of single-character
    classes, each taken once or under a greedy [+].  [matchPrefix] is the
    leftmost-first (greedy, backtracking) match anchored at the head of the
    input and returns the number of bytes consumed. *)

Module Regexp.

Inductive item : Type :=
| One (cls : ascii -> bool)
| Plus (cls : ascii -> bool).

Definition regexp := list item.

(** [cls{n}] *)
Definition rep (n : nat) (cls : ascii -> bool) : regexp := repeat (One cls) n.

(** [cls+] followed by the rest of the pattern [k]: take one more byte of
    the class when the rest then matches, else stop here. *)
Definition greedy (cls : ascii -> bool) (k : list ascii -> option nat)
  : list ascii -> option nat :=
  fix more (s : list ascii) : option nat :=
    match s with
    | c :: s' =>
        if cls c then
          match more s' with
          | Some n => Some (S n)
          | None => k s
          end
        else k s
    | [] => k []
    end.

Fixpoint matchPrefix (re : regexp) (s : list ascii) : option nat :=
  match re with
  | [] => Some 0%nat
  | One cls :: re' =>
      match s with
      | c :: s' => if cls c then option_map S (matchPrefix re' s') else None
      | [] => None
      end
  | Plus cls :: re' =>
      match s with
      | c :: s' =>
          if cls c then option_map S (greedy cls (matchPrefix re') s')
          else None
      | [] => None
      end
  end.

(** The scan of [ReplaceAllString]: matches are searched left to right and
    do not overlap; [skip] counts the bytes of the current match still to
    be dropped.  The patterns of this program start with a literal byte, so
    a match is never empty; an empty match is treated as no match. *)
Fixpoint replaceFrom (re : regexp) (repl : list ascii) (skip : nat)
         (s : list ascii) : list ascii :=
  match s with
  | [] => []
  | c :: s' =>
      match skip with
      | S k => replaceFrom re repl k s'
      | O =>
          match matchPrefix re s with
          | Some (S n) => repl ++ replaceFrom re repl n s'
          | _ => c :: replaceFrom re repl 0 s'
          end
      end
  end.

(** [re.ReplaceAllString(src, repl)], for a [repl] without [$]. *)
Definition ReplaceAllString (re : regexp) (src repl : string) : string :=
  Go.of_bytes
    (replaceFrom re (Go.bytes repl) 0 (Go.bytes src)).

Definition is_byte (a c : ascii) : bool := Ascii.eqb a c.

(** What a pattern [/body] with replacement [/tail] does to one path
    segment (the bytes between a [/] and the next): a match of [body] at
    the head of the segment is replaced by [tail]. *)
Definition rewriteSegment (body : regexp) (tail seg : list ascii)
  : list ascii :=
  match matchPrefix body seg with
  | Some n => (tail ++ skipn n seg)%list
  | None => seg
  end.

(** [\d] and [[0-9]]: ASCII digits. *)
Definition digit (c : ascii) : bool :=
  let n := nat_of_ascii c in (48 <=? n)%nat && (n <=? 57)%nat.

(** [[0-9a-f]] *)
Definition lowerhex (c : ascii) : bool :=
  let n := nat_of_ascii c in
  digit c || ((97 <=? n)%nat && (n <=? 102)%nat).


(** Vocabulary for paths: the separator, patterns and byte sequences
    without it, and the places where a segment ends. *)
Definition slash : ascii := "/"%char.
Definition colon : ascii := ":"%char.

Definition rejects_slash (i : item) : Prop :=
  match i with
  | One cls => cls slash = false
  | Plus cls => cls slash = false
  end.

Definition noslash (seg : list ascii) : Prop :=
  Forall (fun c => c <> slash) seg.

(** Nothing, or something that starts with a slash. *)
Definition boundary (rest : list ascii) : Prop :=
  rest = [] \/ exists r, rest = (slash :: r)%list.

End Regexp.

(** ** SHA-256 (FIPS 180-4), as computed by Go's [crypto/sha256]

    Words are 32-bit, kept in [Z] and reduced modulo [2^32] after every
    addition; bytes are numbers below 256. *)

Module Sha256.
Local Open Scope Z_scope.
Local Open Scope list_scope.

Definition w32 (x : Z) : Z := x mod 2 ^ 32.
Definition add32 (x y : Z) : Z := w32 (x + y).
Definition rotr (n x : Z) : Z :=
  Z.lor (Z.shiftr x n) (w32 (Z.shiftl x (32 - n))).
Definition not32 (x : Z) : Z := Z.lxor x 0xffffffff.

Definition Ch (x y z : Z) : Z := Z.lxor (Z.land x y) (Z.land (not32 x) z).
Definition Maj (x y z : Z) : Z :=
  Z.lxor (Z.lxor (Z.land x y) (Z.land x z)) (Z.land y z).
Definition Sigma0 (x : Z) : Z :=
  Z.lxor (Z.lxor (rotr 2 x) (rotr 13 x)) (rotr 22 x).
Definition Sigma1 (x : Z) : Z :=
  Z.lxor (Z.lxor (rotr 6 x) (rotr 11 x)) (rotr 25 x).
Definition sigma0 (x : Z) : Z :=
  Z.lxor (Z.lxor (rotr 7 x) (rotr 18 x)) (Z.shiftr x 3).
Definition sigma1 (x : Z) : Z :=
  Z.lxor (Z.lxor (rotr 17 x) (rotr 19 x)) (Z.shiftr x 10).

(** The first sixty-four primes. *)
Definition primes : list Z :=
  [2; 3; 5; 7; 11; 13; 17; 19; 23; 29; 31; 37; 41; 43; 47; 53;
   59; 61; 67; 71; 73; 79; 83; 89; 97; 101; 103; 107; 109; 113; 127; 131;
   137; 139; 149; 151; 157; 163; 167; 173; 179; 181; 191; 193; 197; 199;
   211; 223; 227; 229; 233; 239; 241; 251; 257; 263; 269; 271; 277; 281;
   283; 293; 307; 311].

(** The integer cube root, bit by bit from bit [n - 1] down. *)
Fixpoint cbrt_bits (n : nat) (x r : Z) : Z :=
  match n with
  | O => r
  | S n' =>
      let r' := r + 2 ^ Z.of_nat n' in
      cbrt_bits n' x (if r' * r' * r' <=? x then r' else r)
  end.

(** The round constants: the first 32 bits of the fractional parts of the
    cube roots of the primes (FIPS 180-4, 4.2.2); [0x428a2f98] is the
    first and [0xc67178f2] the last. *)
Definition K : list Z :=
  Eval vm_compute in map (fun p => w32 (cbrt_bits 36 (p * 2 ^ 96) 0)) primes.

(** The eight working variables, and the chaining value. *)
Record digest : Type := Digest {
  ha : Z; hb : Z; hc : Z; hd : Z; he : Z; hf : Z; hg : Z; hh : Z
}.

(** The initial value: the first 32 bits of the fractional parts of the
    square roots of the first eight primes (FIPS 180-4, 5.3.3). *)
Definition frac_sqrt (p : Z) : Z := w32 (Z.sqrt (p * 2 ^ 64)).

Definition init : digest :=
  Eval vm_compute in
    Digest (frac_sqrt 2) (frac_sqrt 3) (frac_sqrt 5) (frac_sqrt 7)
           (frac_sqrt 11) (frac_sqrt 13) (frac_sqrt 17) (frac_sqrt 19).

(** Big-endian words of a block of bytes. *)
Fixpoint be_words (bs : list Z) : list Z :=
  match bs with
  | b0 :: b1 :: b2 :: b3 :: rest =>
      (Z.shiftl b0 24 + Z.shiftl b1 16 + Z.shiftl b2 8 + b3) :: be_words rest
  | _ => []
  end.

(** The message schedule: [win] holds the sixteen most recent words. *)
Fixpoint schedule (n : nat) (win : list Z) : list Z :=
  match n with
  | O => []
  | S n' =>
      let w := add32 (add32 (sigma1 (nth 14 win 0)) (nth 9 win 0))
                     (add32 (sigma0 (nth 1 win 0)) (nth 0 win 0)) in
      w :: schedule n' (tl win ++ [w])
  end.

Definition round (s : digest) (kw : Z * Z) : digest :=
  let t1 := add32 (add32 (add32 (hh s) (Sigma1 (he s)))
                         (add32 (Ch (he s) (hf s) (hg s)) (fst kw)))
                  (snd kw) in
  let t2 := add32 (Sigma0 (ha s)) (Maj (ha s) (hb s) (hc s)) in
  Digest (add32 t1 t2) (ha s) (hb s) (hc s)
         (add32 (hd s) t1) (he s) (hf s) (hg s).

Definition compress (h : digest) (block : list Z) : digest :=
  let w16 := be_words block in
  let w := w16 ++ schedule 48 w16 in
  let s := fold_left round (combine K w) h in
  Digest (add32 (ha h) (ha s)) (add32 (hb h) (hb s))
         (add32 (hc h) (hc s)) (add32 (hd h) (hd s))
         (add32 (he h) (he s)) (add32 (hf h) (hf s))
         (add32 (hg h) (hg s)) (add32 (hh h) (hh s)).

Definition be_bytes (width : nat) (x : Z) : list Z :=
  map (fun i => Z.shiftr x (8 * Z.of_nat i) mod 256) (rev (seq 0 width)).

(** Padding: one [0x80] byte, zeros up to 56 modulo 64, then the length in
    bits as a 64-bit big-endian number (modulo [2^64], as in the
    standard). *)
Definition pad (msg : list Z) : list Z :=
  let len := Z.of_nat (List.length msg) in
  let zeros := Z.to_nat ((55 - len) mod 64) in
  msg ++ 0x80 :: repeat 0 zeros ++ be_bytes 8 ((8 * len) mod 2 ^ 64).

Fixpoint blocks (fuel : nat) (h : digest) (bs : list Z) : digest :=
  match fuel, bs with
  | S fuel', _ :: _ => blocks fuel' (compress h (firstn 64 bs)) (skipn 64 bs)
  | _, _ => h
  end.

Definition output (h : digest) : list Z :=
  flat_map (be_bytes 4)
    [ha h; hb h; hc h; hd h; he h; hf h; hg h; hh h].

(** [sha256.Sum256] *)
Definition Sum256 (data : list Z) : list Z :=
  let p := pad data in
  output (blocks (List.length p) init p).

Definition string_bytes (s : string) : list Z :=
  map (fun c => Z.of_nat (nat_of_ascii c)) (list_ascii_of_string s).

End Sha256.

(** ** [encoding/hex] *)

Module Hex.
Local Open Scope Z_scope.

Definition hextable : string := "0123456789abcdef".

Definition digit (n : Z) : ascii :=
  match String.get (Z.to_nat n) hextable with
  | Some c => c
  | None => "0"%char
  end.

Fixpoint EncodeToString (src : list Z) : string :=
  match src with
  | [] => ""
  | b :: rest =>
      String (digit (Z.shiftr b 4))
        (String (digit (Z.land b 15)) (EncodeToString rest))
  end.
End Hex.

(** ** Package [loki]: log entries *)

Module Json.
(** A decoded JSON value ([interface{}] after [json.Unmarshal]); a number
    is a [float64], kept as its IEEE-754 bit pattern. *)
#[warnings="-register-all"]
Inductive value : Type :=
| Null
| Bool (b : bool)
| Number (bits : Z)
| Str (s : string)
| Array (elems : list value)
| Object (fields : list (string * value)).
End Json.

Module Loki.

Record SourceInfo : Type := {
  Function : string;
  File : string;
  Line : Z
}.

Record LogEntry : Type := {
  Timestamp : Go.Time;
  Raw : string;
  Parsed : list (string * Json.value);
  Level : string;
  Message : string;
  Method : string;
  Action : string;
  Status : Z;
  RequestID : string;
  TraceID : string;
  UserID : string;
  BugID : string;
  Source : SourceInfo;
  ElapsedMs : Z
}.

Definition IsError (e : LogEntry) : bool :=
  if String.eqb (Level e) "ERROR" || String.eqb (Level e) "error" then true
  else if (500 <=? Status e)%Z then true
  else false.

End Loki.

(** ** Package [gitea]: issues as the tracker returns them *)

Module Gitea.

Record Label : Type := {
  LabelID : Z;
  Name : string;
  Color : string
}.

Record Issue : Type := {
  ID : Z;
  Number : Z;
  Title : string;
  Body : string;
  State : string;
  Labels : list Label;
  Comments : Z;
  CreatedAt : Go.Time;
  UpdatedAt : Go.Time
}.

End Gitea.

(** ** Package [notifier] *)

Module Notifier.

Record IssueInfo : Type := {
  Number : Z;
  Title : string;
  BugID : string;
  Endpoint : string;
  HTTPMethod : string;
  StatusCode : Z;
  FirstSeen : Go.Time;
  Occurrences : Z
}.

(** The [Notifier] interface; a method acts on the outside world [W] and
    returns its error. *)
Record Notifier (W : Type) : Type := {
  NotifyNewIssue : IssueInfo -> W -> option Go.error * W;
  NotifyReopenedIssue : IssueInfo -> W -> option Go.error * W;
  NotifierName : string
}.
Arguments NotifyNewIssue {W}.
Arguments NotifyReopenedIssue {W}.
Arguments NotifierName {W}.

End Notifier.

(** ** The outside world

    [GoLib] gathers the pure library functions the renderer calls and that
    are not rebuilt here; [Env] is what the two HTTP clients and the clock do
    to the outside world [W], one field for each request the clients send. *)

Class GoLib : Type := {
  strings_ToUpper : string -> string;
  time_Format_RFC3339 : Go.Time -> string;
  json_MarshalIndent : list (string * Json.value) -> string + Go.error
}.

Class Env (W : Type) : Type := {
  gitea_SearchIssues : string -> W -> (list Gitea.Issue + Go.error) * W;
  gitea_createLabel : string -> string -> W -> option Go.error * W;
  gitea_CreateIssue :
    string -> string -> list string -> W -> (Gitea.Issue + Go.error) * W;
  gitea_AddComment : Z -> string -> W -> option Go.error * W;
  gitea_ReopenIssue : Z -> W -> option Go.error * W;
  loki_QueryRange :
    string -> Go.Time -> Go.Time -> Z -> W
    -> (list Loki.LogEntry + Go.error) * W;
  time_Now : W -> Go.Time * W
}.

(** ** Observable events: client calls with their results, notifications
    and log lines, in the order they happen *)

Module Trace.

(** One constructor for each [log.Printf] of the processor, carrying its
    arguments. *)
Inductive LogLine : Type :=
| LogQueryError (err : Go.error)
| LogNoEntries
| LogFound (n : Z)
| LogProcessing (level : string) (status : Z) (msg : string)
| LogEntryError (err : Go.error)
| LogProcessed (n : Z)
| LogLabelWarning (err : Go.error)
| LogCreated (number : Z) (title bugID : string)
| LogNotifyError (err : Go.error)
| LogReopenWarning (number : Z) (err : Go.error)
| LogReopened (number : Z)
| LogUpdated (number : Z) (occurrences : Z).

Definition Printf (l : LogLine) : string :=
  match l with
  | LogQueryError err => "Error querying Loki: " ++ err
  | LogNoEntries => "No entries found from Loki query"
  | LogFound n =>
      "Found " ++ Go.itoa n ++ " entries from Loki, filtering for errors..."
  | LogProcessing level status msg =>
      "Processing error: level=" ++ level ++ " status=" ++ Go.itoa status
        ++ " msg=" ++ msg
  | LogEntryError err => "Error processing log entry: " ++ err
  | LogProcessed n => "Processed " ++ Go.itoa n ++ " error entries"
  | LogLabelWarning err => "Warning: failed to create bugid label: " ++ err
  | LogCreated number title bugID =>
      "Created new issue #" ++ Go.itoa number ++ ": " ++ title
        ++ " (bugId: " ++ bugID ++ ")"
  | LogNotifyError err => "Error sending notification: " ++ err
  | LogReopenWarning number err =>
      "Warning: failed to reopen issue #" ++ Go.itoa number ++ ": " ++ err
  | LogReopened number => "Reopened issue #" ++ Go.itoa number
  | LogUpdated number occurrences =>
      "Updated issue #" ++ Go.itoa number ++ " (occurrence #"
        ++ Go.itoa occurrences ++ ")"
  end.

Inductive Event : Type :=
| SearchIssues (labelName : string) (res : list Gitea.Issue + Go.error)
| EnsureLabel (name color : string) (res : option Go.error)
| CreateIssue (title body : string) (labels : list string)
              (res : Gitea.Issue + Go.error)
| AddComment (issueNumber : Z) (body : string) (res : option Go.error)
| ReopenIssue (issueNumber : Z) (res : option Go.error)
| NotifyNewIssue (notifier : string) (issue : Notifier.IssueInfo)
                 (res : option Go.error)
| NotifyReopenedIssue (notifier : string) (issue : Notifier.IssueInfo)
                      (res : option Go.error)
| QueryRange (query : string) (start stop : Go.Time) (limit : Z)
             (res : list Loki.LogEntry + Go.error)
| Log (line : LogLine).

End Trace.

(** ** Effects: a computation acts on the outside world and produces the
    events it caused, in order *)

Module Eff.

Section Monad.
Context {W : Type}.

Record Result (A : Type) : Type := {
  val : A;
  after : W;
  events : list Trace.Event
}.
Arguments val {A}.
Arguments after {A}.
Arguments events {A}.

Definition M (A : Type) : Type := W -> Result A.

Definition ret {A : Type} (a : A) : M A :=
  fun w => {| val := a; after := w; events := [] |}.

Definition bind {A B : Type} (m : M A) (k : A -> M B) : M B :=
  fun w =>
    let r1 := m w in
    let r2 := k (val r1) (after r1) in
    {| val := val r2;
       after := after r2;
       events := (events r1 ++ events r2)%list |}.

Definition emit (e : Trace.Event) : M unit :=
  fun w => {| val := tt; after := w; events := [e] |}.

(** An action on the world that leaves no event of its own. *)
Definition lift {A : Type} (f : W -> A * W) : M A :=
  fun w =>
    let r := f w in {| val := fst r; after := snd r; events := [] |}.

(** An action on the world, recorded with its result. *)
Definition call {A : Type} (f : W -> A * W) (ev : A -> Trace.Event) : M A :=
  fun w =>
    let r := f w in
    {| val := fst r; after := snd r; events := [ev (fst r)] |}.

Definition log (l : Trace.LogLine) : M unit := emit (Trace.Log l).

End Monad.

Arguments Result : clear implicits.
Arguments M : clear implicits.
Arguments val {W A}.
Arguments after {W A}.
Arguments events {W A}.

Declare Scope eff_scope.
Delimit Scope eff_scope with eff.
Notation "x <- c ;; k" := (bind c (fun x => k))
  (at level 61, c at next level, right associativity) : eff_scope.
Notation "c ;; k" := (bind c (fun _ => k))
  (at level 61, right associativity) : eff_scope.

End Eff.

(** ** Package [gitea] and [loki]: the client methods the processor calls *)

Module Client.
Import Eff.
Local Open Scope eff_scope.

Section Methods.
Context {W : Type} {env : Env W}.

Definition SearchIssues (labelName : string)
  : M W (list Gitea.Issue + Go.error) :=
  call (gitea_SearchIssues labelName) (Trace.SearchIssues labelName).

Definition CreateIssue (title body : string) (labels : list string)
  : M W (Gitea.Issue + Go.error) :=
  call (gitea_CreateIssue title body labels)
       (Trace.CreateIssue title body labels).

Definition AddComment (issueNumber : Z) (body : string)
  : M W (option Go.error) :=
  call (gitea_AddComment issueNumber body)
       (Trace.AddComment issueNumber body).

Definition ReopenIssue (issueNumber : Z) : M W (option Go.error) :=
  call (gitea_ReopenIssue issueNumber) (Trace.ReopenIssue issueNumber).

Definition createLabel (name color : string) : M W (option Go.error) :=
  lift (gitea_createLabel name color).

(** Tries to create the label; an error that mentions 409 means the
    label exists already and is dropped. *)
Definition EnsureLabel (name color : string) : M W (option Go.error) :=
  err <- createLabel name color ;;
  let res :=
    match err with
    | Some e => if negb (Go.Contains e "409") then Some e else None
    | None => None
    end in
  emit (Trace.EnsureLabel name color res) ;;
  ret res.

Definition QueryRange (query : string) (start stop : Go.Time) (limit : Z)
  : M W (list Loki.LogEntry + Go.error) :=
  call (loki_QueryRange query start stop limit)
       (Trace.QueryRange query start stop limit).

Definition Now : M W Go.Time := lift time_Now.

End Methods.
End Client.

(** ** Package [processor] *)

Module Processor.
Import Regexp.

(** *** Fingerprints *)

(** [/\d+] *)
Definition numericID : regexp := [One (is_byte "/"); Plus digit].

(** [/[0-9a-f]{8}-[0-9a-f]{4}-[0-9a-f]{4}-[0-9a-f]{4}-[0-9a-f]{12}] *)
Definition uuid : regexp :=
  (One (is_byte "/") :: rep 8 lowerhex
    ++ One (is_byte "-") :: rep 4 lowerhex
    ++ One (is_byte "-") :: rep 4 lowerhex
    ++ One (is_byte "-") :: rep 4 lowerhex
    ++ One (is_byte "-") :: rep 12 lowerhex)%list.

Definition normalizeEndpoint (endpoint : string) : string :=
  let endpoint := ReplaceAllString numericID endpoint "/:id" in
  let endpoint := ReplaceAllString uuid endpoint "/:uuid" in
  endpoint.

Definition GenerateBugID (entry : Loki.LogEntry) : string :=
  if negb (String.eqb (Loki.BugID entry) "") then Loki.BugID entry
  else
    let endpoint := normalizeEndpoint (Loki.Action entry) in
    let data :=
      Loki.Method entry ++ "|" ++ endpoint ++ "|"
        ++ Go.itoa (Loki.Status entry) ++ "|"
        ++ Loki.Function (Loki.Source entry) in
    let hash := Sha256.Sum256 (Sha256.string_bytes data) in
    Hex.EncodeToString (firstn 8 hash).

(** *** Rendering *)

Section Rendering.
Context {lib : GoLib}.

Definition generateTitle (entry : Loki.LogEntry) : string :=
  let parts := [] in
  let parts :=
    if (500 <=? Loki.Status entry)%Z then
      Go.append parts ("[" ++ Go.itoa (Loki.Status entry) ++ "]")
    else if negb (String.eqb (Loki.Level entry) "") then
      Go.append parts ("[" ++ strings_ToUpper (Loki.Level entry) ++ "]")
    else parts in
  let parts :=
    if negb (String.eqb (Loki.Method entry) "")
       && negb (String.eqb (Loki.Action entry) "") then
      Go.append parts
        (Loki.Method entry ++ " " ++ normalizeEndpoint (Loki.Action entry))
    else parts in
  let parts :=
    if negb (String.eqb (Loki.Message entry) "")
       && (Go.len (Loki.Message entry) <? 80)%Z then
      Go.append parts (Loki.Message entry)
    else parts in
  if (List.length parts =? 0)%nat then "Unknown error"
  else Go.Join parts " - ".

(** A line written only when the field is not empty. *)
Definition when_set (field line : string) : string :=
  if negb (String.eqb field "") then line else "".

Definition generateBody (entry : Loki.LogEntry) (bugID : string) : string :=
  let src := Loki.Source entry in
  "## Error Details" ++ Go.nl ++ Go.nl
  ++ when_set (Loki.Message entry)
       ("**Message:** " ++ Loki.Message entry ++ Go.nl ++ Go.nl)
  ++ when_set (Loki.Function src)
       ("**Source:** `" ++ Loki.Function src ++ "`" ++ Go.nl)
  ++ when_set (Loki.File src)
       ("**File:** `" ++ Loki.File src ++ ":" ++ Go.itoa (Loki.Line src)
          ++ "`" ++ Go.nl)
  ++ Go.nl ++ "## Request Info" ++ Go.nl ++ Go.nl
  ++ when_set (Loki.Method entry)
       ("- **Method:** " ++ Loki.Method entry ++ Go.nl)
  ++ when_set (Loki.Action entry)
       ("- **Endpoint:** " ++ Loki.Action entry ++ Go.nl)
  ++ (if (0 <? Loki.Status entry)%Z then
        "- **Status Code:** " ++ Go.itoa (Loki.Status entry) ++ Go.nl
      else "")
  ++ when_set (Loki.RequestID entry)
       ("- **Request ID:** `" ++ Loki.RequestID entry ++ "`" ++ Go.nl)
  ++ when_set (Loki.TraceID entry)
       ("- **Trace ID:** `" ++ Loki.TraceID entry ++ "`" ++ Go.nl)
  ++ when_set (Loki.UserID entry)
       ("- **User ID:** " ++ Loki.UserID entry ++ Go.nl)
  ++ Go.nl ++ "## Sample Log" ++ Go.nl ++ Go.nl ++ "```json" ++ Go.nl
  ++ match json_MarshalIndent (Loki.Parsed entry) with
     | inl jsonBytes => jsonBytes
     | inr _ => ""
     end
  ++ Go.nl ++ "```" ++ Go.nl
  ++ Go.nl ++ "---" ++ Go.nl
  ++ "*Bug ID: `" ++ bugID ++ "`*" ++ Go.nl
  ++ "*Auto-generated by issue-tracker*" ++ Go.nl.

Definition generateComment (entry : Loki.LogEntry) (occurrences : Z)
  : string :=
  "**Occurred again** at `"
    ++ time_Format_RFC3339 (Loki.Timestamp entry) ++ "`" ++ Go.nl ++ Go.nl
  ++ when_set (Loki.RequestID entry)
       ("- Request ID: `" ++ Loki.RequestID entry ++ "`" ++ Go.nl)
  ++ when_set (Loki.TraceID entry)
       ("- Trace ID: `" ++ Loki.TraceID entry ++ "`" ++ Go.nl)
  ++ when_set (Loki.UserID entry)
       ("- User ID: " ++ Loki.UserID entry ++ Go.nl)
  ++ "- Total occurrences: **" ++ Go.itoa occurrences ++ "**" ++ Go.nl.

End Rendering.

(** *** The issue lifecycle and the poll cycle *)

Section Lifecycle.
Import Eff.
Local Open Scope Z_scope.
Local Open Scope eff_scope.
Context {W : Type} {env : Env W} {lib : GoLib}.

(** The clients are handles on the outside world; what they reach is
    in [W]. *)
Record Processor : Type := {
  notifiers : list (Notifier.Notifier W);
  pollInterval : Z;
  lookback : Z;
  lastPoll : Go.Time
}.

(** [for _, n := range p.notifiers { n.NotifyNewIssue(...) }] *)
Fixpoint notifyNewIssue (ns : list (Notifier.Notifier W))
         (info : Notifier.IssueInfo) : M W unit :=
  match ns with
  | [] => ret tt
  | n :: rest =>
      err <- call (Notifier.NotifyNewIssue n info)
                  (Trace.NotifyNewIssue (Notifier.NotifierName n) info) ;;
      match err with
      | Some e => log (Trace.LogNotifyError e)
      | None => ret tt
      end ;;
      notifyNewIssue rest info
  end.

(** [for _, n := range p.notifiers { n.NotifyReopenedIssue(...) }] *)
Fixpoint notifyReopenedIssue (ns : list (Notifier.Notifier W))
         (info : Notifier.IssueInfo) : M W unit :=
  match ns with
  | [] => ret tt
  | n :: rest =>
      err <- call (Notifier.NotifyReopenedIssue n info)
                  (Trace.NotifyReopenedIssue (Notifier.NotifierName n)
                                             info) ;;
      match err with
      | Some e => log (Trace.LogNotifyError e)
      | None => ret tt
      end ;;
      notifyReopenedIssue rest info
  end.

Definition createNewIssue (p : Processor) (entry : Loki.LogEntry)
           (bugID bugIDLabel : string) : M W (option Go.error) :=
  let title := generateTitle entry in
  let body := generateBody entry bugID in
  let labels := ["auto-generated"; bugIDLabel] in
  let labels :=
    if 500 <=? Loki.Status entry then Go.append labels "severity:critical"
    else Go.append labels "severity:error" in
  err <- Client.EnsureLabel bugIDLabel "0366d6" ;;
  match err with
  | Some e => log (Trace.LogLabelWarning e)
  | None => ret tt
  end ;;
  res <- Client.CreateIssue title body labels ;;
  match res with
  | inr e => ret (Some ("failed to create issue: " ++ e))
  | inl issue =>
      log (Trace.LogCreated (Gitea.Number issue) title bugID) ;;
      notifyNewIssue (notifiers p)
        {| Notifier.Number := Gitea.Number issue;
           Notifier.Title := title;
           Notifier.BugID := bugID;
           Notifier.Endpoint := Loki.Action entry;
           Notifier.HTTPMethod := Loki.Method entry;
           Notifier.StatusCode := Loki.Status entry;
           Notifier.FirstSeen := Loki.Timestamp entry;
           Notifier.Occurrences := 0 |} ;;
      ret None
  end.

Definition updateExistingIssue (p : Processor) (existing : Gitea.Issue)
           (entry : Loki.LogEntry) : M W (option Go.error) :=
  let occurrences := Go.int_add (Gitea.Comments existing) 2 in
  let comment := generateComment entry occurrences in
  err <- Client.AddComment (Gitea.Number existing) comment ;;
  match err with
  | Some e => ret (Some ("failed to add comment: " ++ e))
  | None =>
      (if String.eqb (Gitea.State existing) "closed" then
         err <- Client.ReopenIssue (Gitea.Number existing) ;;
         match err with
         | Some e =>
             log (Trace.LogReopenWarning (Gitea.Number existing) e)
         | None =>
             log (Trace.LogReopened (Gitea.Number existing)) ;;
             notifyReopenedIssue (notifiers p)
               {| Notifier.Number := Gitea.Number existing;
                  Notifier.Title := Gitea.Title existing;
                  Notifier.BugID := "";
                  Notifier.Endpoint := "";
                  Notifier.HTTPMethod := "";
                  Notifier.StatusCode := 0;
                  Notifier.FirstSeen := Go.zeroTime;
                  Notifier.Occurrences := occurrences |}
         end
       else ret tt) ;;
      log (Trace.LogUpdated (Gitea.Number existing) occurrences) ;;
      ret None
  end.

Definition processEntry (p : Processor) (entry : Loki.LogEntry)
  : M W (option Go.error) :=
  let bugID := GenerateBugID entry in
  let bugIDLabel := "bugid:" ++ bugID in
  res <- Client.SearchIssues bugIDLabel ;;
  match res with
  | inr e => ret (Some ("failed to search issues: " ++ e))
  | inl [] => createNewIssue p entry bugID bugIDLabel
  | inl (existing :: _) => updateExistingIssue p existing entry
  end.

(** The body of [for _, entry := range entries] in [poll]; returns the
    updated [errorCount]. *)
Fixpoint processEntries (p : Processor) (entries : list Loki.LogEntry)
         (errorCount : Z) : M W Z :=
  match entries with
  | [] => ret errorCount
  | entry :: rest =>
      if Loki.IsError entry then
        let errorCount := Go.int_add errorCount 1 in
        log (Trace.LogProcessing (Loki.Level entry) (Loki.Status entry)
                                 (Loki.Message entry)) ;;
        err <- processEntry p entry ;;
        match err with
        | Some e => log (Trace.LogEntryError e)
        | None => ret tt
        end ;;
        processEntries p rest errorCount
      else processEntries p rest errorCount
  end.

Definition pollQuery : string :=
  "{job=~" ++ Go.dquote ++ ".+" ++ Go.dquote ++ "} |~ " ++ Go.dquote
    ++ "ERROR|\" ++ Go.dquote ++ "status\" ++ Go.dquote
    ++ ":5[0-9]{2}" ++ Go.dquote ++ " | json".

Definition setLastPoll (p : Processor) (t : Go.Time) : Processor :=
  {| notifiers := notifiers p;
     pollInterval := pollInterval p;
     lookback := lookback p;
     lastPoll := t |}.

(** One poll cycle; returns the processor with its updated watermark. *)
Definition poll (p : Processor) : M W Processor :=
  now <- Client.Now ;;
  let start := lastPoll p in
  res <- Client.QueryRange pollQuery start now 1000 ;;
  match res with
  | inr e => log (Trace.LogQueryError e) ;; ret p
  | inl entries =>
      let p := setLastPoll p now in
      if (Z.of_nat (List.length entries) =? 0)%Z then
        log Trace.LogNoEntries ;; ret p
      else
        log (Trace.LogFound (Z.of_nat (List.length entries))) ;;
        errorCount <- processEntries p entries 0 ;;
        (if (0 <? errorCount)%Z then log (Trace.LogProcessed errorCount)
         else ret tt) ;;
        ret p
  end.

End Lifecycle.

End Processor.

(** ** Reading a trace

    The calls of each kind that a run made, in order, and the outcome of
    processing one entry as the design document names it.  The processor
    returns only an error; which of the three successful outcomes happened
    is read off what it logged. *)

Module Observe.
Import Trace.

Definition searchCalls (evs : list Event) : list string :=
  flat_map (fun ev => match ev with
                      | SearchIssues l _ => [l]
                      | _ => []
                      end) evs.

Definition ensureLabelCalls (evs : list Event) : list (string * string) :=
  flat_map (fun ev => match ev with
                      | EnsureLabel n c _ => [(n, c)]
                      | _ => []
                      end) evs.

Definition createCalls (evs : list Event)
  : list (string * string * list string) :=
  flat_map (fun ev => match ev with
                      | CreateIssue t b ls _ => [(t, b, ls)]
                      | _ => []
                      end) evs.

Definition addCommentCalls (evs : list Event) : list (Z * string) :=
  flat_map (fun ev => match ev with
                      | AddComment n b _ => [(n, b)]
                      | _ => []
                      end) evs.

Definition reopenCalls (evs : list Event) : list Z :=
  flat_map (fun ev => match ev with
                      | ReopenIssue n _ => [n]
                      | _ => []
                      end) evs.

Definition newIssueNotifications (evs : list Event)
  : list (string * Notifier.IssueInfo) :=
  flat_map (fun ev => match ev with
                      | NotifyNewIssue n i _ => [(n, i)]
                      | _ => []
                      end) evs.

Definition reopenedNotifications (evs : list Event)
  : list (string * Notifier.IssueInfo) :=
  flat_map (fun ev => match ev with
                      | NotifyReopenedIssue n i _ => [(n, i)]
                      | _ => []
                      end) evs.

Definition logLines (evs : list Event) : list LogLine :=
  flat_map (fun ev => match ev with
                      | Log l => [l]
                      | _ => []
                      end) evs.

(** A search, create or comment call that returned an error. *)
Definition abortingFailure (ev : Event) : bool :=
  match ev with
  | SearchIssues _ (inr _) => true
  | CreateIssue _ _ _ (inr _) => true
  | AddComment _ _ (Some _) => true
  | _ => false
  end.

(** Any of the four tracker calls of the design document's list (search,
    ensure-label, create, comment) that returned an error. *)
Definition trackerFailure (ev : Event) : bool :=
  match ev with
  | EnsureLabel _ _ (Some _) => true
  | _ => abortingFailure ev
  end.

(** A notification or the log line of a failed notification: what the
    loops over the notifiers produce. *)
Definition notificationOnly (ev : Event) : bool :=
  match ev with
  | NotifyNewIssue _ _ _ => true
  | NotifyReopenedIssue _ _ _ => true
  | Log (LogNotifyError _) => true
  | _ => false
  end.

Definition notifyErrorLine (r : option Go.error) : list Event :=
  match r with
  | Some e => [Log (LogNotifyError e)]
  | None => []
  end.

Inductive Outcome : Type :=
| Created (issue : Z)
| Updated (issue : Z) (occurrenceCount : Z)
| Reopened (issue : Z) (occurrenceCount : Z)
| Failure (err : Go.error).

Definition createdLine (l : LogLine) : option Z :=
  match l with LogCreated n _ _ => Some n | _ => None end.

Definition updatedLine (l : LogLine) : option (Z * Z) :=
  match l with LogUpdated n occ => Some (n, occ) | _ => None end.

Definition reopenedLine (n : Z) (l : LogLine) : bool :=
  match l with LogReopened m => Z.eqb n m | _ => false end.

Fixpoint first {A B : Type} (f : A -> option B) (l : list A) : option B :=
  match l with
  | [] => None
  | x :: rest => match f x with
                 | Some y => Some y
                 | None => first f rest
                 end
  end.

Definition outcome (res : option Go.error) (evs : list Event)
  : option Outcome :=
  match res with
  | Some e => Some (Failure e)
  | None =>
      let lines := logLines evs in
      match first createdLine lines with
      | Some n => Some (Created n)
      | None =>
          match first updatedLine lines with
          | Some (n, occ) =>
              if existsb (reopenedLine n) lines then Some (Reopened n occ)
              else Some (Updated n occ)
          | None => None
          end
      end
  end.

End Observe.

(** ** The properties as the design document words them, where they are
    compared with the code *)

Module Design.

Definition lower (c : ascii) : ascii :=
  let n := nat_of_ascii c in
  if (65 <=? n)%nat && (n <=? 90)%nat then ascii_of_nat (n + 32) else c.

(** Case-insensitive equality of two strings. *)
Fixpoint equalFold (a b : string) : bool :=
  match a, b with
  | EmptyString, EmptyString => true
  | String x a', String y b' => Ascii.eqb (lower x) (lower y) && equalFold a' b'
  | _, _ => false
  end.

(** "Its severity level case-insensitively equals error OR its status code
    is at least 500." *)
Definition qualifies (e : Loki.LogEntry) : Prop :=
  equalFold (Loki.Level e) "error" = true \/ (500 <= Loki.Status e)%Z.

(** "The SHA-256 digest of the 4-tuple joined with a delimiter, truncated
    to the first 8 bytes rendered as hex." *)
Definition digestPrefix (method endpoint : string) (status : Z)
           (function : string) : string :=
  Hex.EncodeToString
    (firstn 8
       (Sha256.Sum256
          (Sha256.string_bytes
             (Go.Join [method; endpoint; Go.itoa status; function] "|")))).

Definition withAction (e : Loki.LogEntry) (action : string) : Loki.LogEntry :=
  {| Loki.Timestamp := Loki.Timestamp e;
     Loki.Raw := Loki.Raw e;
     Loki.Parsed := Loki.Parsed e;
     Loki.Level := Loki.Level e;
     Loki.Message := Loki.Message e;
     Loki.Method := Loki.Method e;
     Loki.Action := action;
     Loki.Status := Loki.Status e;
     Loki.RequestID := Loki.RequestID e;
     Loki.TraceID := Loki.TraceID e;
     Loki.UserID := Loki.UserID e;
     Loki.BugID := Loki.BugID e;
     Loki.Source := Loki.Source e;
     Loki.ElapsedMs := Loki.ElapsedMs e |}.

(** "Rendering uses the raw, un-normalized endpoint": the title of the
    code with the endpoint part taken from the entry as it is. *)
Definition rawTitle {lib : GoLib} (entry : Loki.LogEntry) : string :=
  let parts := [] in
  let parts :=
    if (500 <=? Loki.Status entry)%Z then
      Go.append parts ("[" ++ Go.itoa (Loki.Status entry) ++ "]")
    else if negb (String.eqb (Loki.Level entry) "") then
      Go.append parts ("[" ++ strings_ToUpper (Loki.Level entry) ++ "]")
    else parts in
  let parts :=
    if negb (String.eqb (Loki.Method entry) "")
       && negb (String.eqb (Loki.Action entry) "") then
      Go.append parts (Loki.Method entry ++ " " ++ Loki.Action entry)
    else parts in
  let parts :=
    if negb (String.eqb (Loki.Message entry) "")
       && (Go.len (Loki.Message entry) <? 80)%Z then
      Go.append parts (Loki.Message entry)
    else parts in
  if (List.length parts =? 0)%nat then "Unknown error"
  else Go.Join parts " - ".

(** A title from its parts: joined by the separator, or the fallback when
    there is none. *)
Definition titleOf (parts : list string) : string :=
  match parts with
  | [] => "Unknown error"
  | _ :: _ => Go.Join parts " - "
  end.

(** The label set of a new issue: the marker, the fingerprint label and
    the severity label. *)
Definition issueLabels (entry : Loki.LogEntry) (bugIDLabel : string)
  : list string :=
  ["auto-generated"; bugIDLabel;
   if (500 <=? Loki.Status entry)%Z then "severity:critical"
   else "severity:error"].

(** The event a reopened notification carries: the issue's number and
    title and the updated occurrence count. *)
Definition reopenedEvent (existing : Gitea.Issue) (occurrences : Z)
  : Notifier.IssueInfo :=
  {| Notifier.Number := Gitea.Number existing;
     Notifier.Title := Gitea.Title existing;
     Notifier.BugID := "";
     Notifier.Endpoint := "";
     Notifier.HTTPMethod := "";
     Notifier.StatusCode := 0;
     Notifier.FirstSeen := Go.zeroTime;
     Notifier.Occurrences := occurrences |}.

(** The event a new-issue notification carries. *)
Definition newIssueEvent (issue : Gitea.Issue) (title bugID : string)
           (entry : Loki.LogEntry) : Notifier.IssueInfo :=
  {| Notifier.Number := Gitea.Number issue;
     Notifier.Title := title;
     Notifier.BugID := bugID;
     Notifier.Endpoint := Loki.Action entry;
     Notifier.HTTPMethod := Loki.Method entry;
     Notifier.StatusCode := Loki.Status entry;
     Notifier.FirstSeen := Loki.Timestamp entry;
     Notifier.Occurrences := 0 |}.

(** The endpoint part of a title: the method and the normalized endpoint,
    when both are present. *)
Definition endpointPart (method action : string) : list string :=
  if negb (String.eqb method "") && negb (String.eqb action "") then
    [method ++ " " ++ Processor.normalizeEndpoint action]
  else [].

(** A path is its first chunk and the segments that follow each [/]. *)
Fixpoint split (s : list ascii) : list ascii * list (list ascii) :=
  match s with
  | [] => ([], [])
  | c :: rest =>
      let r := split rest in
      if Ascii.eqb c "/" then ([], fst r :: snd r)
      else (c :: fst r, snd r)
  end.

Definition join (p : list ascii * list (list ascii)) : list ascii :=
  (fst p ++ flat_map (fun seg => "/"%char :: seg) (snd p))%list.

(** The same in plain terms.  [shaped classes s]: the first bytes of [s]
    are in the given classes, one byte for each class. *)
Fixpoint shaped (classes : list (ascii -> bool)) (s : list ascii) : bool :=
  match classes, s with
  | [], _ => true
  | cls :: classes', c :: s' => cls c && shaped classes' s'
  | _ :: _, [] => false
  end.

(** 8-4-4-4-12 lower-case hexadecimal digits separated by dashes. *)
Definition uuidShape : list (ascii -> bool) :=
  (repeat Regexp.lowerhex 8 ++ Regexp.is_byte "-"
     :: repeat Regexp.lowerhex 4 ++ Regexp.is_byte "-"
     :: repeat Regexp.lowerhex 4 ++ Regexp.is_byte "-"
     :: repeat Regexp.lowerhex 4 ++ Regexp.is_byte "-"
     :: repeat Regexp.lowerhex 12)%list.

Fixpoint dropDigits (s : list ascii) : list ascii :=
  match s with
  | c :: rest => if Regexp.digit c then dropDigits rest else s
  | [] => []
  end.

(** A segment that starts with a digit has its leading digits replaced by
    [:id]; otherwise a segment that starts with a UUID has the UUID
    replaced by [:uuid]; any other segment is kept. *)
Definition rewrittenSegment (seg : list ascii) : list ascii :=
  match seg with
  | [] => []
  | c :: rest =>
      if Regexp.digit c then (Go.bytes ":id" ++ dropDigits rest)%list
      else if shaped uuidShape seg then
        (Go.bytes ":uuid" ++ skipn 36 seg)%list
      else seg
  end.

(** What [normalizeEndpoint] does to one segment: the numeric pattern
    first, the UUID pattern on its result. *)
Definition normalizeSegment (seg : list ascii) : list ascii :=
  Regexp.rewriteSegment (tl Processor.uuid) (Go.bytes ":uuid")
    (Regexp.rewriteSegment (tl Processor.numericID) (Go.bytes ":id") seg).

(** "Forwarded to the Issue Lifecycle Engine": each entry of the list, in
    order, is announced in the log and handed to [processEntry], its error
    is logged when it has one, and it is counted. *)
Fixpoint forwardAll {W : Type} {env : Env W} {lib : GoLib}
         (p : Processor.Processor (W := W)) (entries : list Loki.LogEntry)
         (errorCount : Z) : Eff.M W Z :=
  match entries with
  | [] => Eff.ret errorCount
  | entry :: rest =>
      Eff.bind
        (Eff.log (Trace.LogProcessing (Loki.Level entry) (Loki.Status entry)
                                      (Loki.Message entry)))
        (fun _ =>
           Eff.bind (Processor.processEntry p entry)
             (fun err =>
                Eff.bind
                  match err with
                  | Some e => Eff.log (Trace.LogEntryError e)
                  | None => Eff.ret tt
                  end
                  (fun _ => forwardAll p rest (Go.int_add errorCount 1))))
  end.

End Design.

(** ** A tracker, a log source and notifiers kept in memory, to run the
    processor on *)

Module Fake.
Local Open Scope Z_scope.

Record World : Type := {
  issues : list Gitea.Issue;
  labels : list string;
  clock : Go.Time;
  answers : list (list Loki.LogEntry + Go.error);
  failing : list string;
  delivered : list string
}.

Definition fails (op : string) (w : World) : bool :=
  existsb (String.eqb op) (failing w).

Definition withIssues (w : World) (l : list Gitea.Issue) : World :=
  {| issues := l; labels := labels w; clock := clock w;
     answers := answers w; failing := failing w;
     delivered := delivered w |}.

Definition withLabels (w : World) (l : list string) : World :=
  {| issues := issues w; labels := l; clock := clock w;
     answers := answers w; failing := failing w;
     delivered := delivered w |}.

Definition hasLabel (l : string) (i : Gitea.Issue) : bool :=
  existsb (fun x => String.eqb (Gitea.Name x) l) (Gitea.Labels i).

Definition search (l : string) (w : World)
  : (list Gitea.Issue + Go.error) * World :=
  if fails "search" w then (inr "Gitea returned status 502: ", w)
  else (inl (filter (hasLabel l) (issues w)), w).

Definition createLabel (name color : string) (w : World)
  : option Go.error * World :=
  if fails "label" w then (Some "Gitea returned status 500: ", w)
  else if existsb (String.eqb name) (labels w) then
    (Some "Gitea returned status 409: ", w)
  else (None, withLabels w (labels w ++ [name])).

Definition create (title body : string) (ls : list string) (w : World)
  : (Gitea.Issue + Go.error) * World :=
  if fails "create" w then (inr "Gitea returned status 500: ", w)
  else
    let n := Z.of_nat (List.length (issues w)) + 1 in
    let i := {| Gitea.ID := 1000 + n; Gitea.Number := n;
                Gitea.Title := title; Gitea.Body := body;
                Gitea.State := "open";
                Gitea.Labels :=
                  map (fun l => {| Gitea.LabelID := 0; Gitea.Name := l;
                                   Gitea.Color := "" |}) ls;
                Gitea.Comments := 0;
                Gitea.CreatedAt := clock w;
                Gitea.UpdatedAt := clock w |} in
    (inl i, withIssues w (issues w ++ [i])).

Definition update (f : Gitea.Issue -> Gitea.Issue) (n : Z) (w : World)
  : World :=
  withIssues w
    (map (fun i => if Gitea.Number i =? n then f i else i) (issues w)).

Definition commented (i : Gitea.Issue) : Gitea.Issue :=
  {| Gitea.ID := Gitea.ID i; Gitea.Number := Gitea.Number i;
     Gitea.Title := Gitea.Title i; Gitea.Body := Gitea.Body i;
     Gitea.State := Gitea.State i; Gitea.Labels := Gitea.Labels i;
     Gitea.Comments := Gitea.Comments i + 1;
     Gitea.CreatedAt := Gitea.CreatedAt i;
     Gitea.UpdatedAt := Gitea.UpdatedAt i |}.

Definition opened (i : Gitea.Issue) : Gitea.Issue :=
  {| Gitea.ID := Gitea.ID i; Gitea.Number := Gitea.Number i;
     Gitea.Title := Gitea.Title i; Gitea.Body := Gitea.Body i;
     Gitea.State := "open"; Gitea.Labels := Gitea.Labels i;
     Gitea.Comments := Gitea.Comments i;
     Gitea.CreatedAt := Gitea.CreatedAt i;
     Gitea.UpdatedAt := Gitea.UpdatedAt i |}.

Definition comment (n : Z) (body : string) (w : World)
  : option Go.error * World :=
  if fails "comment" w then (Some "Gitea returned status 500: ", w)
  else (None, update commented n w).

Definition reopen (n : Z) (w : World) : option Go.error * World :=
  if fails "reopen" w then (Some "Gitea returned status 500: ", w)
  else (None, update opened n w).

(** Loki gives its scripted answers one after the other. *)
Definition query (q : string) (start stop : Go.Time) (limit : Z) (w : World)
  : (list Loki.LogEntry + Go.error) * World :=
  match answers w with
  | [] => (inl [], w)
  | a :: rest =>
      (a, {| issues := issues w; labels := labels w; clock := clock w;
             answers := rest; failing := failing w;
             delivered := delivered w |})
  end.

(** The clock moves thirty seconds each time it is read. *)
Definition now (w : World) : Go.Time * World :=
  (clock w, {| issues := issues w; labels := labels w;
               clock := clock w + 30000000000;
               answers := answers w; failing := failing w;
               delivered := delivered w |}).

Definition env : Env World :=
  {| gitea_SearchIssues := search;
     gitea_createLabel := createLabel;
     gitea_CreateIssue := create;
     gitea_AddComment := comment;
     gitea_ReopenIssue := reopen;
     loki_QueryRange := query;
     time_Now := now |}.

Definition upper (c : ascii) : ascii :=
  let n := nat_of_ascii c in
  if (97 <=? n)%nat && (n <=? 122)%nat then ascii_of_nat (n - 32) else c.

Fixpoint toUpper (s : string) : string :=
  match s with
  | EmptyString => EmptyString
  | String c rest => String (upper c) (toUpper rest)
  end.

(** Stand-ins for the library: upper-casing of ASCII letters, times shown
    as their number of nanoseconds, an empty JSON object. *)
Definition lib : GoLib :=
  {| strings_ToUpper := toUpper;
     time_Format_RFC3339 := Go.itoa;
     json_MarshalIndent := fun _ => inl "{}" |}.

Definition deliver (msg : string) (w : World) : World :=
  {| issues := issues w; labels := labels w; clock := clock w;
     answers := answers w; failing := failing w;
     delivered := delivered w ++ [msg] |}.

Definition slack : Notifier.Notifier World :=
  {| Notifier.NotifyNewIssue :=
       fun i w => (None, deliver ("new #" ++ Go.itoa (Notifier.Number i)) w);
     Notifier.NotifyReopenedIssue :=
       fun i w =>
         (None, deliver ("reopened #" ++ Go.itoa (Notifier.Number i)) w);
     Notifier.NotifierName := "slack" |}.

Definition broken : Notifier.Notifier World :=
  {| Notifier.NotifyNewIssue :=
       fun i w => (Some "Discord webhook returned status 500", w);
     Notifier.NotifyReopenedIssue :=
       fun i w => (Some "Discord webhook returned status 500", w);
     Notifier.NotifierName := "discord" |}.

Definition entry (level method action : string) (status : Z)
           (function : string) : Loki.LogEntry :=
  {| Loki.Timestamp := 1700000000000000000;
     Loki.Raw := "";
     Loki.Parsed := [];
     Loki.Level := level;
     Loki.Message := "Database timeout";
     Loki.Method := method;
     Loki.Action := action;
     Loki.Status := status;
     Loki.RequestID := "";
     Loki.TraceID := "";
     Loki.UserID := "";
     Loki.BugID := "";
     Loki.Source := {| Loki.Function := function; Loki.File := "";
                       Loki.Line := 0 |};
     Loki.ElapsedMs := 0 |}.

Definition world (known : list Gitea.Issue) (bad : list string) : World :=
  {| issues := known; labels := []; clock := 1700000000000000000;
     answers := []; failing := bad; delivered := [] |}.

(** An empty tracker in front of a Loki that gives the scripted answers. *)
Definition scripted (script : list (list Loki.LogEntry + Go.error)) : World :=
  {| issues := []; labels := []; clock := 1700000000000000000;
     answers := script; failing := []; delivered := [] |}.

Definition processor (ns : list (Notifier.Notifier World))
  : Processor.Processor (W := World) :=
  {| Processor.notifiers := ns;
     Processor.pollInterval := 30000000000;
     Processor.lookback := 300000000000;
     Processor.lastPoll := 1700000000000000000 - 300000000000 |}.

Definition tracked (n : Z) (state bugID : string) (comments : Z)
  : Gitea.Issue :=
  {| Gitea.ID := 1000 + n; Gitea.Number := n;
     Gitea.Title := "[500] PUT /api/v1/coffee/:id - Database timeout";
     Gitea.Body := "";
     Gitea.State := state;
     Gitea.Labels := [ {| Gitea.LabelID := 1;
                          Gitea.Name := "bugid:" ++ bugID;
                          Gitea.Color := "0366d6" |} ];
     Gitea.Comments := comments;
     Gitea.CreatedAt := 1690000000000000000;
     Gitea.UpdatedAt := 1690000000000000000 |}.

(** An issue that tracks the coffee entry below, open with three
    comments, and the same issue closed without comments. *)
Definition openIssue : Gitea.Issue := tracked 7 "open" "39b1206b4907ff39" 3.
Definition closedIssue : Gitea.Issue :=
  tracked 7 "closed" "39b1206b4907ff39" 0.

(** The entry of the design document's examples and its fingerprint. *)
Definition coffee : Loki.LogEntry :=
  entry "" "PUT" "/api/v1/coffee/123" 500 "f".
Definition coffeeID : string := "39b1206b4907ff39".

End Fake.


(** ** Package [notifier]: the Telegram escaping and the fan-out *)

Module Telegram.

(** [string(text[i])]: the conversion of a byte, an integer, to a string is
    the UTF-8 encoding of the code point of that number, one byte below 128
    and two bytes from 128 on. *)
Definition string_of_byte (b : ascii) : string :=
  let n := nat_of_ascii b in
  if (n <? 128)%nat then String b ""
  else String (ascii_of_nat (192 + n / 64))
         (String (ascii_of_nat (128 + n mod 64)) "").

Definition backslash : ascii := ascii_of_nat 92.

Fixpoint escapeChar (text char : string) : string :=
  match text with
  | EmptyString => EmptyString
  | String b rest =>
      if String.eqb (string_of_byte b) char then
        String backslash (String b (escapeChar rest char))
      else String b (escapeChar rest char)
  end.

(** The characters MarkdownV2 reserves, as [escapeMarkdown] lists them. *)
Definition chars : list string :=
  ["_"; "*"; "["; "]"; "("; ")"; "~"; "`"; ">"; "#"; "+"; "-"; "="; "|";
   "{"; "}"; "."; "!"].

Definition escapeMarkdown (text : string) : string :=
  let result := text in
  fold_left escapeChar chars result.

End Telegram.

Module MultiNotifier.
Import Eff.
Local Open Scope eff_scope.

Section Fanout.
Context {W : Type}.

Record MultiNotifier : Type := { notifiers : list (Notifier.Notifier W) }.

Definition NewMultiNotifier (ns : list (Notifier.Notifier W))
  : MultiNotifier :=
  {| notifiers := ns |}.

(** The loop of [NotifyNewIssue], with [lastErr] as it stands. *)
Fixpoint notifyNewIssueFrom (ns : list (Notifier.Notifier W))
         (issue : Notifier.IssueInfo) (lastErr : option Go.error)
  : M W (option Go.error) :=
  match ns with
  | [] => ret lastErr
  | n :: rest =>
      err <- call (Notifier.NotifyNewIssue n issue)
                  (Trace.NotifyNewIssue (Notifier.NotifierName n) issue) ;;
      let lastErr := match err with
                     | Some e => Some e
                     | None => lastErr
                     end in
      notifyNewIssueFrom rest issue lastErr
  end.

Definition NotifyNewIssue (m : MultiNotifier) (issue : Notifier.IssueInfo)
  : M W (option Go.error) :=
  notifyNewIssueFrom (notifiers m) issue None.

(** The loop of [NotifyReopenedIssue], with [lastErr] as it stands. *)
Fixpoint notifyReopenedIssueFrom (ns : list (Notifier.Notifier W))
         (issue : Notifier.IssueInfo) (lastErr : option Go.error)
  : M W (option Go.error) :=
  match ns with
  | [] => ret lastErr
  | n :: rest =>
      err <- call (Notifier.NotifyReopenedIssue n issue)
                  (Trace.NotifyReopenedIssue (Notifier.NotifierName n)
                                             issue) ;;
      let lastErr := match err with
                     | Some e => Some e
                     | None => lastErr
                     end in
      notifyReopenedIssueFrom rest issue lastErr
  end.

Definition NotifyReopenedIssue (m : MultiNotifier)
           (issue : Notifier.IssueInfo) : M W (option Go.error) :=
  notifyReopenedIssueFrom (notifiers m) issue None.

Definition Name (m : MultiNotifier) : string := "multi".

End Fanout.
End MultiNotifier.

(** ** Package [loki]: from the lines Loki returns to log entries

    [LokiLib] gathers the library functions of the parser that are not
    rebuilt here: [json.Unmarshal] into a map, [fmt.Sscanf] with [%d], and
    the conversion [int(x)] of a [float64].

    [json.Unmarshal] is given the address of the empty map of the entry.
    It returns its error, and the map holds what the decoder stored in it,
    which need not be nothing when there is an error: a number that does
    not fit a [float64] is reported at the end, after the other members of
    the object have been stored. *)

Class LokiLib : Type := {
  json_Unmarshal : string -> list (string * Json.value) * option Go.error;
  fmt_Sscanf_d : string -> Z + Go.error;
  int_of_float64 : Z -> Z
}.

Module LokiClient.

Record Stream : Type := {
  StreamLabels : list (string * string);
  Values : list (list string)
}.

(** [m[key]] on a decoded object. *)
Fixpoint get (m : list (string * Json.value)) (key : string)
  : option Json.value :=
  match m with
  | [] => None
  | (k, v) :: rest => if String.eqb k key then Some v else get rest key
  end.

(** The type assertions [.(string)], [.(float64)] and
    [.(map[string]interface{})] on the result of a lookup. *)
Definition asString (v : option Json.value) : option string :=
  match v with
  | Some (Json.Str s) => Some s
  | _ => None
  end.

Definition asFloat64 (v : option Json.value) : option Z :=
  match v with
  | Some (Json.Number bits) => Some bits
  | _ => None
  end.

Definition asObject (v : option Json.value)
  : option (list (string * Json.value)) :=
  match v with
  | Some (Json.Object fields) => Some fields
  | _ => None
  end.

(** [if x, ok := ...; ok { field = x }] *)
Definition orKeep {A : Type} (x : option A) (field : A) : A :=
  match x with
  | Some v => v
  | None => field
  end.

Section Parse.
Context {lib : LokiLib}.

Definition extractFields (entry : Loki.LogEntry) : Loki.LogEntry :=
  let parsed := Loki.Parsed entry in
  {| Loki.Timestamp := Loki.Timestamp entry;
     Loki.Raw := Loki.Raw entry;
     Loki.Parsed := parsed;
     Loki.Level := orKeep (asString (get parsed "level")) (Loki.Level entry);
     Loki.Message := orKeep (asString (get parsed "msg")) (Loki.Message entry);
     Loki.Method :=
       orKeep (asString (get parsed "method")) (Loki.Method entry);
     Loki.Action :=
       orKeep (asString (get parsed "action")) (Loki.Action entry);
     Loki.Status :=
       orKeep (option_map int_of_float64 (asFloat64 (get parsed "status")))
              (Loki.Status entry);
     Loki.RequestID :=
       orKeep (asString (get parsed "requestId")) (Loki.RequestID entry);
     Loki.TraceID :=
       orKeep (asString (get parsed "traceId")) (Loki.TraceID entry);
     Loki.UserID :=
       orKeep (asString (get parsed "userid")) (Loki.UserID entry);
     Loki.BugID := orKeep (asString (get parsed "bugId")) (Loki.BugID entry);
     Loki.Source :=
       match asObject (get parsed "source") with
       | Some source =>
           {| Loki.Function :=
                orKeep (asString (get source "function"))
                       (Loki.Function (Loki.Source entry));
              Loki.File :=
                orKeep (asString (get source "file"))
                       (Loki.File (Loki.Source entry));
              Loki.Line :=
                orKeep (option_map int_of_float64
                          (asFloat64 (get source "line")))
                       (Loki.Line (Loki.Source entry)) |}
       | None => Loki.Source entry
       end;
     Loki.ElapsedMs :=
       orKeep (asFloat64 (get parsed "elapsed_ms")) (Loki.ElapsedMs entry) |}.

(** The entry [LogEntry{Timestamp: ts, Raw: raw, Parsed: parsed}]; the
    other fields have their zero values. *)
Definition newEntry (ts : Go.Time) (raw : string)
           (parsed : list (string * Json.value)) : Loki.LogEntry :=
  {| Loki.Timestamp := ts; Loki.Raw := raw; Loki.Parsed := parsed;
     Loki.Level := ""; Loki.Message := ""; Loki.Method := "";
     Loki.Action := ""; Loki.Status := 0; Loki.RequestID := "";
     Loki.TraceID := ""; Loki.UserID := ""; Loki.BugID := "";
     Loki.Source := {| Loki.Function := ""; Loki.File := ""; Loki.Line := 0 |};
     Loki.ElapsedMs := 0 |}.

(** The body of the inner loop of [parseStreams]: [entries] after one
    [value]. *)
Definition parseValue (entries : list Loki.LogEntry) (value : list string)
  : list Loki.LogEntry :=
  match value with
  | value0 :: value1 :: _ =>
      let ts :=
        match fmt_Sscanf_d value0 with
        | inl tsNano => tsNano
        | inr _ => Go.zeroTime
        end in
      let entry := newEntry ts value1 (fst (json_Unmarshal value1)) in
      let entry :=
        match snd (json_Unmarshal value1) with
        | None => extractFields entry
        | Some _ => entry
        end in
      Go.append entries entry
  | _ => entries
  end.

Definition parseStreams (streams : list Stream) : list Loki.LogEntry :=
  fold_left (fun entries stream =>
               fold_left parseValue (Values stream) entries)
            streams [].

End Parse.
End LokiClient.

(** ** Effects with other events: the same computations over any type of
    events, for the layers above and below the processor *)

Module Act.

Section Monad.
Context {W E : Type}.

Record Result (A : Type) : Type := {
  val : A;
  after : W;
  events : list E
}.
Arguments val {A}.
Arguments after {A}.
Arguments events {A}.

Definition M (A : Type) : Type := W -> Result A.

Definition ret {A : Type} (a : A) : M A :=
  fun w => {| val := a; after := w; events := [] |}.

Definition bind {A B : Type} (m : M A) (k : A -> M B) : M B :=
  fun w =>
    let r1 := m w in
    let r2 := k (val r1) (after r1) in
    {| val := val r2;
       after := after r2;
       events := (events r1 ++ events r2)%list |}.

Definition emit (e : E) : M unit :=
  fun w => {| val := tt; after := w; events := [e] |}.

Definition call {A : Type} (f : W -> A * W) (ev : A -> E) : M A :=
  fun w =>
    let r := f w in
    {| val := fst r; after := snd r; events := [ev (fst r)] |}.

(** A computation of the processor, its events wrapped by [inj]. *)
Definition embed {A : Type} (inj : Trace.Event -> E) (m : Eff.M W A) : M A :=
  fun w =>
    let r := m w in
    {| val := Eff.val r;
       after := Eff.after r;
       events := map inj (Eff.events r) |}.

End Monad.

Arguments Result : clear implicits.
Arguments M : clear implicits.
Arguments val {W E A}.
Arguments after {W E A}.
Arguments events {W E A}.

Declare Scope act_scope.
Delimit Scope act_scope with act.
Notation "x <- c ;; k" := (bind c (fun x => k))
  (at level 61, c at next level, right associativity) : act_scope.
Notation "c ;; k" := (bind c (fun _ => k))
  (at level 61, right associativity) : act_scope.

End Act.

(** ** Package [processor]: [Start] and [ensureLabels]

    [Start] waits in a [select] for the cancellation of its context or the
    next tick; which of the two it sees each time is given by a list of
    signals, and a run is followed for as long as the list lasts.  The
    order in which [ensureLabels] ranges over its map is not fixed by Go:
    it is an argument too. *)

Class ConnEnv (W : Type) : Type := {
  gitea_TestConnection : W -> option Go.error * W
}.

Module Startup.
Import Act.
Local Open Scope act_scope.
Local Open Scope Z_scope.

(** One constructor for each [log.Printf] and [log.Println] of [Start] and
    [ensureLabels]. *)
Inductive Line : Type :=
| LogStarting (pollInterval lookback : Z)
| LogConnectionWarning (err : Go.error)
| LogWillRetry
| LogConnected
| LogEnsureWarning (name : string) (err : Go.error)
| LogStopping.

Inductive Event : Type :=
| Core (ev : Trace.Event)
| TestConnection (res : option Go.error)
| Log (line : Line).

Inductive Signal : Type := Tick | Done.

(** How a run stands at the end of the signals: [Start] has returned, it
    has panicked, or it is waiting in its [select]. *)
Inductive Exit : Type :=
| Returned
| Panicked (msg : string)
| Selecting.

Section Start.
Context {W : Type} {env : Env W} {conn : ConnEnv W} {lib : GoLib}.

(** The map literal of [ensureLabels]. *)
Definition labels : list (string * string) :=
  [("auto-generated", "808080");
   ("severity:critical", "ff0000");
   ("severity:error", "ff9900")].

(** [for name, color := range labels], in the order [order]. *)
Fixpoint ensureLabels (order : list (string * string)) : M W Event unit :=
  match order with
  | [] => ret tt
  | (name, color) :: rest =>
      err <- embed Core (Client.EnsureLabel name color) ;;
      match err with
      | Some e => emit (Log (LogEnsureWarning name e))
      | None => ret tt
      end ;;
      ensureLabels rest
  end.

(** The [for { select { ... } }] of [Start]. *)
Fixpoint loop (p : Processor.Processor (W := W)) (signals : list Signal)
  : M W Event (Exit * Processor.Processor (W := W)) :=
  match signals with
  | [] => ret (Selecting, p)
  | Done :: _ => emit (Log LogStopping) ;; ret (Returned, p)
  | Tick :: rest =>
      p' <- embed Core (Processor.poll p) ;;
      loop p' rest
  end.

(** [time.NewTicker] panics on an interval that is not positive. *)
Definition Start (p : Processor.Processor (W := W))
           (order : list (string * string)) (signals : list Signal)
  : M W Event (Exit * Processor.Processor (W := W)) :=
  emit (Log (LogStarting (Processor.pollInterval p) (Processor.lookback p))) ;;
  err <- call gitea_TestConnection TestConnection ;;
  match err with
  | Some e =>
      emit (Log (LogConnectionWarning e)) ;; emit (Log LogWillRetry)
  | None =>
      emit (Log LogConnected) ;; ensureLabels order
  end ;;
  if Processor.pollInterval p <=? 0 then
    ret (Panicked "non-positive interval for NewTicker", p)
  else
    p' <- embed Core (Processor.poll p) ;;
    loop p' signals.

End Start.
End Startup.

(** ** Package [gitea]: the client, over HTTP

    A request is what [http.NewRequest] makes and the client then sets
    headers on; [http_Do] stands for one call of [httpClient.Do] followed
    by reading the body of the response.  What [Do] puts on the wire for
    the request it is handed is the library's business and is in the
    outside world: the client is a default [http.Client], which follows
    redirects, so one call may send more than the request it was handed.
    The events record the calls of [Do], each with the request handed to
    it and the answer it returned.  [GiteaLib] gathers the library functions that
    are not rebuilt here: the check [http.NewRequest] makes of its method
    and URL, [url.QueryEscape], [json.Marshal] of a request body and the
    JSON decoding of an issue and of a list of issues. *)

Module Http.

Record Request : Type := {
  Method : string;
  URL : string;
  Header : list (string * string);
  Body : option string
}.

Record Response : Type := {
  StatusCode : Z;
  RespBody : string
}.

(** [req.Header.Set(key, value)] *)
Definition Set_ (req : Request) (key value : string) : Request :=
  {| Method := Method req;
     URL := URL req;
     Header := (key, value)
                 :: filter (fun kv => negb (String.eqb (fst kv) key))
                           (Header req);
     Body := Body req |}.

(** The value of a header, if it is set. *)
Fixpoint lookup (h : list (string * string)) (key : string)
  : option string :=
  match h with
  | [] => None
  | (k, v) :: rest => if String.eqb k key then Some v else lookup rest key
  end.

End Http.

Class HttpEnv (W : Type) : Type := {
  http_Do : Http.Request -> W -> (Http.Response + Go.error) * W
}.

Class GiteaLib : Type := {
  http_NewRequest_check : string -> string -> option Go.error;
  url_QueryEscape : string -> string;
  json_Marshal : Json.value -> string + Go.error;
  json_Decode_issues : string -> list Gitea.Issue + Go.error;
  json_Decode_issue : string -> Gitea.Issue + Go.error
}.

Module GiteaHttp.
Import Act.
Local Open Scope act_scope.
Local Open Scope Z_scope.

Inductive Event : Type :=
| Do (req : Http.Request) (res : Http.Response + Go.error).

Record Client : Type := {
  baseURL : string;
  token : string;
  owner : string;
  repo : string
}.

Definition NewClient (baseURL token owner repo : string) : Client :=
  {| baseURL := baseURL; token := token; owner := owner; repo := repo |}.

Section Methods.
Context {W : Type} {http : HttpEnv W} {lib : GiteaLib}.

Definition NewRequest (method url : string) (body : option string)
  : Http.Request + Go.error :=
  match http_NewRequest_check method url with
  | Some err => inr err
  | None => inl {| Http.Method := method; Http.URL := url;
                   Http.Header := []; Http.Body := body |}
  end.

Definition setAuth (c : Client) (req : Http.Request) : Http.Request :=
  Http.Set_ req "Authorization" ("token " ++ token c).

Definition httpDo (req : Http.Request)
  : M W Event (Http.Response + Go.error) :=
  call (http_Do req) (Do req).

(** [fmt.Errorf("Gitea returned status %d: %s", ...)] *)
Definition statusError (resp : Http.Response) : Go.error :=
  "Gitea returned status " ++ Go.itoa (Http.StatusCode resp) ++ ": "
    ++ Http.RespBody resp.

(** [params.Encode()] writes the keys in order, [labels] before
    [state]. *)
Definition SearchIssues (c : Client) (labelName : string)
  : M W Event (list Gitea.Issue + Go.error) :=
  let params :=
    "labels=" ++ url_QueryEscape labelName
      ++ "&state=" ++ url_QueryEscape "all" in
  let reqURL :=
    baseURL c ++ "/api/v1/repos/" ++ owner c ++ "/" ++ repo c
      ++ "/issues?" ++ params in
  match NewRequest "GET" reqURL None with
  | inr err => ret (inr err)
  | inl req =>
      let req := setAuth c req in
      res <- httpDo req ;;
      match res with
      | inr err => ret (inr ("failed to search issues: " ++ err))
      | inl resp =>
          if negb (Http.StatusCode resp =? 200) then
            ret (inr (statusError resp))
          else
            match json_Decode_issues (Http.RespBody resp) with
            | inr err => ret (inr ("failed to decode response: " ++ err))
            | inl issues => ret (inl issues)
            end
      end
  end.

(** [CreateIssueRequest]; [labels] is left out when empty. *)
Definition createIssueRequest (title body : string) (labels : list string)
  : Json.value :=
  Json.Object
    ([("title", Json.Str title); ("body", Json.Str body)]
       ++ match labels with
          | [] => []
          | _ => [("labels", Json.Array (map Json.Str labels))]
          end)%list.

Definition CreateIssue (c : Client) (title body : string)
           (labels : list string) : M W Event (Gitea.Issue + Go.error) :=
  let reqBody := createIssueRequest title body labels in
  match json_Marshal reqBody with
  | inr err => ret (inr err)
  | inl jsonBody =>
      let reqURL :=
        baseURL c ++ "/api/v1/repos/" ++ owner c ++ "/" ++ repo c
          ++ "/issues" in
      match NewRequest "POST" reqURL (Some jsonBody) with
      | inr err => ret (inr err)
      | inl req =>
          let req := setAuth c req in
          let req := Http.Set_ req "Content-Type" "application/json" in
          res <- httpDo req ;;
          match res with
          | inr err => ret (inr ("failed to create issue: " ++ err))
          | inl resp =>
              if negb (Http.StatusCode resp =? 201) then
                ret (inr (statusError resp))
              else
                match json_Decode_issue (Http.RespBody resp) with
                | inr err =>
                    ret (inr ("failed to decode response: " ++ err))
                | inl issue => ret (inl issue)
                end
          end
      end
  end.

Definition AddComment (c : Client) (issueNumber : Z) (body : string)
  : M W Event (option Go.error) :=
  let reqBody := Json.Object [("body", Json.Str body)] in
  match json_Marshal reqBody with
  | inr err => ret (Some err)
  | inl jsonBody =>
      let reqURL :=
        baseURL c ++ "/api/v1/repos/" ++ owner c ++ "/" ++ repo c
          ++ "/issues/" ++ Go.itoa issueNumber ++ "/comments" in
      match NewRequest "POST" reqURL (Some jsonBody) with
      | inr err => ret (Some err)
      | inl req =>
          let req := setAuth c req in
          let req := Http.Set_ req "Content-Type" "application/json" in
          res <- httpDo req ;;
          match res with
          | inr err => ret (Some ("failed to add comment: " ++ err))
          | inl resp =>
              if negb (Http.StatusCode resp =? 201) then
                ret (Some (statusError resp))
              else ret None
          end
      end
  end.

Definition ReopenIssue (c : Client) (issueNumber : Z)
  : M W Event (option Go.error) :=
  let reqBody := Json.Object [("state", Json.Str "open")] in
  match json_Marshal reqBody with
  | inr err => ret (Some err)
  | inl jsonBody =>
      let reqURL :=
        baseURL c ++ "/api/v1/repos/" ++ owner c ++ "/" ++ repo c
          ++ "/issues/" ++ Go.itoa issueNumber in
      match NewRequest "PATCH" reqURL (Some jsonBody) with
      | inr err => ret (Some err)
      | inl req =>
          let req := setAuth c req in
          let req := Http.Set_ req "Content-Type" "application/json" in
          res <- httpDo req ;;
          match res with
          | inr err => ret (Some ("failed to reopen issue: " ++ err))
          | inl resp =>
              if negb (Http.StatusCode resp =? 201)
                 && negb (Http.StatusCode resp =? 200) then
                ret (Some (statusError resp))
              else ret None
          end
      end
  end.

Definition createLabel (c : Client) (name color : string)
  : M W Event (option Go.error) :=
  let reqBody :=
    Json.Object [("name", Json.Str name); ("color", Json.Str color)] in
  match json_Marshal reqBody with
  | inr err => ret (Some err)
  | inl jsonBody =>
      let reqURL :=
        baseURL c ++ "/api/v1/repos/" ++ owner c ++ "/" ++ repo c
          ++ "/labels" in
      match NewRequest "POST" reqURL (Some jsonBody) with
      | inr err => ret (Some err)
      | inl req =>
          let req := setAuth c req in
          let req := Http.Set_ req "Content-Type" "application/json" in
          res <- httpDo req ;;
          match res with
          | inr err => ret (Some ("failed to create label: " ++ err))
          | inl resp =>
              if negb (Http.StatusCode resp =? 201) then
                ret (Some (statusError resp))
              else ret None
          end
      end
  end.

Definition EnsureLabel (c : Client) (name color : string)
  : M W Event (option Go.error) :=
  err <- createLabel c name color ;;
  match err with
  | Some e => if negb (Go.Contains e "409") then ret (Some e) else ret None
  | None => ret None
  end.

(** No status is looked at here. *)
Definition GetIssueCommentCount (c : Client) (issueNumber : Z)
  : M W Event (Z * option Go.error) :=
  let reqURL :=
    baseURL c ++ "/api/v1/repos/" ++ owner c ++ "/" ++ repo c
      ++ "/issues/" ++ Go.itoa issueNumber in
  match NewRequest "GET" reqURL None with
  | inr err => ret (0, Some err)
  | inl req =>
      let req := setAuth c req in
      res <- httpDo req ;;
      match res with
      | inr err => ret (0, Some ("failed to get issue: " ++ err))
      | inl resp =>
          match json_Decode_issue (Http.RespBody resp) with
          | inr err => ret (0, Some ("failed to decode issue: " ++ err))
          | inl issue => ret (Gitea.Comments issue, None)
          end
      end
  end.

Definition TestConnection (c : Client) : M W Event (option Go.error) :=
  let reqURL :=
    baseURL c ++ "/api/v1/repos/" ++ owner c ++ "/" ++ repo c in
  match NewRequest "GET" reqURL None with
  | inr err => ret (Some err)
  | inl req =>
      let req := setAuth c req in
      res <- httpDo req ;;
      match res with
      | inr err => ret (Some ("failed to connect to Gitea: " ++ err))
      | inl resp =>
          if Http.StatusCode resp =? 404 then
            ret (Some ("repository " ++ owner c ++ "/" ++ repo c
                         ++ " not found"))
          else if Http.StatusCode resp =? 401 then
            ret (Some "invalid Gitea token")
          else if negb (Http.StatusCode resp =? 200) then
            ret (Some ("Gitea returned status "
                         ++ Go.itoa (Http.StatusCode resp)))
          else ret None
      end
  end.

End Methods.
End GiteaHttp.

(** ** Package [main]: the configuration of the processor

    [MainEnv] gathers what [setupProcessor] reads: the environment
    ([os.Getenv]) and [time.ParseDuration]. *)

Class MainEnv : Type := {
  os_Getenv : string -> string;
  time_ParseDuration : string -> Z + Go.error
}.

Module Main.
Import Eff.
Local Open Scope eff_scope.
Local Open Scope Z_scope.

Record Config : Type := {
  LokiURL : string;
  PollInterval : Z;
  Lookback : Z
}.

Definition Second : Z := 1000000000.
Definition Minute : Z := 60 * Second.

Section Setup.
Context {W : Type} {env : Env W} {menv : MainEnv}.

(** [time.Now().Add(-cfg.Lookback)]; the negation is that of an
    [int64]. *)
Definition NewProcessor (cfg : Config) (notifiers : list (Notifier.Notifier W))
  : M W (Processor.Processor (W := W)) :=
  now <- Client.Now ;;
  ret {| Processor.notifiers := notifiers;
         Processor.pollInterval := PollInterval cfg;
         Processor.lookback := Lookback cfg;
         Processor.lastPoll := now + Go.wrap64 (- Lookback cfg) |}.

Definition setupProcessor (notifiers : list (Notifier.Notifier W))
  : M W (Processor.Processor (W := W)) :=
  let lokiURL := os_Getenv "LOKI_URL" in
  let lokiURL :=
    if String.eqb lokiURL "" then "http://loki:3100" else lokiURL in
  let pollInterval := 30 * Second in
  let pollInterval :=
    let interval := os_Getenv "LOKI_POLL_INTERVAL" in
    if negb (String.eqb interval "") then
      match time_ParseDuration interval with
      | inl d => d
      | inr _ => pollInterval
      end
    else pollInterval in
  let lookback := 5 * Minute in
  let lookback :=
    let lb := os_Getenv "LOKI_LOOKBACK" in
    if negb (String.eqb lb "") then
      match time_ParseDuration lb with
      | inl d => d
      | inr _ => lookback
      end
    else lookback in
  let cfg := {| LokiURL := lokiURL;
                PollInterval := pollInterval;
                Lookback := lookback |} in
  NewProcessor cfg notifiers.

End Setup.
End Main.


(** ** Stand-ins for the connection test and for the library of the parser *)

Module Fixture.
Local Open Scope Z_scope.

(** The connection test fails when the world says so. *)
Definition conn : ConnEnv Fake.World :=
  {| gitea_TestConnection :=
       fun w => if Fake.fails "connect" w
                then (Some "invalid Gitea token", w)
                else (None, w) |}.

(** The line [{"status":500}], the line [not json], and a line whose
    level is error and whose status is a number too large for a
    [float64]. *)
Definition statusLine : string :=
  "{" ++ Go.dquote ++ "status" ++ Go.dquote ++ ":500}".

Definition plainLine : string := "not json".

Definition hugeLine : string :=
  "{" ++ Go.dquote ++ "level" ++ Go.dquote ++ ":" ++ Go.dquote ++ "error"
    ++ Go.dquote ++ "," ++ Go.dquote ++ "status" ++ Go.dquote ++ ":1e999}".

(** The bit pattern of the [float64] 500. *)
Definition bits500 : Z := 4647503709213818880.

(** A decoder that knows the lines above, a scanner that knows one time
    stamp, and a conversion that knows the number 500. *)
Definition loki : LokiLib :=
  {| json_Unmarshal :=
       fun line =>
         if String.eqb line statusLine then
           ([("status"%string, Json.Number bits500)], None)
         else if String.eqb line hugeLine then
           ([("level"%string, Json.Str "error");
             ("status"%string, Json.Null)],
            Some ("json: cannot unmarshal number 1e999 into Go value of "
                    ++ "type float64")%string)
         else ([], Some "invalid character 'o' in literal null"%string);
     fmt_Sscanf_d :=
       fun s => if String.eqb s "1700000000000000000"
                then inl 1700000000000000000
                else inr "expected integer"%string;
     int_of_float64 := fun bits => if bits =? bits500 then 500 else 0 |}.

Definition streams : list LokiClient.Stream :=
  [ {| LokiClient.StreamLabels := [("job", "api")]%string;
       LokiClient.Values :=
         [["1700000000000000000"; statusLine]%string;
          ["1700000000000000001"]%string;
          ["x"; plainLine]%string;
          ["1700000000000000000"; hugeLine]%string] |} ].

(** An empty tracker that refuses the connection test, in front of a Loki
    that has the coffee entry for the first query. *)
Definition offline : Fake.World :=
  {| Fake.issues := []; Fake.labels := [];
     Fake.clock := 1700000000000000000;
     Fake.answers := [inl [Fake.coffee]];
     Fake.failing := ["connect"%string];
     Fake.delivered := [] |}.

(** A processor whose interval is zero. *)
Definition hasty : Processor.Processor (W := Fake.World) :=
  {| Processor.notifiers := [];
     Processor.pollInterval := 0;
     Processor.lookback := 300000000000;
     Processor.lastPoll := 1700000000000000000 - 300000000000 |}.

(** A server that gives the same answer to every request: the world is
    that answer. *)
Definition server : HttpEnv (Http.Response + Go.error) :=
  {| http_Do := fun _ w => (w, w) |}.

(** Every request is well formed, nothing needs escaping, every request
    body is written [{}], and the only body that decodes is [{}], to an
    issue without comments and to an empty list. *)
Definition gitea : GiteaLib :=
  {| http_NewRequest_check := fun _ _ => None;
     url_QueryEscape := fun s => s;
     json_Marshal := fun _ => inl "{}"%string;
     json_Decode_issues :=
       fun body => if String.eqb body "{}" then inl []
                   else inr "unexpected end of JSON input"%string;
     json_Decode_issue :=
       fun body => if String.eqb body "{}"
                   then inl (Fake.tracked 7 "open" "39b1206b4907ff39" 0)
                   else inr "unexpected end of JSON input"%string |}.

Definition client : GiteaHttp.Client :=
  GiteaHttp.NewClient "http://gitea:3000" "s3cret" "acme" "error-issues".

Definition answer (status : Z) (body : string)
  : Http.Response + Go.error :=
  inl {| Http.StatusCode := status; Http.RespBody := body |}.

End Fixture.

(** ** Plain-terms readings used by the properties below *)

Module Plain.

(** One pass over the text that puts a backslash before every byte whose
    string is in [set]. *)
Fixpoint escaped (set : list string) (text : string) : string :=
  match text with
  | EmptyString => EmptyString
  | String b rest =>
      if existsb (String.eqb (Telegram.string_of_byte b)) set then
        String Telegram.backslash (String b (escaped set rest))
      else String b (escaped set rest)
  end.

Fixpoint distinct (l : list string) : bool :=
  match l with
  | [] => true
  | x :: rest => negb (existsb (String.eqb x) rest) && distinct rest
  end.

(** The number of bytes of the text that [escapeMarkdown] escapes. *)
Fixpoint reserved (text : string) : nat :=
  match text with
  | EmptyString => 0
  | String b rest =>
      (if existsb (String.eqb (Telegram.string_of_byte b)) Telegram.chars
       then 1 else 0) + reserved rest
  end.

(** The results of the notifier calls of a run, in order. *)
Definition notifyResults (evs : list Trace.Event) : list (option Go.error) :=
  flat_map (fun ev => match ev with
                      | Trace.NotifyNewIssue _ _ r => [r]
                      | Trace.NotifyReopenedIssue _ _ r => [r]
                      | _ => []
                      end) evs.

(** The lines of the values that have at least a time stamp and a line. *)
Definition lines (streams : list LokiClient.Stream) : list string :=
  flat_map (fun stream =>
              flat_map (fun value => match value with
                                     | _ :: line :: _ => [line]
                                     | _ => []
                                     end)
                       (LokiClient.Values stream))
           streams.

(** What [parseValue] makes of a value with a time stamp and a line. *)
Definition entryOf {lib : LokiLib} (ts : Go.Time) (line : string)
  : Loki.LogEntry :=
  let entry := LokiClient.newEntry ts line (fst (json_Unmarshal line)) in
  match snd (json_Unmarshal line) with
  | None => LokiClient.extractFields entry
  | Some _ => entry
  end.

(** The windows a run queried: start, end, and whether the query
    succeeded. *)
Definition windows (evs : list Trace.Event) : list (Z * Z * bool) :=
  flat_map (fun ev => match ev with
                      | Trace.QueryRange _ start stop _ res =>
                          [(start, stop,
                            match res with inl _ => true | inr _ => false end)]
                      | _ => []
                      end) evs.

(** Each window starts at the watermark, which is the end of the last
    window whose query succeeded. *)
Fixpoint chained (watermark : Z) (ws : list (Z * Z * bool)) : Prop :=
  match ws with
  | [] => True
  | (start, stop, ok) :: rest =>
      start = watermark /\ chained (if ok then stop else watermark) rest
  end.

(** The watermark after the windows. *)
Fixpoint watermarkAfter (watermark : Z) (ws : list (Z * Z * bool)) : Z :=
  match ws with
  | [] => watermark
  | (_, stop, ok) :: rest =>
      watermarkAfter (if ok then stop else watermark) rest
  end.

(** The events of the processor in a run of [Start]. *)
Definition core (evs : list Startup.Event) : list Trace.Event :=
  flat_map (fun ev => match ev with
                      | Startup.Core e => [e]
                      | _ => []
                      end) evs.

(** The ticks seen before the cancellation. *)
Fixpoint ticks (signals : list Startup.Signal) : nat :=
  match signals with
  | Startup.Tick :: rest => S (ticks rest)
  | _ => 0
  end.

Definition cancelled (signals : list Startup.Signal) : bool :=
  existsb (fun s => match s with
                    | Startup.Done => true
                    | Startup.Tick => false
                    end) signals.

(** What processing a batch may produce: no query, and no label ensured
    but a fingerprint label. *)
Definition batchEvent (ev : Trace.Event) : bool :=
  match ev with
  | Trace.QueryRange _ _ _ _ _ => false
  | Trace.EnsureLabel name _ _ => String.prefix "bugid:" name
  | _ => true
  end.

(** The requests a run of the client handed to [httpClient.Do], one for
    each call. *)
Definition requests (evs : list GiteaHttp.Event) : list Http.Request :=
  map (fun ev => match ev with GiteaHttp.Do req _ => req end) evs.

(** A request that carries the token of the client, goes to the
    repository of the client, and has either no body and the method GET or
    a body announced as JSON. *)
Definition authorised (c : GiteaHttp.Client) (req : Http.Request) : bool :=
  match Http.lookup (Http.Header req) "Authorization" with
  | Some v => String.eqb v ("token " ++ GiteaHttp.token c)
  | None => false
  end
  && String.prefix
       (GiteaHttp.baseURL c ++ "/api/v1/repos/" ++ GiteaHttp.owner c
          ++ "/" ++ GiteaHttp.repo c)
       (Http.URL req)
  && match Http.Body req with
     | None => String.eqb (Http.Method req) "GET"
     | Some _ =>
         match Http.lookup (Http.Header req) "Content-Type" with
         | Some v => String.eqb v "application/json"
         | None => false
         end
     end.

(** At most one call of [httpClient.Do], with an authorised request. *)
Definition orderly (c : GiteaHttp.Client) (evs : list GiteaHttp.Event)
  : Prop :=
  (List.length evs <= 1)%nat
  /\ forallb (authorised c) (requests evs) = true.

(** The one request of a run was answered, with [resp]. *)
Definition answered (evs : list GiteaHttp.Event) (resp : Http.Response)
  : Prop :=
  exists req, evs = [GiteaHttp.Do req (inl resp)].

(** The number of entries of a batch that qualify as errors. *)
Definition qualifying (entries : list Loki.LogEntry) : Z :=
  Z.of_nat (List.length (filter Loki.IsError entries)).

End Plain.


(** * Properties *)

(** ** Strings *)

Lemma append_assoc (a b c : string) : (a ++ b) ++ c = a ++ (b ++ c).
Proof.
  induction a as [|x a IH]; simpl; [reflexivity | now rewrite IH].
Qed.

Lemma bytes_of_bytes (l : list ascii) : Go.bytes (Go.of_bytes l) = l.
Proof. apply list_ascii_of_string_of_list_ascii. Qed.

Lemma of_bytes_bytes (s : string) : Go.of_bytes (Go.bytes s) = s.
Proof. apply string_of_list_ascii_of_string. Qed.

(** ** The regular-expression scan, segment by segment *)

Module RegexpFacts.
Import Regexp.
Local Open Scope list_scope.

Lemma greedy_segment cls k (Hcls : cls slash = false)
      (Hk : forall seg rest, boundary rest -> k (seg ++ rest) = k seg) :
  forall seg rest, boundary rest ->
    greedy cls k (seg ++ rest) = greedy cls k seg.
Proof.
  induction seg as [|c seg IH]; intros rest Hb.
  - destruct Hb as [-> | [r ->]]; simpl; [reflexivity|].
    rewrite Hcls. exact (Hk [] (slash :: r) (or_intror (ex_intro _ r eq_refl))).
  - simpl. destruct (cls c); [|exact (Hk (c :: seg) rest Hb)].
    rewrite (IH rest Hb).
    destruct (greedy cls k seg); [reflexivity|].
    exact (Hk (c :: seg) rest Hb).
Qed.

(** A pattern without slashes sees only the segment it starts in. *)
Lemma matchPrefix_segment body (Hbody : Forall rejects_slash body) :
  forall seg rest, boundary rest ->
    matchPrefix body (seg ++ rest) = matchPrefix body seg.
Proof.
  induction Hbody as [|i body Hi Hbody IH]; intros seg rest Hb.
  - reflexivity.
  - destruct i as [cls|cls]; simpl in Hi.
    + destruct seg as [|c seg]; simpl.
      * destruct Hb as [-> | [r ->]]; [reflexivity|]. now rewrite Hi.
      * destruct (cls c); [|reflexivity]. now rewrite IH.
    + destruct seg as [|c seg]; simpl.
      * destruct Hb as [-> | [r ->]]; [reflexivity|]. now rewrite Hi.
      * destruct (cls c); [|reflexivity].
        now rewrite (greedy_segment cls _ Hi IH seg rest Hb).
Qed.

Lemma greedy_length cls k
      (Hk : forall s n, k s = Some n -> (n <= List.length s)%nat) :
  forall s n, greedy cls k s = Some n -> (n <= List.length s)%nat.
Proof.
  induction s as [|c s IH]; intros n H; simpl in H.
  - apply (Hk [] n H).
  - destruct (cls c); [|apply (Hk _ _ H)].
    destruct (greedy cls k s) as [m|] eqn:E.
    + inversion H; subst. specialize (IH m eq_refl). simpl. lia.
    + apply (Hk _ _ H).
Qed.

(** A match does not run past the end of the input. *)
Lemma matchPrefix_length body :
  forall s n, matchPrefix body s = Some n -> (n <= List.length s)%nat.
Proof.
  induction body as [|i body IH]; intros s n H.
  - inversion H; subst. lia.
  - destruct i as [cls|cls]; destruct s as [|c s]; simpl in H;
      try discriminate; destruct (cls c); try discriminate.
    + destruct (matchPrefix body s) as [m|] eqn:E; simpl in H; [|discriminate].
      inversion H; subst. specialize (IH s m E). simpl. lia.
    + destruct (greedy cls (matchPrefix body) s) as [m|] eqn:E;
        simpl in H; [|discriminate].
      inversion H; subst.
      pose proof (greedy_length cls _ IH s m E). simpl. lia.
Qed.

(** Skipping the rest of a match is resuming the scan after it. *)
Lemma replaceFrom_skip re repl :
  forall s k, replaceFrom re repl k s = replaceFrom re repl 0 (skipn k s).
Proof.
  induction s as [|c s IH]; intros k.
  - now destruct k.
  - destruct k as [|k]; [reflexivity|]. simpl skipn.
    change (replaceFrom re repl (S k) (c :: s)) with (replaceFrom re repl k s).
    apply IH.
Qed.

Lemma replaceFrom_cons re repl c s :
  replaceFrom re repl 0 (c :: s)
  = match matchPrefix re (c :: s) with
    | Some (S n) => repl ++ replaceFrom re repl n s
    | _ => c :: replaceFrom re repl 0 s
    end.
Proof. reflexivity. Qed.

Lemma matchPrefix_One cls re c s :
  matchPrefix (One cls :: re) (c :: s)
  = if cls c then option_map S (matchPrefix re s) else None.
Proof. reflexivity. Qed.

Section Anchored.
(** A pattern [/body] where [body] has no slash, replaced by [/tail]. *)
Variables (body : regexp) (tail : list ascii).
Hypothesis Hbody : Forall rejects_slash body.

Local Abbreviation re := (One (is_byte slash) :: body).
Local Abbreviation repl := (slash :: tail).

Lemma replaceFrom_other c s :
  c <> slash ->
  replaceFrom re repl 0 (c :: s) = c :: replaceFrom re repl 0 s.
Proof.
  intros Hc. rewrite replaceFrom_cons.
  rewrite matchPrefix_One. unfold is_byte.
  destruct (Ascii.eqb_spec slash c) as [E|_]; [congruence|].
  reflexivity.
Qed.

Lemma replaceFrom_noslash seg rest :
  noslash seg ->
  replaceFrom re repl 0 (seg ++ rest) = seg ++ replaceFrom re repl 0 rest.
Proof.
  induction 1 as [|c seg Hc _ IH]; [reflexivity|].
  simpl app. rewrite replaceFrom_other by assumption. now rewrite IH.
Qed.

Lemma noslash_skipn n seg : noslash seg -> noslash (skipn n seg).
Proof.
  revert seg. induction n as [|n IH]; intros seg H; [exact H|].
  destruct H; [constructor | now apply IH].
Qed.

Lemma replaceFrom_segment seg rest :
  noslash seg -> boundary rest ->
  replaceFrom re repl 0 (slash :: seg ++ rest)
  = slash :: rewriteSegment body tail seg ++ replaceFrom re repl 0 rest.
Proof.
  intros Hseg Hb. rewrite replaceFrom_cons.
  rewrite matchPrefix_One. unfold is_byte at 1. rewrite Ascii.eqb_refl.
  rewrite (matchPrefix_segment body Hbody seg rest Hb).
  unfold rewriteSegment.
  destruct (matchPrefix body seg) as [n|] eqn:E; cbn [option_map].
  - rewrite replaceFrom_skip.
    pose proof (matchPrefix_length body seg n E) as Hn.
    rewrite skipn_app.
    replace (n - List.length seg)%nat with 0%nat by lia.
    cbn [skipn].
    rewrite (replaceFrom_noslash _ _ (noslash_skipn n seg Hseg)).
    cbn [app]. now rewrite <- app_assoc.
  - now rewrite (replaceFrom_noslash _ _ Hseg).
Qed.

Lemma boundary_segments (segs : list (list ascii)) :
  boundary (flat_map (fun seg => slash :: seg) segs).
Proof.
  destruct segs as [|seg segs]; [now left | right; simpl; eauto].
Qed.

Lemma replaceFrom_segments segs :
  Forall noslash segs ->
  replaceFrom re repl 0 (flat_map (fun seg => slash :: seg) segs)
  = flat_map (fun seg => slash :: seg) (map (rewriteSegment body tail) segs).
Proof.
  induction 1 as [|seg segs Hseg _ IH]; [reflexivity|].
  simpl flat_map.
  change ((slash :: seg) ++ ?r) with (slash :: seg ++ r).
  rewrite (replaceFrom_segment seg _ Hseg (boundary_segments segs)).
  rewrite IH. reflexivity.
Qed.

(** The scan rewrites each segment on its own and leaves the chunk
    before the first slash alone. *)
Lemma replaceFrom_join h segs :
  noslash h -> Forall noslash segs ->
  replaceFrom re repl 0 (Design.join (h, segs))
  = Design.join (h, map (rewriteSegment body tail) segs).
Proof.
  intros Hh Hsegs.
  change (Design.join (h, segs))
    with (h ++ flat_map (fun seg => slash :: seg) segs).
  rewrite (replaceFrom_noslash _ _ Hh).
  now rewrite (replaceFrom_segments segs Hsegs).
Qed.

Lemma rewriteSegment_noslash seg :
  noslash tail -> noslash seg -> noslash (rewriteSegment body tail seg).
Proof.
  intros Ht Hs. unfold rewriteSegment.
  destruct (matchPrefix body seg); [|exact Hs].
  apply Forall_app. split; [exact Ht | now apply noslash_skipn].
Qed.

End Anchored.

Lemma rewriteSegment_cases body tail seg :
  (exists n, matchPrefix body seg = Some n
             /\ rewriteSegment body tail seg = tail ++ skipn n seg)
  \/ (matchPrefix body seg = None /\ rewriteSegment body tail seg = seg).
Proof.
  unfold rewriteSegment.
  destruct (matchPrefix body seg) as [n|]; [left; eauto | right; auto].
Qed.

Lemma join_split s : Design.join (Design.split s) = s.
Proof.
  induction s as [|c s IH]; [reflexivity|].
  unfold Design.join in *. simpl.
  destruct (Ascii.eqb_spec c "/") as [->|Hc]; simpl.
  - now rewrite IH.
  - now rewrite IH.
Qed.

Lemma split_noslash s :
  noslash (fst (Design.split s)) /\ Forall noslash (snd (Design.split s)).
Proof.
  induction s as [|c s [IH1 IH2]]; simpl.
  - split; constructor.
  - destruct (Ascii.eqb_spec c "/") as [->|Hc]; simpl.
    + split; [constructor | now constructor].
    + split; [now constructor | assumption].
Qed.

End RegexpFacts.

(** ** Endpoint normalization *)

Module NormalizeFacts.
Import Regexp RegexpFacts.
Local Open Scope list_scope.

Lemma numericID_body : Forall rejects_slash (tl Processor.numericID).
Proof. repeat constructor. Qed.

Lemma uuid_body : Forall rejects_slash (tl Processor.uuid).
Proof.
  cbv [Processor.uuid tl rep repeat app].
  repeat (constructor; [reflexivity|]). constructor.
Qed.

Lemma noslash_id : noslash (Go.bytes ":id").
Proof. repeat constructor; discriminate. Qed.

Lemma noslash_uuid : noslash (Go.bytes ":uuid").
Proof. repeat constructor; discriminate. Qed.

(** [normalizeEndpoint] on a path given by its segments. *)
Lemma normalizeEndpoint_join h segs :
  noslash h -> Forall noslash segs ->
  Go.bytes (Processor.normalizeEndpoint (Go.of_bytes (Design.join (h, segs))))
  = Design.join (h, map Design.normalizeSegment segs).
Proof.
  intros Hh Hsegs.
  unfold Processor.normalizeEndpoint, ReplaceAllString.
  rewrite !bytes_of_bytes.
  change (Go.bytes "/:id") with (slash :: Go.bytes ":id").
  change (Go.bytes "/:uuid") with (slash :: Go.bytes ":uuid").
  change Processor.numericID
    with (One (is_byte slash) :: tl Processor.numericID).
  change Processor.uuid with (One (is_byte slash) :: tl Processor.uuid).
  rewrite (replaceFrom_join _ _ numericID_body h segs Hh Hsegs).
  rewrite (replaceFrom_join _ _ uuid_body h _ Hh).
  - now rewrite map_map.
  - apply Forall_map. eapply Forall_impl; [|exact Hsegs].
    intros seg Hseg. now apply rewriteSegment_noslash; [apply noslash_id|].
Qed.

(** [normalizeEndpoint] rewrites a path segment by segment. *)
Lemma normalizeEndpoint_segments (endpoint : string) :
  Go.bytes (Processor.normalizeEndpoint endpoint)
  = Design.join (fst (Design.split (Go.bytes endpoint)),
                 map Design.normalizeSegment
                     (snd (Design.split (Go.bytes endpoint)))).
Proof.
  destruct (split_noslash (Go.bytes endpoint)) as [Hh Hsegs].
  rewrite <- (normalizeEndpoint_join _ _ Hh Hsegs).
  rewrite <- surjective_pairing, join_split, of_bytes_bytes.
  reflexivity.
Qed.

(** A segment that starts with a colon matches neither pattern. *)
Lemma normalizeSegment_colon y :
  Design.normalizeSegment (colon :: y) = colon :: y.
Proof. reflexivity. Qed.

Lemma normalizeSegment_cases seg :
  (exists y, Design.normalizeSegment seg = colon :: y)
  \/ Design.normalizeSegment seg = seg.
Proof.
  unfold Design.normalizeSegment.
  destruct (rewriteSegment_cases (tl Processor.numericID) (Go.bytes ":id") seg)
    as [[n [_ H1]] | [_ H1]]; rewrite H1.
  - left. eexists. reflexivity.
  - destruct (rewriteSegment_cases (tl Processor.uuid) (Go.bytes ":uuid") seg)
      as [[m [_ H2]] | [_ H2]]; rewrite H2.
    + left. eexists. reflexivity.
    + now right.
Qed.

Lemma normalizeSegment_idempotent seg :
  Design.normalizeSegment (Design.normalizeSegment seg)
  = Design.normalizeSegment seg.
Proof.
  destruct (normalizeSegment_cases seg) as [[y Hy] | H].
  - rewrite Hy. apply normalizeSegment_colon.
  - now rewrite !H.
Qed.

Lemma matchPrefix_shaped classes :
  forall s,
    matchPrefix (map One classes) s
    = if Design.shaped classes s then Some (List.length classes) else None.
Proof.
  induction classes as [|cls classes IH]; intros s; [reflexivity|].
  destruct s as [|c s]; [reflexivity|].
  cbn [map]. rewrite matchPrefix_One. cbn [Design.shaped List.length].
  destruct (cls c); [|reflexivity]. rewrite IH.
  now destruct (Design.shaped classes s).
Qed.

Lemma greedy_digits :
  forall s, exists n,
    greedy digit (matchPrefix []) s = Some n
    /\ skipn n s = Design.dropDigits s.
Proof.
  induction s as [|c s [n [H1 H2]]].
  - exists 0%nat. split; reflexivity.
  - cbn [greedy Design.dropDigits]. destruct (digit c).
    + exists (S n). fold (greedy digit (matchPrefix [])).
      rewrite H1. split; [reflexivity | exact H2].
    + exists 0%nat. split; reflexivity.
Qed.

(** The two passes on one segment, in plain terms. *)
Lemma normalizeSegment_rewritten seg :
  Design.normalizeSegment seg = Design.rewrittenSegment seg.
Proof.
  destruct seg as [|c rest]; [reflexivity|].
  unfold Design.normalizeSegment, Design.rewrittenSegment.
  unfold rewriteSegment at 2.
  change (tl Processor.numericID) with [Plus digit].
  cbn [matchPrefix]. destruct (digit c) eqn:Ec.
  - destruct (greedy_digits rest) as [n [H1 H2]].
    change (matchPrefix []) with (fun _ : list ascii => Some 0%nat) in H1.
    rewrite H1. cbn [option_map skipn]. rewrite H2. reflexivity.
  - unfold rewriteSegment.
    change (tl Processor.uuid) with (map One Design.uuidShape).
    rewrite matchPrefix_shaped.
    destruct (Design.shaped Design.uuidShape (c :: rest)); reflexivity.
Qed.

Lemma normalizeSegment_noslash seg :
  noslash seg -> noslash (Design.normalizeSegment seg).
Proof.
  intros H. unfold Design.normalizeSegment.
  apply rewriteSegment_noslash; [apply noslash_uuid|].
  apply rewriteSegment_noslash; [apply noslash_id | exact H].
Qed.

End NormalizeFacts.

(** X1.  [normalizeEndpoint] in plain terms: the chunk before the first slash
    is kept, and each segment after a slash has its leading digits replaced
    by [:id] when it starts with a digit, its leading UUID replaced by
    [:uuid] when it starts with one (and not with a digit), and is kept
    otherwise. *)
Theorem normalizeEndpoint_rewritten (endpoint : string) :
  Processor.normalizeEndpoint endpoint
  = Go.of_bytes
      (Design.join (fst (Design.split (Go.bytes endpoint)),
                    map Design.rewrittenSegment
                        (snd (Design.split (Go.bytes endpoint))))).
Proof.
  rewrite <- (of_bytes_bytes (Processor.normalizeEndpoint endpoint)).
  rewrite NormalizeFacts.normalizeEndpoint_segments.
  f_equal. f_equal. f_equal. apply map_ext.
  apply NormalizeFacts.normalizeSegment_rewritten.
Qed.

(** C10.  Endpoint normalization is idempotent: a second application
    changes nothing, the placeholders [:id] and [:uuid] are not rewritten
    again. *)
Theorem normalizeEndpoint_idempotent (s : string) :
  Processor.normalizeEndpoint (Processor.normalizeEndpoint s)
  = Processor.normalizeEndpoint s.
Proof.
  destruct (RegexpFacts.split_noslash (Go.bytes s)) as [Hh Hsegs].
  rewrite <- (of_bytes_bytes (Processor.normalizeEndpoint s)) at 2.
  rewrite <- (of_bytes_bytes (Processor.normalizeEndpoint (Processor.normalizeEndpoint s))).
  f_equal.
  rewrite <- (of_bytes_bytes (Processor.normalizeEndpoint s)) at 1.
  rewrite (NormalizeFacts.normalizeEndpoint_segments s).
  rewrite NormalizeFacts.normalizeEndpoint_join.
  - f_equal. f_equal. rewrite map_map. apply map_ext.
    intros seg. apply NormalizeFacts.normalizeSegment_idempotent.
  - exact Hh.
  - apply Forall_map. eapply Forall_impl; [|exact Hsegs].
    intros seg. apply NormalizeFacts.normalizeSegment_noslash.
Qed.

(** ** SHA-256 and hex: test vectors and sizes *)

Example K_ends :
  hd 0%Z Sha256.K = 0x428a2f98%Z /\ last Sha256.K 0%Z = 0xc67178f2%Z
  /\ List.length Sha256.K = 64%nat
  /\ Sha256.ha Sha256.init = 0x6a09e667%Z
  /\ Sha256.hh Sha256.init = 0x5be0cd19%Z.
Proof. vm_compute. repeat split. Qed.

Example Sum256_abc :
  Hex.EncodeToString (Sha256.Sum256 (Sha256.string_bytes "abc"))
  = "ba7816bf8f01cfea414140de5dae2223b00361a396177a9cb410ff61f20015ad".
Proof. vm_compute. reflexivity. Qed.

Example Sum256_empty :
  Hex.EncodeToString (Sha256.Sum256 (Sha256.string_bytes ""))
  = "e3b0c44298fc1c149afbf4c8996fb92427ae41e4649b934ca495991b7852b855".
Proof. vm_compute. reflexivity. Qed.

Example Sum256_two_blocks :
  Hex.EncodeToString
    (Sha256.Sum256
       (Sha256.string_bytes
          "abcdbcdecdefdefgefghfghighijhijkijkljklmklmnlmnomnopnopq"))
  = "248d6a61d20638b8e5c026930c3e6039a33ce45964ff2167f6ecedd419db06c1".
Proof. vm_compute. reflexivity. Qed.

Lemma Sum256_length (data : list Z) : List.length (Sha256.Sum256 data) = 32%nat.
Proof.
  unfold Sha256.Sum256, Sha256.output, Sha256.be_bytes.
  cbn [flat_map seq rev app map]. reflexivity.
Qed.

Lemma EncodeToString_length (src : list Z) :
  String.length (Hex.EncodeToString src) = (2 * List.length src)%nat.
Proof.
  induction src as [|b src IH]; [reflexivity|].
  cbn [Hex.EncodeToString String.length List.length]. rewrite IH. lia.
Qed.

(** ** Qualification of an entry *)

(** What [IsError] tests: the level is the string ERROR or the string
    error, or the status code is at least 500; other spellings of the
    level, such as Error, do not qualify by themselves. *)
Lemma IsError_iff (e : Loki.LogEntry) :
  Loki.IsError e = true
  <-> (Loki.Level e = "ERROR" \/ Loki.Level e = "error"
       \/ (500 <= Loki.Status e)%Z).
Proof.
  unfold Loki.IsError.
  destruct (String.eqb_spec (Loki.Level e) "ERROR") as [E1|E1];
    destruct (String.eqb_spec (Loki.Level e) "error") as [E2|E2];
    destruct (Z.leb_spec 500 (Loki.Status e)) as [E3|E3]; cbn;
    intuition (try discriminate; try lia; auto).
Qed.

(** C1, as worded: a level that equals error up to case is claimed to
    qualify; the entry with level Error and status 0 does not. *)
Lemma IsError_mixed_case_level :
  ~ (forall e : Loki.LogEntry, Loki.IsError e = true <-> Design.qualifies e).
Proof.
  intros H.
  destruct (H (Fake.entry "Error" "GET" "/health" 0 "main.handler")) as [_ H2].
  assert (Hq : Design.qualifies
                 (Fake.entry "Error" "GET" "/health" 0 "main.handler"))
    by (left; reflexivity).
  specialize (H2 Hq). discriminate H2.
Qed.

Example IsError_boundary :
  Loki.IsError (Fake.entry "" "GET" "/health" 500 "f") = true
  /\ Loki.IsError (Fake.entry "" "GET" "/health" 599 "f") = true
  /\ Loki.IsError (Fake.entry "" "GET" "/health" 499 "f") = false
  /\ Loki.IsError (Fake.entry "error" "GET" "/health" 0 "f") = true
  /\ Loki.IsError (Fake.entry "ERROR" "GET" "/health" 0 "f") = true
  /\ Loki.IsError (Fake.entry "Error" "GET" "/health" 0 "f") = false.
Proof. repeat split. Qed.

(** ** Fingerprints *)

(** C3.  An entry with a non-empty explicit bug identifier has it as its
    fingerprint, whatever its other fields; without one, the fingerprint is
    the hex rendering of the first 8 bytes of the SHA-256 digest of method,
    normalized endpoint, status code and source function joined by a bar,
    sixteen characters long. *)
Theorem GenerateBugID_spec (entry : Loki.LogEntry) :
  (Loki.BugID entry <> ""
   /\ Processor.GenerateBugID entry = Loki.BugID entry)
  \/ (Loki.BugID entry = ""
      /\ Processor.GenerateBugID entry
         = Design.digestPrefix (Loki.Method entry)
             (Processor.normalizeEndpoint (Loki.Action entry))
             (Loki.Status entry) (Loki.Function (Loki.Source entry))
      /\ String.length (Processor.GenerateBugID entry) = 16%nat).
Proof.
  unfold Processor.GenerateBugID.
  destruct (String.eqb_spec (Loki.BugID entry) "") as [E|E]; cbn [negb].
  - right. split; [exact E|]. split; [reflexivity|].
    rewrite EncodeToString_length, length_firstn, Sum256_length. reflexivity.
  - left. split; [exact E | reflexivity].
Qed.

Example GenerateBugID_explicit :
  Processor.GenerateBugID
    {| Loki.Timestamp := 0%Z; Loki.Raw := ""; Loki.Parsed := [];
       Loki.Level := "ERROR"; Loki.Message := "Database timeout";
       Loki.Method := "PUT"; Loki.Action := "/api/v1/coffee/123";
       Loki.Status := 500%Z; Loki.RequestID := ""; Loki.TraceID := "";
       Loki.UserID := ""; Loki.BugID := "db-timeout-coffee";
       Loki.Source := {| Loki.Function := "f"; Loki.File := "";
                         Loki.Line := 0%Z |};
       Loki.ElapsedMs := 0%Z |}
  = "db-timeout-coffee".
Proof. reflexivity. Qed.

Example GenerateBugID_numeric_ids :
  Processor.GenerateBugID (Fake.entry "" "PUT" "/api/v1/coffee/123" 500 "f")
  = Processor.GenerateBugID (Fake.entry "" "PUT" "/api/v1/coffee/456" 500 "f")
  /\ Processor.GenerateBugID (Fake.entry "" "PUT" "/api/v1/coffee/123" 500 "f")
     = "39b1206b4907ff39".
Proof. vm_compute. split; reflexivity. Qed.

(** C2, at the inputs where the code departs from it.  The numeric pattern
    runs first and has no anchor at the end of the segment, so a UUID that
    starts with a digit loses its leading digits to [:id] and is then no
    longer recognised by the UUID pattern: two UUID variants of one path
    keep different normalized endpoints and different fingerprints.  A UUID
    that starts with a letter is replaced by [:uuid] as intended. *)
Theorem normalizeEndpoint_uuid_leading_digit :
  Processor.normalizeEndpoint "/user/123e4567-e89b-12d3-a456-426614174000"
  = "/user/:ide4567-e89b-12d3-a456-426614174000"
  /\ Processor.normalizeEndpoint "/user/987f6543-e89b-12d3-a456-426614174000"
     = "/user/:idf6543-e89b-12d3-a456-426614174000"
  /\ Processor.GenerateBugID
       (Fake.entry "" "GET" "/user/123e4567-e89b-12d3-a456-426614174000"
                   500 "f")
     <> Processor.GenerateBugID
          (Fake.entry "" "GET" "/user/987f6543-e89b-12d3-a456-426614174000"
                      500 "f")
  /\ Processor.normalizeEndpoint "/user/e23e4567-e89b-12d3-a456-426614174000"
     = "/user/:uuid"
  /\ Processor.normalizeEndpoint "/files/2024report"
     = "/files/:idreport".
Proof.
  repeat split; try (vm_compute; reflexivity).
  vm_compute. discriminate.
Qed.

(** ** Rendering and the endpoint *)

(** C9, as worded: the title is claimed to show the raw endpoint; the code
    shows the normalized one. *)
Lemma generateTitle_not_raw :
  ~ (forall (lib : GoLib) (entry : Loki.LogEntry),
        Processor.generateTitle entry = Design.rawTitle entry).
Proof.
  intros H.
  specialize (H Fake.lib (Fake.entry "" "PUT" "/api/v1/coffee/123" 500 "f")).
  vm_compute in H. discriminate H.
Qed.

Example generateTitle_coffee :
  Processor.generateTitle (lib := Fake.lib)
    (Fake.entry "" "PUT" "/api/v1/coffee/123" 500 "f")
  = "[500] - PUT /api/v1/coffee/:id - Database timeout".
Proof. vm_compute. reflexivity. Qed.

(** C9, as the code has it.  Endpoint normalization is applied when the
    fingerprint is generated and when the title is rendered: the endpoint
    part of the title is the method followed by the normalized endpoint.
    The body shows the endpoint as the entry has it.  In both, nothing else
    depends on the endpoint. *)
Theorem rendering_endpoint (lib : GoLib) (entry : Loki.LogEntry)
        (bugID : string) :
  exists (before after : list string) (above below : string),
    forall action : string,
      Processor.generateTitle (Design.withAction entry action)
      = Design.titleOf
          (before ++ Design.endpointPart (Loki.Method entry) action
                  ++ after)%list
      /\ Processor.generateBody (Design.withAction entry action) bugID
         = above
             ++ Processor.when_set action
                  ("- **Endpoint:** " ++ action ++ Go.nl)
             ++ below.
Proof.
  exists (if (500 <=? Loki.Status entry)%Z
          then ["[" ++ Go.itoa (Loki.Status entry) ++ "]"]
          else if negb (String.eqb (Loki.Level entry) "")
               then ["[" ++ strings_ToUpper (Loki.Level entry) ++ "]"]
               else []).
  exists (if negb (String.eqb (Loki.Message entry) "")
             && (Go.len (Loki.Message entry) <? 80)%Z
          then [Loki.Message entry] else []).
  exists ("## Error Details" ++ Go.nl ++ Go.nl
          ++ Processor.when_set (Loki.Message entry)
               ("**Message:** " ++ Loki.Message entry ++ Go.nl ++ Go.nl)
          ++ Processor.when_set (Loki.Function (Loki.Source entry))
               ("**Source:** `" ++ Loki.Function (Loki.Source entry) ++ "`"
                  ++ Go.nl)
          ++ Processor.when_set (Loki.File (Loki.Source entry))
               ("**File:** `" ++ Loki.File (Loki.Source entry) ++ ":"
                  ++ Go.itoa (Loki.Line (Loki.Source entry)) ++ "`" ++ Go.nl)
          ++ Go.nl ++ "## Request Info" ++ Go.nl ++ Go.nl
          ++ Processor.when_set (Loki.Method entry)
               ("- **Method:** " ++ Loki.Method entry ++ Go.nl)).
  eexists. intros action. split.
  - unfold Processor.generateTitle, Go.append, Design.endpointPart.
    cbn [Design.withAction Loki.Status Loki.Level Loki.Method Loki.Action
         Loki.Message].
    destruct (500 <=? Loki.Status entry)%Z;
      destruct (negb (String.eqb (Loki.Level entry) ""));
      destruct (negb (String.eqb (Loki.Method entry) "")
                && negb (String.eqb action ""));
      destruct (negb (String.eqb (Loki.Message entry) "")
                && (Go.len (Loki.Message entry) <? 80)%Z);
      reflexivity.
  - unfold Processor.generateBody.
    cbn [Design.withAction Loki.Status Loki.Level Loki.Method Loki.Action
         Loki.Message Loki.Source Loki.RequestID Loki.TraceID Loki.UserID
         Loki.Parsed].
    rewrite !append_assoc. reflexivity.
Qed.

(** ** The issue lifecycle *)

Section LifecycleFacts.
Import Eff Observe.
Context {W : Type} {env : Env W} {lib : GoLib}.
Local Open Scope Z_scope.
Local Open Scope list_scope.

Lemma events_bind {A B : Type} (m : M W A) (k : A -> M W B) (w : W) :
  events (bind m k w)
  = events (m w) ++ events (k (val (m w)) (after (m w))).
Proof. reflexivity. Qed.

Lemma val_bind {A B : Type} (m : M W A) (k : A -> M W B) (w : W) :
  val (bind m k w) = val (k (val (m w)) (after (m w))).
Proof. reflexivity. Qed.

Lemma after_bind {A B : Type} (m : M W A) (k : A -> M W B) (w : W) :
  after (bind m k w) = after (k (val (m w)) (after (m w))).
Proof. reflexivity. Qed.

Lemma notifyReopenedIssue_cons n ns info (w : W) :
  events (Processor.notifyReopenedIssue (n :: ns) info w)
  = Trace.NotifyReopenedIssue (Notifier.NotifierName n) info
      (fst (Notifier.NotifyReopenedIssue n info w))
      :: notifyErrorLine (fst (Notifier.NotifyReopenedIssue n info w))
      ++ events (Processor.notifyReopenedIssue ns info
                   (snd (Notifier.NotifyReopenedIssue n info w))).
Proof.
  cbn [Processor.notifyReopenedIssue]. unfold bind, call.
  cbn [val after events].
  destruct (fst (Notifier.NotifyReopenedIssue n info w)); reflexivity.
Qed.

Lemma notifyNewIssue_cons n ns info (w : W) :
  events (Processor.notifyNewIssue (n :: ns) info w)
  = Trace.NotifyNewIssue (Notifier.NotifierName n) info
      (fst (Notifier.NotifyNewIssue n info w))
      :: notifyErrorLine (fst (Notifier.NotifyNewIssue n info w))
      ++ events (Processor.notifyNewIssue ns info
                   (snd (Notifier.NotifyNewIssue n info w))).
Proof.
  cbn [Processor.notifyNewIssue]. unfold bind, call.
  cbn [val after events].
  destruct (fst (Notifier.NotifyNewIssue n info w)); reflexivity.
Qed.

(** The loops over the notifiers call each notifier once, in order, and do
    nothing else than log the failures. *)
Lemma notifyReopenedIssue_events ns info (w : W) :
  forallb notificationOnly
          (events (Processor.notifyReopenedIssue ns info w)) = true
  /\ reopenedNotifications (events (Processor.notifyReopenedIssue ns info w))
     = map (fun n => (Notifier.NotifierName n, info)) ns.
Proof.
  revert w. induction ns as [|n ns IH]; intros w; [split; reflexivity|].
  rewrite notifyReopenedIssue_cons.
  destruct (IH (snd (Notifier.NotifyReopenedIssue n info w))) as [IH1 IH2].
  unfold reopenedNotifications in *.
  cbn [forallb flat_map notificationOnly].
  rewrite forallb_app, flat_map_app, IH1, IH2.
  destruct (fst (Notifier.NotifyReopenedIssue n info w)); split; reflexivity.
Qed.

Lemma notifyNewIssue_events ns info (w : W) :
  forallb notificationOnly
          (events (Processor.notifyNewIssue ns info w)) = true
  /\ newIssueNotifications (events (Processor.notifyNewIssue ns info w))
     = map (fun n => (Notifier.NotifierName n, info)) ns.
Proof.
  revert w. induction ns as [|n ns IH]; intros w; [split; reflexivity|].
  rewrite notifyNewIssue_cons.
  destruct (IH (snd (Notifier.NotifyNewIssue n info w))) as [IH1 IH2].
  unfold newIssueNotifications in *.
  cbn [forallb flat_map notificationOnly].
  rewrite forallb_app, flat_map_app, IH1, IH2.
  destruct (fst (Notifier.NotifyNewIssue n info w)); split; reflexivity.
Qed.

Lemma notificationOnly_quiet (evs : list Trace.Event) :
  forallb notificationOnly evs = true ->
  searchCalls evs = [] /\ ensureLabelCalls evs = []
  /\ createCalls evs = [] /\ addCommentCalls evs = []
  /\ reopenCalls evs = []
  /\ existsb trackerFailure evs = false
  /\ first createdLine (logLines evs) = None
  /\ first updatedLine (logLines evs) = None
  /\ (forall n, existsb (reopenedLine n) (logLines evs) = false)
  /\ find abortingFailure evs = None.
Proof.
  induction evs as [|ev evs IH]; intros H.
  - repeat split.
  - cbn [forallb] in H. apply andb_true_iff in H. destruct H as [Hev H].
    destruct (IH H) as (I1 & I2 & I3 & I4 & I5 & I6 & I7 & I8 & I9 & I10).
    destruct ev as [| | | | | | | |[]]; try discriminate Hev;
      cbn; repeat split; auto.
Qed.

(** [updateExistingIssue], call by call. *)
Lemma updateExistingIssue_run p (existing : Gitea.Issue) entry (w : W) :
  let n := Gitea.Number existing in
  let occ := Go.int_add (Gitea.Comments existing) 2 in
  let c := gitea_AddComment n (Processor.generateComment entry occ) w in
  let ro := gitea_ReopenIssue n (snd c) in
  events (Processor.updateExistingIssue p existing entry w)
  = Trace.AddComment n (Processor.generateComment entry occ) (fst c)
      :: match fst c with
         | Some _ => []
         | None =>
             (if String.eqb (Gitea.State existing) "closed" then
                Trace.ReopenIssue n (fst ro)
                  :: match fst ro with
                     | Some e => [Trace.Log (Trace.LogReopenWarning n e)]
                     | None =>
                         Trace.Log (Trace.LogReopened n)
                           :: events (Processor.notifyReopenedIssue
                                        (Processor.notifiers p)
                                        (Design.reopenedEvent existing occ)
                                        (snd ro))
                     end
              else [])
               ++ [Trace.Log (Trace.LogUpdated n occ)]
         end
  /\ val (Processor.updateExistingIssue p existing entry w)
     = match fst c with
       | Some e => Some ("failed to add comment: " ++ e)%string
       | None => None
       end.
Proof.
  cbv zeta. unfold Processor.updateExistingIssue, Client.AddComment,
    Client.ReopenIssue, bind, call, log, emit, ret.
  cbn [val after events].
  destruct (fst (gitea_AddComment _ _ w)); [split; reflexivity|].
  destruct (String.eqb (Gitea.State existing) "closed");
    cbn [val after events app]; [|split; reflexivity].
  destruct (fst (gitea_ReopenIssue _ _)); cbn [val after events app];
    split; reflexivity.
Qed.

Lemma EnsureLabel_run name color (w : W) :
  events (Client.EnsureLabel name color w)
  = [Trace.EnsureLabel name color (val (Client.EnsureLabel name color w))].
Proof. reflexivity. Qed.

(** [createNewIssue], call by call. *)
Lemma createNewIssue_run p entry bugID bugIDLabel (w : W) :
  let title := Processor.generateTitle entry in
  let body := Processor.generateBody entry bugID in
  let labels := Design.issueLabels entry bugIDLabel in
  let el := Client.EnsureLabel bugIDLabel "0366d6" w in
  let cr := gitea_CreateIssue title body labels (after el) in
  events (Processor.createNewIssue p entry bugID bugIDLabel w)
  = Trace.EnsureLabel bugIDLabel "0366d6" (val el)
      :: match val el with
         | Some e => [Trace.Log (Trace.LogLabelWarning e)]
         | None => []
         end
      ++ Trace.CreateIssue title body labels (fst cr)
      :: match fst cr with
         | inr _ => []
         | inl issue =>
             Trace.Log (Trace.LogCreated (Gitea.Number issue) title bugID)
               :: events (Processor.notifyNewIssue
                            (Processor.notifiers p)
                            (Design.newIssueEvent issue title bugID entry)
                            (snd cr))
         end
  /\ val (Processor.createNewIssue p entry bugID bugIDLabel w)
     = match fst cr with
       | inr e => Some ("failed to create issue: " ++ e)%string
       | inl _ => None
       end.
Proof.
  cbv zeta. unfold Processor.createNewIssue.
  replace (if 500 <=? Loki.Status entry
           then Go.append ["auto-generated"%string; bugIDLabel]
                          "severity:critical"%string
           else Go.append ["auto-generated"%string; bugIDLabel]
                          "severity:error"%string)
    with (Design.issueLabels entry bugIDLabel)
    by (unfold Design.issueLabels, Go.append;
        destruct (500 <=? Loki.Status entry); reflexivity).
  rewrite events_bind, val_bind, EnsureLabel_run.
  set (el := Client.EnsureLabel bugIDLabel "0366d6" w).
  cbv beta.
  destruct (val el);
    unfold bind, log, emit, ret, Client.CreateIssue, call;
    cbn [val after events app];
    destruct (fst (gitea_CreateIssue _ _ _ (after el)));
    cbn [val after events app]; rewrite ?app_nil_r; split; reflexivity.
Qed.

(** [processEntry], call by call. *)
Lemma processEntry_run p entry (w : W) :
  let bugID := Processor.GenerateBugID entry in
  let label := ("bugid:" ++ bugID)%string in
  let s := gitea_SearchIssues label w in
  events (Processor.processEntry p entry w)
  = Trace.SearchIssues label (fst s)
      :: match fst s with
         | inr _ => []
         | inl [] =>
             events (Processor.createNewIssue p entry bugID label (snd s))
         | inl (existing :: _) =>
             events (Processor.updateExistingIssue p existing entry (snd s))
         end
  /\ val (Processor.processEntry p entry w)
     = match fst s with
       | inr e => Some ("failed to search issues: " ++ e)%string
       | inl [] =>
           val (Processor.createNewIssue p entry bugID label (snd s))
       | inl (existing :: _) =>
           val (Processor.updateExistingIssue p existing entry (snd s))
       end
  /\ after (Processor.processEntry p entry w)
     = match fst s with
       | inr e => snd s
       | inl [] =>
           after (Processor.createNewIssue p entry bugID label (snd s))
       | inl (existing :: _) =>
           after (Processor.updateExistingIssue p existing entry (snd s))
       end.
Proof.
  cbv zeta. unfold Processor.processEntry, Client.SearchIssues.
  rewrite events_bind, val_bind, after_bind. unfold call.
  cbn [val after events].
  destruct (fst (gitea_SearchIssues _ w)) as [[|existing rest]|e];
    repeat split; reflexivity.
Qed.

Lemma wrap64_small (x : Z) :
  Go.MinInt64 <= x <= Go.MaxInt64 -> Go.wrap64 x = x.
Proof.
  unfold Go.MinInt64, Go.MaxInt64, Go.wrap64.
  change (2 ^ 63) with 9223372036854775808.
  change (2 ^ 64) with 18446744073709551616.
  intros H. rewrite Z.mod_small; lia.
Qed.

(** C4.  When the search by fingerprint label returns one or more issues,
    the first one is the one acted on and the others play no part: the
    occurrence number is its comment count plus 2 (in Go's [int]), exactly
    one add-comment call is made, on that issue, and the text of the
    comment ends with the line that gives that number as the total of
    occurrences; when the issue is not closed no reopen call is made, and
    when the comment is accepted the entry is processed with outcome
    Updated. *)
Theorem processEntry_existing_issue p entry (w w1 : W) existing rest :
  gitea_SearchIssues ("bugid:" ++ Processor.GenerateBugID entry)%string w
  = (inl (existing :: rest), w1) ->
  let n := Gitea.Number existing in
  let occ := Go.int_add (Gitea.Comments existing) 2 in
  let comment := Processor.generateComment entry occ in
  let r := Processor.processEntry p entry w in
  (Go.MinInt64 <= Gitea.Comments existing <= Go.MaxInt64 - 2 ->
   occ = Gitea.Comments existing + 2)
  /\ events r
     = Trace.SearchIssues
         ("bugid:" ++ Processor.GenerateBugID entry)%string
         (inl (existing :: rest))
         :: events (Processor.updateExistingIssue p existing entry w1)
  /\ addCommentCalls (events r) = [(n, comment)]
  /\ (exists head,
        comment
        = (head ++ "- Total occurrences: **" ++ Go.itoa occ ++ "**"
             ++ Go.nl)%string)
  /\ (Gitea.State existing <> "closed"%string ->
      reopenCalls (events r) = []
      /\ (fst (gitea_AddComment n comment w1) = None ->
          val r = None
          /\ outcome (val r) (events r) = Some (Updated n occ))).
Proof.
  intros H n occ comment r.
  destruct (processEntry_run p entry w) as (He & Hv & _).
  cbv zeta in He, Hv. rewrite H in He, Hv. cbn [fst snd] in He, Hv.
  destruct (updateExistingIssue_run p existing entry w1) as (Ue & Uv).
  cbv zeta in Ue, Uv. fold n occ comment in Ue, Uv. fold r in He, Hv.
  split.
  { intros Hc. unfold occ, Go.int_add. apply wrap64_small.
    unfold Go.MinInt64, Go.MaxInt64 in *. lia. }
  split; [exact He|].
  rewrite Hv, Uv, He, Ue.
  destruct (notifyReopenedIssue_events (Processor.notifiers p)
              (Design.reopenedEvent existing occ)
              (snd (gitea_ReopenIssue n
                      (snd (gitea_AddComment n comment w1)))))
    as [Hn _].
  apply notificationOnly_quiet in Hn.
  destruct Hn as (_ & _ & _ & Q4 & _).
  unfold addCommentCalls, reopenCalls in *.
  split.
  - cbn [flat_map app].
    destruct (fst (gitea_AddComment n comment w1)); [reflexivity|].
    rewrite flat_map_app.
    destruct (String.eqb (Gitea.State existing) "closed"); [|reflexivity].
    cbn [flat_map app].
    destruct (fst (gitea_ReopenIssue n _)); [reflexivity|].
    cbn [flat_map app]. rewrite Q4. reflexivity.
  - split.
    { unfold comment, Processor.generateComment.
      exists ("**Occurred again** at `"
                ++ time_Format_RFC3339 (Loki.Timestamp entry) ++ "`"
                ++ Go.nl ++ Go.nl
                ++ Processor.when_set (Loki.RequestID entry)
                     ("- Request ID: `" ++ Loki.RequestID entry ++ "`"
                        ++ Go.nl)
                ++ Processor.when_set (Loki.TraceID entry)
                     ("- Trace ID: `" ++ Loki.TraceID entry ++ "`" ++ Go.nl)
                ++ Processor.when_set (Loki.UserID entry)
                     ("- User ID: " ++ Loki.UserID entry ++ Go.nl))%string.
      now rewrite !append_assoc. }
    intros Hopen.
    destruct (String.eqb_spec (Gitea.State existing) "closed") as [E|_];
      [contradiction|].
    split.
    + destruct (fst (gitea_AddComment n comment w1)); reflexivity.
    + intros Hc. rewrite Hc. split; reflexivity.
Qed.

Lemma first_app {A B : Type} (f : A -> option B) (a b : list A) :
  first f (a ++ b)
  = match first f a with
    | Some y => Some y
    | None => first f b
    end.
Proof.
  induction a as [|x a IH]; [reflexivity|].
  cbn [first app]. destruct (f x); [reflexivity | exact IH].
Qed.

(** C5.  When the issue acted on is closed and the comment has been
    appended, exactly one reopen call is made, right after the comment
    call.  Whether it succeeds or not, processing the entry succeeds.
    When it succeeds, the reopened notification, carrying the occurrence
    count, goes once to each configured notifier and the outcome is
    Reopened; when it fails, the failure is logged, no reopened
    notification is sent and the outcome is Updated. *)
Theorem processEntry_closed_issue p entry (w w1 w2 : W) existing rest :
  gitea_SearchIssues ("bugid:" ++ Processor.GenerateBugID entry)%string w
  = (inl (existing :: rest), w1) ->
  Gitea.State existing = "closed"%string ->
  gitea_AddComment (Gitea.Number existing)
    (Processor.generateComment entry
       (Go.int_add (Gitea.Comments existing) 2)) w1
  = (None, w2) ->
  let n := Gitea.Number existing in
  let occ := Go.int_add (Gitea.Comments existing) 2 in
  let comment := Processor.generateComment entry occ in
  let r := Processor.processEntry p entry w in
  let ro := gitea_ReopenIssue n w2 in
  val r = None
  /\ addCommentCalls (events r) = [(n, comment)]
  /\ reopenCalls (events r) = [n]
  /\ (exists tail,
        events r
        = Trace.SearchIssues
            ("bugid:" ++ Processor.GenerateBugID entry)%string
            (inl (existing :: rest))
            :: Trace.AddComment n comment None
            :: Trace.ReopenIssue n (fst ro) :: tail)
  /\ match fst ro with
     | None =>
         reopenedNotifications (events r)
         = map (fun x => (Notifier.NotifierName x,
                          Design.reopenedEvent existing occ))
               (Processor.notifiers p)
         /\ outcome (val r) (events r) = Some (Reopened n occ)
     | Some e =>
         reopenedNotifications (events r) = []
         /\ In (Trace.Log (Trace.LogReopenWarning n e)) (events r)
         /\ outcome (val r) (events r) = Some (Updated n occ)
     end.
Proof.
  intros H Hclosed Hc n occ comment r ro.
  destruct (processEntry_run p entry w) as (He & Hv & _).
  cbv zeta in He, Hv. rewrite H in He, Hv. cbn [fst snd] in He, Hv.
  destruct (updateExistingIssue_run p existing entry w1) as (Ue & Uv).
  cbv zeta in Ue, Uv. fold n occ comment in Ue, Uv, Hc.
  rewrite Hc, Hclosed in Ue. rewrite Hc in Uv.
  cbn [fst snd String.eqb Ascii.eqb Bool.eqb] in Ue, Uv.
  fold ro in Ue. fold r in He, Hv.
  rewrite Hv, Uv, He, Ue.
  destruct (notifyReopenedIssue_events (Processor.notifiers p)
              (Design.reopenedEvent existing occ) (snd ro)) as [Hn Hm].
  pose proof (notificationOnly_quiet _ Hn)
    as (_ & _ & _ & Q4 & Q5 & _ & Q7 & Q8 & _).
  unfold addCommentCalls, reopenCalls, reopenedNotifications, outcome,
    logLines in *.
  split; [reflexivity|].
  destruct (fst ro) as [e|]; cbn [flat_map app].
  - repeat split; try reflexivity.
    + eexists. reflexivity.
    + cbn. auto.
  - rewrite !flat_map_app, Q4, Q5, Hm. cbn [flat_map app].
    rewrite app_nil_r.
    repeat split; try reflexivity.
    + eexists. reflexivity.
    + cbn [first createdLine updatedLine].
      rewrite !first_app, Q7, Q8. cbn [first createdLine updatedLine].
      cbn [existsb reopenedLine]. now rewrite Z.eqb_refl.
Qed.

(** C6.  When the search by fingerprint label returns no issue, exactly
    one create-issue call is made; its labels are the auto-generated
    marker, the fingerprint label and one severity label, critical for a
    status code of 500 or more and error otherwise.  When the tracker
    accepts the issue, processing succeeds with outcome Created and the
    new-issue notification goes once to each configured notifier. *)
Theorem processEntry_new_issue p entry (w w1 : W) :
  gitea_SearchIssues ("bugid:" ++ Processor.GenerateBugID entry)%string w
  = (inl [], w1) ->
  let fp := Processor.GenerateBugID entry in
  let label := ("bugid:" ++ fp)%string in
  let severity :=
    if 500 <=? Loki.Status entry then "severity:critical"%string
    else "severity:error"%string in
  let labels := ["auto-generated"%string; label; severity] in
  let title := Processor.generateTitle entry in
  let body := Processor.generateBody entry fp in
  let r := Processor.processEntry p entry w in
  let cr := gitea_CreateIssue title body labels
              (after (Client.EnsureLabel label "0366d6" w1)) in
  createCalls (events r) = [(title, body, labels)]
  /\ ensureLabelCalls (events r) = [(label, "0366d6"%string)]
  /\ filter (String.prefix "severity:") labels = [severity]
  /\ match fst cr with
     | inl issue =>
         val r = None
         /\ outcome (val r) (events r)
            = Some (Created (Gitea.Number issue))
         /\ newIssueNotifications (events r)
            = map (fun x => (Notifier.NotifierName x,
                             Design.newIssueEvent issue title fp entry))
                  (Processor.notifiers p)
     | inr e => val r = Some ("failed to create issue: " ++ e)%string
     end.
Proof.
  intros H fp label severity labels title body r cr.
  destruct (processEntry_run p entry w) as (He & Hv & _).
  cbv zeta in He, Hv. rewrite H in He, Hv. cbn [fst snd] in He, Hv.
  destruct (createNewIssue_run p entry fp label w1) as (Ce & Cv).
  cbv zeta in Ce, Cv.
  assert (Hl : Design.issueLabels entry label = labels) by reflexivity.
  rewrite Hl in Ce, Cv. fold title body cr in Ce, Cv.
  fold fp label in He, Hv. fold r in He, Hv.
  rewrite Hv, Cv, He, Ce.
  unfold createCalls, ensureLabelCalls, newIssueNotifications, outcome,
    logLines.
  split; [|split; [|split]].
  - destruct (val (Client.EnsureLabel label "0366d6" w1)) as [le|];
      cbn [flat_map app]; destruct (fst cr) as [issue|e]; [|reflexivity| |reflexivity];
      cbn [flat_map app];
      destruct (notifyNewIssue_events (Processor.notifiers p)
                  (Design.newIssueEvent issue title fp entry) (snd cr))
        as [Hn _];
      apply notificationOnly_quiet in Hn;
      destruct Hn as (_ & _ & Q3 & _);
      unfold createCalls in Q3; rewrite Q3; reflexivity.
  - destruct (val (Client.EnsureLabel label "0366d6" w1)) as [le|];
      cbn [flat_map app]; destruct (fst cr) as [issue|e]; [|reflexivity| |reflexivity];
      cbn [flat_map app];
      destruct (notifyNewIssue_events (Processor.notifiers p)
                  (Design.newIssueEvent issue title fp entry) (snd cr))
        as [Hn _];
      apply notificationOnly_quiet in Hn;
      destruct Hn as (_ & Q2 & _);
      unfold ensureLabelCalls in Q2; rewrite Q2; reflexivity.
  - unfold labels, severity, label.
    destruct (500 <=? Loki.Status entry); reflexivity.
  - destruct (fst cr) as [issue|e]; [|reflexivity].
    destruct (notifyNewIssue_events (Processor.notifiers p)
                (Design.newIssueEvent issue title fp entry) (snd cr))
      as [_ Hm].
    unfold newIssueNotifications in Hm.
    destruct (val (Client.EnsureLabel label "0366d6" w1)) as [le|];
      cbn [flat_map app first createdLine]; rewrite Hm;
      repeat split; reflexivity.
Qed.

(** ** The poll cycle *)

(** C7.  A cycle queries the window from the watermark to now.  When the
    query succeeds the watermark becomes now, whatever the number of
    entries returned, zero included; when it fails the processor is
    unchanged, so the next cycle queries from the same start time.  Unless
    now equals the old watermark, the watermark is now after the cycle
    exactly when the query succeeded. *)
Theorem poll_watermark (p : Processor.Processor) (w : W) :
  let now := fst (time_Now w) in
  let q := loki_QueryRange Processor.pollQuery (Processor.lastPoll p) now
             1000 (snd (time_Now w)) in
  let r := Processor.poll p w in
  let next := Processor.poll (val r) (after r) in
  hd_error (events r)
  = Some (Trace.QueryRange Processor.pollQuery (Processor.lastPoll p) now
                           1000 (fst q))
  /\ match fst q with
     | inl entries => Processor.lastPoll (val r) = now
     | inr e =>
         val r = p
         /\ exists stop res,
             hd_error (events next)
             = Some (Trace.QueryRange Processor.pollQuery
                       (Processor.lastPoll p) stop 1000 res)
     end
  /\ (Processor.lastPoll p <> now ->
      (Processor.lastPoll (val r) = now
       <-> exists entries, fst q = inl entries)).
Proof.
  cbv zeta.
  assert (Hhd : forall (p0 : Processor.Processor) (w0 : W),
             hd_error (events (Processor.poll p0 w0))
             = Some (Trace.QueryRange Processor.pollQuery
                       (Processor.lastPoll p0) (fst (time_Now w0)) 1000
                       (fst (loki_QueryRange Processor.pollQuery
                               (Processor.lastPoll p0) (fst (time_Now w0))
                               1000 (snd (time_Now w0)))))).
  { intros p0 w0. reflexivity. }
  assert (Hval : val (Processor.poll p w)
                 = match fst (loki_QueryRange Processor.pollQuery
                                (Processor.lastPoll p) (fst (time_Now w))
                                1000 (snd (time_Now w))) with
                   | inl _ => Processor.setLastPoll p (fst (time_Now w))
                   | inr _ => p
                   end).
  { unfold Processor.poll, Client.Now, Client.QueryRange, bind, lift, call.
    cbn [val after events].
    destruct (fst (loki_QueryRange _ _ _ _ _)) as [entries|e];
      [|reflexivity].
    destruct (Z.of_nat (List.length entries) =? 0); reflexivity. }
  split; [apply Hhd|]. rewrite Hval.
  destruct (fst (loki_QueryRange _ _ _ _ _)) as [entries|e].
  - split; [reflexivity|]. intros _. split; [eauto | reflexivity].
  - split.
    + split; [reflexivity|]. do 2 eexists. apply Hhd.
    + intros Hne. split; [intros E; contradiction|].
      intros [entries E]. discriminate E.
Qed.

(** ** Failures *)

Lemma find_app {A : Type} (f : A -> bool) (a b : list A) :
  find f (a ++ b)
  = match find f a with
    | Some x => Some x
    | None => find f b
    end.
Proof.
  induction a as [|x a IH]; [reflexivity|].
  cbn [find app]. destruct (f x); [reflexivity | exact IH].
Qed.

(** Processing an entry fails exactly when its search, create or comment
    call fails, and that call is then the last thing done. *)
Lemma processEntry_failure p entry (w : W) :
  let r := Processor.processEntry p entry w in
  match find abortingFailure (events r) with
  | Some ev => val r <> None /\ exists pre, events r = pre ++ [ev]
  | None => val r = None
  end.
Proof.
  cbv zeta.
  destruct (processEntry_run p entry w) as (He & Hv & _).
  cbv zeta in He, Hv. rewrite He, Hv. clear He Hv.
  destruct (gitea_SearchIssues _ w) as [[[|existing rest]|e] w1];
    cbn [fst snd find abortingFailure].
  - destruct (createNewIssue_run p entry (Processor.GenerateBugID entry)
                ("bugid:" ++ Processor.GenerateBugID entry)%string w1)
      as (Ce & Cv).
    cbv zeta in Ce, Cv. rewrite Ce, Cv. clear Ce Cv.
    cbn [find abortingFailure]. rewrite find_app.
    destruct (val (Client.EnsureLabel _ _ w1)) as [le|];
      cbn [find abortingFailure];
      destruct (gitea_CreateIssue _ _ _ _) as [[issue|e] w2];
      cbn [fst snd find abortingFailure];
      try (split; [discriminate | eexists (_ :: _ :: _); reflexivity]);
      destruct (notifyNewIssue_events (Processor.notifiers p)
                  (Design.newIssueEvent issue
                     (Processor.generateTitle entry)
                     (Processor.GenerateBugID entry) entry) w2)
        as [Hn _];
      apply notificationOnly_quiet in Hn;
      destruct Hn as (_ & _ & _ & _ & _ & _ & _ & _ & _ & Q);
      rewrite Q; reflexivity.
  - destruct (updateExistingIssue_run p existing entry w1) as (Ue & Uv).
    cbv zeta in Ue, Uv. rewrite Ue, Uv. clear Ue Uv.
    cbn [find abortingFailure].
    destruct (gitea_AddComment _ _ w1) as [[e|] w2];
      cbn [fst snd find abortingFailure].
    + split; [discriminate | eexists [_]; reflexivity].
    + rewrite find_app.
      destruct (String.eqb (Gitea.State existing) "closed");
        [|reflexivity].
      cbn [find abortingFailure].
      destruct (gitea_ReopenIssue _ w2) as [[e|] w3];
        cbn [fst snd find abortingFailure]; [reflexivity|].
      destruct (notifyReopenedIssue_events (Processor.notifiers p)
                  (Design.reopenedEvent existing
                     (Go.int_add (Gitea.Comments existing) 2)) w3)
        as [Hn _].
      apply notificationOnly_quiet in Hn.
      destruct Hn as (_ & _ & _ & _ & _ & _ & _ & _ & _ & Q).
      rewrite Q. reflexivity.
  - split; [discriminate | exists []; reflexivity].
Qed.

(** Processing an entry searches once, by the entry's fingerprint
    label. *)
Lemma processEntry_searchCalls p entry (w : W) :
  searchCalls (events (Processor.processEntry p entry w))
  = [("bugid:" ++ Processor.GenerateBugID entry)%string].
Proof.
  destruct (processEntry_run p entry w) as (He & _).
  cbv zeta in He. rewrite He. clear He.
  unfold searchCalls. cbn [flat_map app]. f_equal.
  destruct (gitea_SearchIssues _ w) as [[[|existing rest]|e] w1];
    cbn [fst snd]; [| |reflexivity].
  - destruct (createNewIssue_run p entry (Processor.GenerateBugID entry)
                ("bugid:" ++ Processor.GenerateBugID entry)%string w1)
      as (Ce & _).
    cbv zeta in Ce. rewrite Ce. clear Ce.
    cbn [flat_map app]. rewrite flat_map_app.
    destruct (val (Client.EnsureLabel _ _ w1)) as [le|];
      cbn [flat_map app];
      destruct (gitea_CreateIssue _ _ _ _) as [[issue|e] w2];
      cbn [fst snd flat_map app]; try reflexivity;
      destruct (notifyNewIssue_events (Processor.notifiers p)
                  (Design.newIssueEvent issue
                     (Processor.generateTitle entry)
                     (Processor.GenerateBugID entry) entry) w2)
        as [Hn _];
      apply notificationOnly_quiet in Hn;
      destruct Hn as (Q & _); unfold searchCalls in Q; rewrite Q;
      reflexivity.
  - destruct (updateExistingIssue_run p existing entry w1) as (Ue & _).
    cbv zeta in Ue. rewrite Ue. clear Ue.
    cbn [flat_map app].
    destruct (gitea_AddComment _ _ w1) as [[e|] w2];
      cbn [fst snd]; [reflexivity|].
    rewrite flat_map_app.
    destruct (String.eqb (Gitea.State existing) "closed");
      [|reflexivity].
    cbn [flat_map app].
    destruct (gitea_ReopenIssue _ w2) as [[e|] w3];
      cbn [fst snd flat_map app]; [reflexivity|].
    destruct (notifyReopenedIssue_events (Processor.notifiers p)
                (Design.reopenedEvent existing
                   (Go.int_add (Gitea.Comments existing) 2)) w3)
      as [Hn _].
    apply notificationOnly_quiet in Hn.
    destruct Hn as (Q & _). unfold searchCalls in Q. rewrite Q.
    reflexivity.
Qed.

(** One step of the loop over a batch: the entry is processed, its error
    is logged when there is one, and the loop goes on with the rest. *)
Lemma processEntries_cons p entry rest c (w : W) :
  Loki.IsError entry = true ->
  let r := Processor.processEntry p entry w in
  events (Processor.processEntries p (entry :: rest) c w)
  = Trace.Log (Trace.LogProcessing (Loki.Level entry) (Loki.Status entry)
                                   (Loki.Message entry))
      :: events r
      ++ match val r with
         | Some e => [Trace.Log (Trace.LogEntryError e)]
         | None => []
         end
      ++ events (Processor.processEntries p rest (Go.int_add c 1) (after r)).
Proof.
  intros H. cbv zeta. cbn [Processor.processEntries]. rewrite H.
  unfold bind, log, emit, ret. cbn [val after events app].
  destruct (val (Processor.processEntry p entry w));
    cbn [val after events app]; reflexivity.
Qed.

Lemma processEntries_skip p entry rest c (w : W) :
  Loki.IsError entry = false ->
  Processor.processEntries p (entry :: rest) c w
  = Processor.processEntries p rest c w.
Proof. intros H. cbn [Processor.processEntries]. now rewrite H. Qed.

Lemma processEntries_searchCalls p entries c (w : W) :
  searchCalls (events (Processor.processEntries p entries c w))
  = map (fun e => ("bugid:" ++ Processor.GenerateBugID e)%string)
        (filter Loki.IsError entries).
Proof.
  revert c w. induction entries as [|entry rest IH]; intros c w;
    [reflexivity|].
  cbn [filter]. destruct (Loki.IsError entry) eqn:E.
  - rewrite (processEntries_cons p entry rest c w E). cbv zeta.
    pose proof (processEntry_searchCalls p entry w) as Hs.
    pose proof (IH (Go.int_add c 1)
                   (after (Processor.processEntry p entry w))) as IH'.
    unfold searchCalls in *.
    cbn [flat_map app map]. rewrite !flat_map_app, Hs, IH'.
    destruct (val (Processor.processEntry p entry w)); reflexivity.
  - rewrite (processEntries_skip p entry rest c w E). apply IH.
Qed.

Lemma processEntries_forwardAll p entries :
  forall c (w : W),
    Processor.processEntries p entries c w
    = Design.forwardAll p (filter Loki.IsError entries) c w.
Proof.
  induction entries as [|entry rest IH]; intros c w; [reflexivity|].
  cbn [filter Processor.processEntries].
  destruct (Loki.IsError entry); [|apply IH].
  cbn [Design.forwardAll]. unfold bind.
  cbn [val after events]. now rewrite !IH.
Qed.

(** C1, as the code has it.  An entry qualifies as an error exactly when
    its level is the string ERROR or the string error, or its status code
    is at least 500; other spellings of the level, such as Error, do not
    qualify by themselves.  The qualifying entries are the ones forwarded:
    the loop of [poll] over a batch does what handing each qualifying
    entry of the batch, in order, to [processEntry] does, and nothing for
    the other entries; and a cycle whose query returns a batch consists of
    the query, the line that counts the batch, that loop, and the line
    that counts the qualifying entries when there is one. *)
Theorem qualifying_entries_forwarded (p : Processor.Processor) :
  (forall e : Loki.LogEntry,
      Loki.IsError e = true
      <-> (Loki.Level e = "ERROR"%string \/ Loki.Level e = "error"%string
           \/ 500 <= Loki.Status e))
  /\ (forall entries c (w : W),
        Processor.processEntries p entries c w
        = Design.forwardAll p (filter Loki.IsError entries) c w
        /\ forall e,
            In e (filter Loki.IsError entries)
            <-> In e entries
                /\ (Loki.Level e = "ERROR"%string
                    \/ Loki.Level e = "error"%string
                    \/ 500 <= Loki.Status e))
  /\ (forall (w w1 : W) entries,
        loki_QueryRange Processor.pollQuery (Processor.lastPoll p)
          (fst (time_Now w)) 1000 (snd (time_Now w))
        = (inl entries, w1) ->
        entries <> [] ->
        let run :=
          Design.forwardAll (Processor.setLastPoll p (fst (time_Now w)))
            (filter Loki.IsError entries) 0 w1 in
        events (Processor.poll p w)
        = Trace.QueryRange Processor.pollQuery (Processor.lastPoll p)
            (fst (time_Now w)) 1000 (inl entries)
            :: Trace.Log (Trace.LogFound (Z.of_nat (List.length entries)))
            :: events run
            ++ (if 0 <? val run
                then [Trace.Log (Trace.LogProcessed (val run))]
                else [])).
Proof.
  split; [exact IsError_iff|]. split.
  - intros entries c w. split; [apply processEntries_forwardAll|].
    intros e. rewrite filter_In, IsError_iff. reflexivity.
  - intros w w1 entries Hq Hne. cbv zeta.
    unfold Processor.poll, Client.Now, Client.QueryRange, bind, lift, call.
    cbn [val after events]. rewrite Hq. cbn [fst snd].
    destruct entries as [|e entries]; [congruence|].
    replace (Z.of_nat (List.length (e :: entries)) =? 0) with false
      by (symmetry; apply Z.eqb_neq; cbn [List.length]; lia).
    unfold log, emit. cbn [val after events app].
    rewrite processEntries_forwardAll.
    destruct (0 <? val (Design.forwardAll _ _ 0 w1));
      unfold ret; cbn [val after events app];
      rewrite ?app_nil_r; reflexivity.
Qed.

Lemma In_ensureLabelCalls name color res (evs : list Trace.Event) :
  In (Trace.EnsureLabel name color res) evs ->
  In (name, color) (ensureLabelCalls evs).
Proof.
  intros H. unfold ensureLabelCalls. apply in_flat_map.
  exists (Trace.EnsureLabel name color res). split; [exact H | now left].
Qed.

(** A failed ensure-label call is followed by its warning and then by the
    create-issue call, and whether the entry fails is up to that call. *)
Lemma processEntry_label_warning p entry (w : W) name color err :
  let r := Processor.processEntry p entry w in
  In (Trace.EnsureLabel name color (Some err)) (events r) ->
  exists pre res post,
    events r
    = pre ++ Trace.EnsureLabel name color (Some err)
          :: Trace.Log (Trace.LogLabelWarning err)
          :: Trace.CreateIssue
               (Processor.generateTitle entry)
               (Processor.generateBody entry (Processor.GenerateBugID entry))
               (Design.issueLabels entry name) res
          :: post
    /\ name = ("bugid:" ++ Processor.GenerateBugID entry)%string
    /\ (val r = None <-> exists issue, res = inl issue).
Proof.
  cbv zeta.
  destruct (processEntry_run p entry w) as (He & Hv & _).
  cbv zeta in He, Hv. rewrite He, Hv. clear He Hv.
  destruct (gitea_SearchIssues _ w) as [[[|existing rest]|e] w1];
    cbn [fst snd].
  - destruct (createNewIssue_run p entry (Processor.GenerateBugID entry)
                ("bugid:" ++ Processor.GenerateBugID entry)%string w1)
      as (Ce & Cv).
    cbv zeta in Ce, Cv. rewrite Ce, Cv. clear Ce Cv.
    remember (val (Client.EnsureLabel
                     ("bugid:" ++ Processor.GenerateBugID entry)%string
                     "0366d6" w1)) as v eqn:Ev.
    clear Ev.
    intros [H|[H|H]]; [discriminate H| |exfalso].
    + injection H as Hn Hc Hl. subst name color v.
      exists [Trace.SearchIssues
                ("bugid:" ++ Processor.GenerateBugID entry)%string (inl [])].
      eexists. eexists. split; [reflexivity|]. split; [reflexivity|].
      destruct (fst (gitea_CreateIssue _ _ _ _)) as [issue|e].
      * split; [intros _; now exists issue | reflexivity].
      * split; [discriminate | intros [issue Hi]; discriminate Hi].
    + apply In_ensureLabelCalls in H. revert H.
      unfold ensureLabelCalls. rewrite flat_map_app.
      destruct v as [le|];
        cbn [flat_map app];
        destruct (gitea_CreateIssue _ _ _ _) as [[issue|e] w2];
        cbn [fst snd flat_map app]; try (intros []);
        destruct (notifyNewIssue_events (Processor.notifiers p)
                    (Design.newIssueEvent issue
                       (Processor.generateTitle entry)
                       (Processor.GenerateBugID entry) entry) w2)
          as [Hn _];
        apply notificationOnly_quiet in Hn;
        destruct Hn as (_ & Q & _); unfold ensureLabelCalls in Q;
        rewrite Q; intros [].
  - destruct (updateExistingIssue_run p existing entry w1) as (Ue & _).
    cbv zeta in Ue. rewrite Ue. clear Ue.
    intros [H|[H|H]]; [discriminate H|discriminate H|exfalso].
    apply In_ensureLabelCalls in H. revert H.
    unfold ensureLabelCalls.
    destruct (gitea_AddComment _ _ w1) as [[e|] w2];
      cbn [fst snd flat_map app]; [intros []|].
    rewrite flat_map_app.
    destruct (String.eqb (Gitea.State existing) "closed");
      cbn [flat_map app]; [|intros []].
    destruct (gitea_ReopenIssue _ w2) as [[e|] w3];
      cbn [fst snd flat_map app]; [intros []|].
    destruct (notifyReopenedIssue_events (Processor.notifiers p)
                (Design.reopenedEvent existing
                   (Go.int_add (Gitea.Comments existing) 2)) w3)
      as [Hn _].
    apply notificationOnly_quiet in Hn.
    destruct Hn as (_ & Q & _). unfold ensureLabelCalls in Q.
    rewrite app_nil_r, Q. intros [].
  - intros [H|[]]. discriminate H.
Qed.

(** C8, as the code has it.  Processing an entry fails exactly when its
    search, create-issue or add-comment call fails; that call is then the
    last thing done for the entry and the error goes back to the caller.
    A failure of the ensure-label call does not abort the entry: it is
    logged as a warning and the next thing done is the create-issue call,
    on whose result alone the entry then fails or not.  The loop over the
    batch logs the error of an entry and goes on: every qualifying entry
    of the batch is searched for, in order, whatever happened to the
    entries before it. *)
Theorem entry_failure_and_batch (p : Processor.Processor) :
  (forall entry (w : W),
      let r := Processor.processEntry p entry w in
      match find abortingFailure (events r) with
      | Some ev => val r <> None /\ exists pre, events r = pre ++ [ev]
      | None => val r = None
      end)
  /\ (forall entry (w : W) name color err,
        let r := Processor.processEntry p entry w in
        In (Trace.EnsureLabel name color (Some err)) (events r) ->
        exists pre res post,
          events r
          = pre ++ Trace.EnsureLabel name color (Some err)
                :: Trace.Log (Trace.LogLabelWarning err)
                :: Trace.CreateIssue
                     (Processor.generateTitle entry)
                     (Processor.generateBody entry
                        (Processor.GenerateBugID entry))
                     (Design.issueLabels entry name) res
                :: post
          /\ name = ("bugid:" ++ Processor.GenerateBugID entry)%string
          /\ (val r = None <-> exists issue, res = inl issue))
  /\ (forall entry rest c (w : W),
        Loki.IsError entry = true ->
        let r := Processor.processEntry p entry w in
        events (Processor.processEntries p (entry :: rest) c w)
        = Trace.Log (Trace.LogProcessing (Loki.Level entry)
                       (Loki.Status entry) (Loki.Message entry))
            :: events r
            ++ match val r with
               | Some e => [Trace.Log (Trace.LogEntryError e)]
               | None => []
               end
            ++ events (Processor.processEntries p rest (Go.int_add c 1)
                         (after r)))
  /\ (forall entries c (w : W),
        searchCalls (events (Processor.processEntries p entries c w))
        = map (fun e => ("bugid:" ++ Processor.GenerateBugID e)%string)
              (filter Loki.IsError entries)).
Proof.
  split; [|split; [|split]].
  - apply processEntry_failure.
  - apply processEntry_label_warning.
  - apply processEntries_cons.
  - apply processEntries_searchCalls.
Qed.

End LifecycleFacts.

(** C8, as worded: a failed ensure-label call is claimed to abort the
    entry and to be reported as a failure; with a tracker that refuses to
    create labels the entry is processed to the end and no error comes
    back. *)
Lemma ensureLabel_failure_not_reported :
  ~ (forall (W : Type) (env : Env W) (lib : GoLib)
            (p : Processor.Processor) (entry : Loki.LogEntry) (w : W),
        existsb Observe.trackerFailure
                (Eff.events (Processor.processEntry p entry w)) = true ->
        Eff.val (Processor.processEntry p entry w) <> None).
Proof.
  intros H.
  apply (H Fake.World Fake.env Fake.lib (Fake.processor [Fake.slack])
           Fake.coffee (Fake.world [] ["label"]));
    vm_compute; reflexivity.
Qed.

Example ensureLabel_failure_trace :
  Observe.ensureLabelCalls
    (Eff.events (Processor.processEntry (env := Fake.env) (lib := Fake.lib)
                   (Fake.processor [Fake.slack]) Fake.coffee
                   (Fake.world [] ["label"])))
  = [("bugid:39b1206b4907ff39", "0366d6")]
  /\ existsb Observe.trackerFailure
       (Eff.events (Processor.processEntry (env := Fake.env) (lib := Fake.lib)
                      (Fake.processor [Fake.slack]) Fake.coffee
                      (Fake.world [] ["label"]))) = true
  /\ Observe.outcome
       (Eff.val (Processor.processEntry (env := Fake.env) (lib := Fake.lib)
                   (Fake.processor [Fake.slack]) Fake.coffee
                   (Fake.world [] ["label"])))
       (Eff.events (Processor.processEntry (env := Fake.env) (lib := Fake.lib)
                      (Fake.processor [Fake.slack]) Fake.coffee
                      (Fake.world [] ["label"])))
     = Some (Observe.Created 1).
Proof. vm_compute. repeat split. Qed.

(** ** The lifecycle on the tracker kept in memory *)

(** C4 at a tracker that holds one open issue with three comments for the
    entry's fingerprint: one comment call, whose text gives 5 as the total
    of occurrences, no reopen call, outcome Updated. *)
Lemma processEntry_existing_issue_witness :
  gitea_SearchIssues (Env := Fake.env)
    ("bugid:" ++ Processor.GenerateBugID Fake.coffee)
    (Fake.world [Fake.openIssue] [])
  = (inl [Fake.openIssue], Fake.world [Fake.openIssue] [])
  /\ Observe.addCommentCalls
       (Eff.events (Processor.processEntry (env := Fake.env) (lib := Fake.lib)
                      (Fake.processor [Fake.slack]) Fake.coffee
                      (Fake.world [Fake.openIssue] [])))
     = [(7%Z,
         "**Occurred again** at `1700000000000000000`" ++ Go.nl ++ Go.nl
           ++ "- Total occurrences: **5**" ++ Go.nl)]
  /\ Observe.reopenCalls
       (Eff.events (Processor.processEntry (env := Fake.env) (lib := Fake.lib)
                      (Fake.processor [Fake.slack]) Fake.coffee
                      (Fake.world [Fake.openIssue] [])))
     = []
  /\ Observe.outcome
       (Eff.val (Processor.processEntry (env := Fake.env) (lib := Fake.lib)
                   (Fake.processor [Fake.slack]) Fake.coffee
                   (Fake.world [Fake.openIssue] [])))
       (Eff.events (Processor.processEntry (env := Fake.env) (lib := Fake.lib)
                      (Fake.processor [Fake.slack]) Fake.coffee
                      (Fake.world [Fake.openIssue] [])))
     = Some (Observe.Updated 7 5).
Proof.
  assert (H : gitea_SearchIssues (Env := Fake.env)
                ("bugid:" ++ Processor.GenerateBugID Fake.coffee)
                (Fake.world [Fake.openIssue] [])
              = (inl [Fake.openIssue], Fake.world [Fake.openIssue] []))
    by (vm_compute; reflexivity).
  split; [exact H|].
  destruct (processEntry_existing_issue (env := Fake.env) (lib := Fake.lib)
              (Fake.processor [Fake.slack]) Fake.coffee _ _ _ _ H)
    as (_ & _ & H3 & _ & H4).
  destruct H4 as [H5 H6]; [discriminate|].
  destruct H6 as [_ H8]; [reflexivity|].
  split; [exact H3|]. split; [exact H5 | exact H8].
Defined.

(** C5 at a tracker that holds one closed issue without comments for the
    entry's fingerprint: one comment call, one reopen call, one reopened
    notification to the one notifier, outcome Reopened with occurrence
    number 2. *)
Lemma processEntry_closed_issue_witness :
  Gitea.State Fake.closedIssue = "closed"
  /\ Observe.addCommentCalls
       (Eff.events (Processor.processEntry (env := Fake.env) (lib := Fake.lib)
                      (Fake.processor [Fake.slack]) Fake.coffee
                      (Fake.world [Fake.closedIssue] [])))
     = [(7%Z, Processor.generateComment (lib := Fake.lib) Fake.coffee 2)]
  /\ Observe.reopenCalls
       (Eff.events (Processor.processEntry (env := Fake.env) (lib := Fake.lib)
                      (Fake.processor [Fake.slack]) Fake.coffee
                      (Fake.world [Fake.closedIssue] [])))
     = [7%Z]
  /\ Observe.reopenedNotifications
       (Eff.events (Processor.processEntry (env := Fake.env) (lib := Fake.lib)
                      (Fake.processor [Fake.slack]) Fake.coffee
                      (Fake.world [Fake.closedIssue] [])))
     = [("slack", Design.reopenedEvent Fake.closedIssue 2)]
  /\ Observe.outcome
       (Eff.val (Processor.processEntry (env := Fake.env) (lib := Fake.lib)
                   (Fake.processor [Fake.slack]) Fake.coffee
                   (Fake.world [Fake.closedIssue] [])))
       (Eff.events (Processor.processEntry (env := Fake.env) (lib := Fake.lib)
                      (Fake.processor [Fake.slack]) Fake.coffee
                      (Fake.world [Fake.closedIssue] [])))
     = Some (Observe.Reopened 7 2).
Proof.
  assert (H : gitea_SearchIssues (Env := Fake.env)
                ("bugid:" ++ Processor.GenerateBugID Fake.coffee)
                (Fake.world [Fake.closedIssue] [])
              = (inl [Fake.closedIssue], Fake.world [Fake.closedIssue] []))
    by (vm_compute; reflexivity).
  split; [reflexivity|].
  pose proof (processEntry_closed_issue (env := Fake.env) (lib := Fake.lib)
                (Fake.processor [Fake.slack]) Fake.coffee _ _ _ _ _ H
                eq_refl eq_refl)
    as (_ & H2 & H3 & _ & H5).
  cbn [fst Fake.env gitea_ReopenIssue Fake.reopen Fake.fails Fake.world
       Fake.failing existsb] in H5.
  destruct H5 as [H5 H6].
  split; [exact H2|]. split; [exact H3|]. split; [exact H5 | exact H6].
Defined.

(** C6 at an empty tracker: one create call with the three labels, outcome
    Created. *)
Lemma processEntry_new_issue_witness :
  gitea_SearchIssues (Env := Fake.env)
    ("bugid:" ++ Processor.GenerateBugID Fake.coffee) (Fake.world [] [])
  = (inl [], Fake.world [] [])
  /\ Observe.createCalls
       (Eff.events (Processor.processEntry (env := Fake.env) (lib := Fake.lib)
                      (Fake.processor [Fake.slack]) Fake.coffee
                      (Fake.world [] [])))
     = [(Processor.generateTitle (lib := Fake.lib) Fake.coffee,
         Processor.generateBody (lib := Fake.lib) Fake.coffee
           (Processor.GenerateBugID Fake.coffee),
         ["auto-generated";
          "bugid:" ++ Processor.GenerateBugID Fake.coffee;
          "severity:critical"])]
  /\ Observe.outcome
       (Eff.val (Processor.processEntry (env := Fake.env) (lib := Fake.lib)
                   (Fake.processor [Fake.slack]) Fake.coffee
                   (Fake.world [] [])))
       (Eff.events (Processor.processEntry (env := Fake.env) (lib := Fake.lib)
                      (Fake.processor [Fake.slack]) Fake.coffee
                      (Fake.world [] [])))
     = Some (Observe.Created 1).
Proof.
  assert (H : gitea_SearchIssues (Env := Fake.env)
                ("bugid:" ++ Processor.GenerateBugID Fake.coffee)
                (Fake.world [] [])
              = (inl [], Fake.world [] []))
    by (vm_compute; reflexivity).
  split; [exact H|].
  pose proof (processEntry_new_issue (env := Fake.env) (lib := Fake.lib)
                (Fake.processor [Fake.slack]) Fake.coffee _ _ H)
    as (H1 & _ & _ & H4).
  cbn [fst Fake.env gitea_CreateIssue Fake.create Fake.fails Fake.world
       Fake.failing existsb] in H4.
  destruct H4 as (_ & H5 & _).
  split; [exact H1 | exact H5].
Defined.

(** ** Poll cycles and batches on the tracker kept in memory *)

(** Loki fails once and then answers with no entry: the first cycle keeps
    the watermark, the second queries from the same start and moves it. *)
Example poll_failure_then_success :
  let p := Fake.processor [Fake.slack] in
  let w := Fake.scripted [inr "Loki returned status 503: "; inl []] in
  let r1 := Processor.poll (env := Fake.env) (lib := Fake.lib) p w in
  let r2 := Processor.poll (env := Fake.env) (lib := Fake.lib)
              (Eff.val r1) (Eff.after r1) in
  Processor.lastPoll (Eff.val r1) = Processor.lastPoll p
  /\ Eff.events r2
     = [Trace.QueryRange Processor.pollQuery (Processor.lastPoll p)
          1700000030000000000%Z 1000%Z (inl []);
        Trace.Log Trace.LogNoEntries]
  /\ Processor.lastPoll (Eff.val r2) = 1700000030000000000%Z.
Proof. vm_compute. repeat split. Qed.

(** A batch of three qualifying entries and one that does not qualify,
    with a tracker that refuses every new issue: each qualifying entry is
    searched for and fails on its own. *)
Example batch_goes_on_after_failures :
  let batch :=
    [Fake.entry "ERROR" "GET" "/a/1" 0 "f";
     Fake.entry "info" "GET" "/b" 200 "g";
     Fake.entry "" "PUT" "/c/2" 502 "h";
     Fake.entry "error" "GET" "/d" 404 "k"] in
  let r := Processor.processEntries (env := Fake.env) (lib := Fake.lib)
             (Fake.processor [Fake.slack]) batch 0
             (Fake.world [] ["create"]) in
  Eff.val r = 3%Z
  /\ List.length (Observe.searchCalls (Eff.events r)) = 3%nat
  /\ List.length (Observe.createCalls (Eff.events r)) = 3%nat
  /\ filter (fun l => match l with
                      | Trace.LogEntryError _ => true
                      | _ => false
                      end) (Observe.logLines (Eff.events r))
     = repeat (Trace.LogEntryError
                 "failed to create issue: Gitea returned status 500: ") 3.
Proof. vm_compute. repeat split. Qed.

(** Two issues carry the fingerprint label, an open one first and a closed
    one after it: the first is commented, the second is left alone. *)
Example first_issue_wins :
  let second := Fake.tracked 8 "closed" Fake.coffeeID 4 in
  let r := Processor.processEntry (env := Fake.env) (lib := Fake.lib)
             (Fake.processor [Fake.slack]) Fake.coffee
             (Fake.world [Fake.openIssue; second] []) in
  Observe.addCommentCalls (Eff.events r)
  = [(7%Z, Processor.generateComment (lib := Fake.lib) Fake.coffee 5)]
  /\ Observe.reopenCalls (Eff.events r) = []
  /\ Observe.outcome (Eff.val r) (Eff.events r)
     = Some (Observe.Updated 7 5).
Proof. vm_compute. repeat split. Qed.

(** A first sighting with level ERROR and a status below 500 gets the
    error severity. *)
Example new_issue_error_severity :
  let e := Fake.entry "ERROR" "GET" "/api/v1/coffee" 0 "f" in
  let r := Processor.processEntry (env := Fake.env) (lib := Fake.lib)
             (Fake.processor []) e (Fake.world [] []) in
  map snd (Observe.createCalls (Eff.events r))
  = [["auto-generated"; "bugid:" ++ Processor.GenerateBugID e;
      "severity:error"]]
  /\ Observe.outcome (Eff.val r) (Eff.events r) = Some (Observe.Created 1).
Proof. vm_compute. repeat split. Qed.

(** A closed issue and two notifiers, the second of which fails: both are
    called, the failure is logged and the entry is still processed. *)
Example failed_notification_is_logged :
  let r := Processor.processEntry (env := Fake.env) (lib := Fake.lib)
             (Fake.processor [Fake.slack; Fake.broken]) Fake.coffee
             (Fake.world [Fake.closedIssue] []) in
  map fst (Observe.reopenedNotifications (Eff.events r))
  = ["slack"; "discord"]
  /\ In (Trace.Log
           (Trace.LogNotifyError "Discord webhook returned status 500"))
        (Eff.events r)
  /\ Fake.delivered (Eff.after r) = ["reopened #7"]
  /\ Observe.outcome (Eff.val r) (Eff.events r)
     = Some (Observe.Reopened 7 2).
Proof. vm_compute. repeat split. auto 10. Qed.

(** * Further properties of the code *)

(** ** Telegram escaping *)

Module TelegramFacts.

Lemma escaped_nil text : Plain.escaped [] text = text.
Proof.
  induction text as [|b rest IH]; [reflexivity|].
  cbn [Plain.escaped existsb]. now rewrite IH.
Qed.

Lemma existsb_eqb_In (x : string) (l : list string) :
  existsb (String.eqb x) l = true <-> In x l.
Proof.
  rewrite existsb_exists. split.
  - intros [y [Hy E]]. apply String.eqb_eq in E. now subst.
  - intros H. exists x. split; [exact H | apply String.eqb_refl].
Qed.

Lemma string_of_byte_backslash :
  Telegram.string_of_byte Telegram.backslash = String Telegram.backslash "".
Proof. reflexivity. Qed.

(** One more pass, for a character that no earlier pass escaped and that
    is not the backslash, extends the set of escaped characters by it. *)
Lemma escapeChar_escaped set ch :
  ~ In ch set -> ch <> String Telegram.backslash "" ->
  forall text,
    Telegram.escapeChar (Plain.escaped set text) ch
    = Plain.escaped (set ++ [ch]) text.
Proof.
  intros Hset Hch. induction text as [|b rest IH]; [reflexivity|].
  cbn [Plain.escaped]. rewrite existsb_app. cbn [existsb].
  rewrite orb_false_r.
  destruct (existsb (String.eqb (Telegram.string_of_byte b)) set) eqn:E.
  - cbn [Telegram.escapeChar orb]. rewrite string_of_byte_backslash.
    destruct (String.eqb_spec (String Telegram.backslash "") ch) as [E1|_];
      [congruence|].
    apply existsb_eqb_In in E.
    destruct (String.eqb_spec (Telegram.string_of_byte b) ch) as [E2|_];
      [subst ch; contradiction|].
    now rewrite IH.
  - cbn [Telegram.escapeChar orb].
    destruct (String.eqb (Telegram.string_of_byte b) ch); now rewrite IH.
Qed.

Lemma fold_escapeChar cs :
  forall set text,
    NoDup (set ++ cs) -> ~ In (String Telegram.backslash "") cs ->
    fold_left Telegram.escapeChar cs (Plain.escaped set text)
    = Plain.escaped (set ++ cs) text.
Proof.
  induction cs as [|c cs IH]; intros set text Hnd Hbs.
  - now rewrite app_nil_r.
  - cbn [fold_left]. rewrite escapeChar_escaped.
    + rewrite IH.
      * now rewrite <- app_assoc.
      * now rewrite <- app_assoc.
      * intros H. apply Hbs. now right.
    + apply NoDup_remove_2 in Hnd. intros H. apply Hnd.
      apply in_or_app. now left.
    + intros H. apply Hbs. now left.
Qed.

Lemma distinct_NoDup l : Plain.distinct l = true -> NoDup l.
Proof.
  induction l as [|x l IH]; intros H; [constructor|].
  cbn [Plain.distinct] in H. apply andb_true_iff in H. destruct H as [H1 H2].
  constructor; [|now apply IH].
  intros Hin. apply existsb_eqb_In in Hin. rewrite Hin in H1. discriminate.
Qed.

Lemma escaped_app set a b :
  Plain.escaped set (a ++ b) = Plain.escaped set a ++ Plain.escaped set b.
Proof.
  induction a as [|x a IH]; [reflexivity|].
  cbn [append Plain.escaped].
  destruct (existsb _ set); cbn [append]; now rewrite IH.
Qed.

Lemma escaped_chars_length text :
  String.length (Plain.escaped Telegram.chars text)
  = (String.length text + Plain.reserved text)%nat.
Proof.
  induction text as [|b rest IH]; [reflexivity|].
  cbn [Plain.escaped Plain.reserved].
  destruct (existsb _ Telegram.chars); cbn [String.length]; rewrite IH; lia.
Qed.

End TelegramFacts.

(** X2.  The eighteen passes of [escapeMarkdown] amount to one: every byte
    that is one of the eighteen reserved characters gets one backslash
    before it and every other byte, the backslash and the bytes from 128 on
    included, is kept as it is.  So the result is longer than the text by
    the number of reserved bytes, and escaping a concatenation is
    concatenating the escaped parts. *)
Theorem escapeMarkdown_one_pass (text : string) :
  Telegram.escapeMarkdown text = Plain.escaped Telegram.chars text
  /\ String.length (Telegram.escapeMarkdown text)
     = (String.length text + Plain.reserved text)%nat
  /\ forall more : string,
      Telegram.escapeMarkdown (text ++ more)
      = Telegram.escapeMarkdown text ++ Telegram.escapeMarkdown more.
Proof.
  assert (H : forall t, Telegram.escapeMarkdown t
                        = Plain.escaped Telegram.chars t).
  { intros t. unfold Telegram.escapeMarkdown.
    rewrite <- (TelegramFacts.escaped_nil t) at 1.
    apply (TelegramFacts.fold_escapeChar Telegram.chars [] t).
    - apply TelegramFacts.distinct_NoDup. vm_compute. reflexivity.
    - intros Hin. apply TelegramFacts.existsb_eqb_In in Hin.
      vm_compute in Hin. discriminate Hin. }
  split; [apply H|]. split.
  - rewrite H. apply TelegramFacts.escaped_chars_length.
  - intros more. rewrite !H. apply TelegramFacts.escaped_app.
Qed.

Example escapeMarkdown_title :
  Telegram.escapeMarkdown "[500] PUT /api/v1/coffee/:id - Database timeout"
  = String.concat (String Telegram.backslash "")
      [""; "[500"; "] PUT /api/v1/coffee/:id "; "- Database timeout"].
Proof. vm_compute. reflexivity. Qed.

(** ** Titles *)

Lemma append_nonempty (a b : string) : a <> "" -> a ++ b <> "".
Proof. destruct a; [congruence | discriminate]. Qed.

Lemma Join_nonempty (p : string) (rest : list string) (sep : string) :
  p <> "" -> Go.Join (p :: rest) sep <> "".
Proof.
  intros H. destruct rest as [|q rest]; [exact H|].
  cbn [Go.Join]. now apply append_nonempty.
Qed.

(** X3.  A title is never empty: it starts with the bracketed status or
    level, with the method, or with the message, or it is the fallback. *)
Theorem generateTitle_nonempty (lib : GoLib) (entry : Loki.LogEntry) :
  Processor.generateTitle entry <> "".
Proof.
  unfold Processor.generateTitle, Go.append.
  destruct (500 <=? Loki.Status entry)%Z.
  { destruct (negb (String.eqb (Loki.Method entry) "")
              && negb (String.eqb (Loki.Action entry) ""));
      destruct (negb (String.eqb (Loki.Message entry) "")
                && (Go.len (Loki.Message entry) <? 80)%Z);
      cbn [app List.length Nat.eqb]; apply Join_nonempty; discriminate. }
  destruct (negb (String.eqb (Loki.Level entry) "")).
  { destruct (negb (String.eqb (Loki.Method entry) "")
              && negb (String.eqb (Loki.Action entry) ""));
      destruct (negb (String.eqb (Loki.Message entry) "")
                && (Go.len (Loki.Message entry) <? 80)%Z);
      cbn [app List.length Nat.eqb]; apply Join_nonempty; discriminate. }
  destruct (String.eqb_spec (Loki.Method entry) "") as [Em|Em];
    cbn [negb andb].
  - destruct (String.eqb_spec (Loki.Message entry) "") as [Eg|Eg];
      cbn [negb andb app List.length Nat.eqb]; [discriminate|].
    destruct (Go.len (Loki.Message entry) <? 80)%Z;
      cbn [app List.length Nat.eqb]; [|discriminate].
    now apply Join_nonempty.
  - destruct (negb (String.eqb (Loki.Action entry) ""));
      cbn [app List.length Nat.eqb].
    + destruct (negb (String.eqb (Loki.Message entry) "")
                && (Go.len (Loki.Message entry) <? 80)%Z);
        cbn [app List.length Nat.eqb]; apply Join_nonempty;
        now apply append_nonempty.
    + destruct (String.eqb_spec (Loki.Message entry) "") as [Eg|Eg];
        cbn [negb andb app List.length Nat.eqb]; [discriminate|].
      destruct (Go.len (Loki.Message entry) <? 80)%Z;
        cbn [app List.length Nat.eqb]; [|discriminate].
      now apply Join_nonempty.
Qed.

(** ** Batches *)

Section BatchFacts.
Import Eff Observe.
Context {W : Type} {env : Env W} {lib : GoLib}.
Local Open Scope Z_scope.
Local Open Scope list_scope.

Lemma wrap64_succ (x : Z) : Go.int_add (Go.wrap64 x) 1 = Go.wrap64 (x + 1).
Proof.
  unfold Go.int_add, Go.wrap64.
  replace ((x + 2 ^ 63) mod 2 ^ 64 - 2 ^ 63 + 1 + 2 ^ 63)
    with ((x + 2 ^ 63) mod 2 ^ 64 + 1) by ring.
  rewrite Zplus_mod_idemp_l. f_equal. f_equal. ring.
Qed.

Lemma processEntries_val p entries :
  forall x (w : W),
    val (Processor.processEntries p entries (Go.wrap64 x) w)
    = Go.wrap64 (x + Plain.qualifying entries).
Proof.
  unfold Plain.qualifying.
  induction entries as [|entry rest IH]; intros x w.
  - cbn. now rewrite Z.add_0_r.
  - cbn [Processor.processEntries filter].
    destruct (Loki.IsError entry).
    + rewrite !val_bind, wrap64_succ, IH. f_equal.
      cbn [List.length]. lia.
    + apply IH.
Qed.

(** Entries that do not qualify are passed over: nothing is logged or
    called for them and the world is left as it is. *)
Lemma processEntries_none p entries c (w : W) :
  forallb (fun e => negb (Loki.IsError e)) entries = true ->
  Processor.processEntries p entries c w = ret c w.
Proof.
  induction entries as [|entry rest IH]; intros H; [reflexivity|].
  cbn [forallb] in H. apply andb_true_iff in H. destruct H as [H1 H2].
  cbn [Processor.processEntries].
  destruct (Loki.IsError entry); [discriminate|]. now apply IH.
Qed.

(** X4.  The count a poll reports is the number of qualifying entries of
    the batch (as a 64-bit integer), whatever happened to each entry, and
    the batch is searched once for each of them. *)
Theorem processEntries_count p entries (w : W) :
  let r := Processor.processEntries p entries 0 w in
  val r = Go.wrap64 (Plain.qualifying entries)
  /\ List.length (searchCalls (events r))
     = List.length (filter Loki.IsError entries)
  /\ (Plain.qualifying entries <= Go.MaxInt64 ->
      val r = Plain.qualifying entries).
Proof.
  cbv zeta.
  assert (H : val (Processor.processEntries p entries 0 w)
              = Go.wrap64 (Plain.qualifying entries)).
  { change 0 with (Go.wrap64 0) at 1. now rewrite processEntries_val. }
  split; [exact H|]. split.
  - rewrite processEntries_searchCalls. now rewrite length_map.
  - intros Hle. rewrite H. apply wrap64_small.
    unfold Plain.qualifying, Go.MinInt64 in *. split; [|exact Hle].
    change (- 2 ^ 63) with (-9223372036854775808). lia.
Qed.

(** X5.  A cycle whose query returns entries of which none qualifies calls
    neither the tracker nor a notifier: it logs the number of entries
    found, moves the watermark and leaves the world as the query left
    it. *)
Theorem poll_nothing_qualifies (p : Processor.Processor) (w : W)
        entries (w1 : W) :
  loki_QueryRange Processor.pollQuery (Processor.lastPoll p)
    (fst (time_Now w)) 1000 (snd (time_Now w))
  = (inl entries, w1) ->
  entries <> [] ->
  forallb (fun e => negb (Loki.IsError e)) entries = true ->
  events (Processor.poll p w)
  = [Trace.QueryRange Processor.pollQuery (Processor.lastPoll p)
       (fst (time_Now w)) 1000 (inl entries);
     Trace.Log (Trace.LogFound (Z.of_nat (List.length entries)))]
  /\ after (Processor.poll p w) = w1
  /\ Processor.lastPoll (val (Processor.poll p w)) = fst (time_Now w).
Proof.
  intros Hq Hne Hall.
  unfold Processor.poll, Client.Now, Client.QueryRange, bind, lift, call.
  cbn [val after events]. rewrite Hq. cbn [fst snd].
  destruct entries as [|e entries]; [congruence|].
  replace (Z.of_nat (List.length (e :: entries)) =? 0) with false
    by (symmetry; apply Z.eqb_neq; cbn [List.length]; lia).
  unfold log, emit. cbn [val after events].
  rewrite (processEntries_none _ (e :: entries) 0 w1 Hall).
  unfold ret. cbn [val after events]. repeat split.
Qed.

End BatchFacts.

(** X5 on the tracker kept in memory: two entries that do not qualify. *)
Lemma poll_nothing_qualifies_witness :
  Eff.events
    (Processor.poll (env := Fake.env) (lib := Fake.lib)
       (Fake.processor [Fake.slack])
       (Fake.scripted
          [inl [Fake.entry "info" "GET" "/a" 200 "f";
                Fake.entry "Error" "GET" "/b" 499 "g"]]))
  = [Trace.QueryRange Processor.pollQuery
       (Processor.lastPoll (Fake.processor [Fake.slack]))
       1700000000000000000%Z 1000%Z
       (inl [Fake.entry "info" "GET" "/a" 200 "f";
             Fake.entry "Error" "GET" "/b" 499 "g"]);
     Trace.Log (Trace.LogFound 2)].
Proof.
  refine (proj1 (poll_nothing_qualifies (env := Fake.env) (lib := Fake.lib)
                   (Fake.processor [Fake.slack])
                   (Fake.scripted
                      [inl [Fake.entry "info" "GET" "/a" 200 "f";
                            Fake.entry "Error" "GET" "/b" 499 "g"]])
                   _
                   (snd (Fake.query "" 0%Z 0%Z 0%Z
                           (snd (Fake.now
                                   (Fake.scripted
                                      [inl [Fake.entry "info" "GET" "/a" 200 "f";
                                            Fake.entry "Error" "GET" "/b" 499
                                                       "g"]])))))
                   _ _ _)).
  - reflexivity.
  - discriminate.
  - reflexivity.
Defined.

(** ** The fan-out over several notifiers *)

Section MultiNotifierFacts.
Import Eff Observe.
Context {W : Type}.
Local Open Scope list_scope.

Lemma notifyNewIssueFrom_results ns issue :
  forall lastErr (w : W),
    let r := MultiNotifier.notifyNewIssueFrom ns issue lastErr w in
    newIssueNotifications (events r)
    = map (fun n => (Notifier.NotifierName n, issue)) ns
    /\ forallb notificationOnly (events r) = true
    /\ List.length (Plain.notifyResults (events r)) = List.length ns
    /\ (Forall (fun x => x = None) (Plain.notifyResults (events r)) ->
        val r = lastErr)
    /\ (forall e post,
          (exists pre, Plain.notifyResults (events r) = pre ++ Some e :: post)
          -> Forall (fun x => x = None) post -> val r = Some e).
Proof.
  induction ns as [|n ns IH]; intros lastErr w.
  - cbv zeta. cbn. repeat split; auto.
    intros e post [pre H]. destruct pre; discriminate H.
  - cbv zeta. cbn [MultiNotifier.notifyNewIssueFrom].
    rewrite events_bind, val_bind.
    pose proof (eq_refl :
                  events (call (Notifier.NotifyNewIssue n issue)
                               (Trace.NotifyNewIssue
                                  (Notifier.NotifierName n) issue) w)
                  = [Trace.NotifyNewIssue (Notifier.NotifierName n) issue
                       (val (call (Notifier.NotifyNewIssue n issue)
                                  (Trace.NotifyNewIssue
                                     (Notifier.NotifierName n) issue) w))])
      as Hc.
    remember (call (Notifier.NotifyNewIssue n issue)
                   (Trace.NotifyNewIssue (Notifier.NotifierName n) issue) w)
      as c eqn:Ec.
    clear Ec.
    destruct (IH (match val c with
                  | Some e => Some e
                  | None => lastErr
                  end) (after c)) as (I1 & I2 & I3 & I4 & I5).
    cbv zeta in I1, I2, I3, I4, I5.
    unfold newIssueNotifications, Plain.notifyResults in *.
    rewrite Hc, !flat_map_app, forallb_app. cbn [flat_map app forallb].
    cbn [notificationOnly andb map List.length].
    rewrite I1, I2, I3.
    split; [reflexivity|]. split; [reflexivity|]. split; [reflexivity|].
    split.
    + intros HF. inversion HF as [|x l Hx Hl]; subst.
      rewrite (I4 Hl). now rewrite Hx.
    + intros e post [pre Hpre] Hpost.
      destruct pre as [|x pre]; cbn [app] in Hpre;
        injection Hpre as Hv Hrest.
      * rewrite Hrest in I4. rewrite (I4 Hpost). now rewrite Hv.
      * apply (I5 e post); [now exists pre | exact Hpost].
Qed.

(** X6.  The fan-out calls every notifier once, in order, whether or not
    an earlier one failed, and it does nothing else.  It returns no error
    exactly when no notifier failed; otherwise it returns the error of the
    last notifier that failed, the earlier errors being dropped. *)
Theorem MultiNotifier_NotifyNewIssue (m : MultiNotifier.MultiNotifier)
        (issue : Notifier.IssueInfo) (w : W) :
  let r := MultiNotifier.NotifyNewIssue m issue w in
  newIssueNotifications (events r)
  = map (fun n => (Notifier.NotifierName n, issue))
        (MultiNotifier.notifiers m)
  /\ forallb notificationOnly (events r) = true
  /\ (val r = None
      <-> Forall (fun x => x = None) (Plain.notifyResults (events r)))
  /\ (forall e post,
        (exists pre, Plain.notifyResults (events r) = pre ++ Some e :: post)
        -> Forall (fun x => x = None) post -> val r = Some e).
Proof.
  cbv zeta. unfold MultiNotifier.NotifyNewIssue.
  destruct (notifyNewIssueFrom_results (MultiNotifier.notifiers m) issue
              None w) as (I1 & I2 & _ & I4 & I5).
  cbv zeta in I1, I2, I4, I5.
  split; [exact I1|]. split; [exact I2|]. split; [|exact I5].
  split; [|exact I4].
  intros Hv.
  set (rs := Plain.notifyResults
               (events (MultiNotifier.notifyNewIssueFrom
                          (MultiNotifier.notifiers m) issue None w))) in *.
  assert (Hlast : forall l : list (option Go.error),
             Forall (fun x => x = None) l
             \/ exists pre e post,
                 l = pre ++ Some e :: post
                 /\ Forall (fun x => x = None) post).
  { induction l as [|x l [IHl | (pre & e & post & E & F)]].
    - left. constructor.
    - destruct x as [e|].
      + right. exists [], e, l. split; [reflexivity | exact IHl].
      + left. now constructor.
    - right. exists (x :: pre), e, post. split; [now rewrite E | exact F]. }
  destruct (Hlast rs) as [HF | (pre & e & post & E & F)]; [exact HF|].
  rewrite (I5 e post (ex_intro _ pre E) F) in Hv. discriminate Hv.
Qed.

Lemma notifyReopenedIssueFrom_results ns issue :
  forall lastErr (w : W),
    let r := MultiNotifier.notifyReopenedIssueFrom ns issue lastErr w in
    reopenedNotifications (events r)
    = map (fun n => (Notifier.NotifierName n, issue)) ns
    /\ forallb notificationOnly (events r) = true
    /\ List.length (Plain.notifyResults (events r)) = List.length ns
    /\ (Forall (fun x => x = None) (Plain.notifyResults (events r)) ->
        val r = lastErr)
    /\ (forall e post,
          (exists pre, Plain.notifyResults (events r) = pre ++ Some e :: post)
          -> Forall (fun x => x = None) post -> val r = Some e).
Proof.
  induction ns as [|n ns IH]; intros lastErr w.
  - cbv zeta. cbn. repeat split; auto.
    intros e post [pre H]. destruct pre; discriminate H.
  - cbv zeta. cbn [MultiNotifier.notifyReopenedIssueFrom].
    rewrite events_bind, val_bind.
    pose proof (eq_refl :
                  events (call (Notifier.NotifyReopenedIssue n issue)
                               (Trace.NotifyReopenedIssue
                                  (Notifier.NotifierName n) issue) w)
                  = [Trace.NotifyReopenedIssue (Notifier.NotifierName n) issue
                       (val (call (Notifier.NotifyReopenedIssue n issue)
                                  (Trace.NotifyReopenedIssue
                                     (Notifier.NotifierName n) issue) w))])
      as Hc.
    remember (call (Notifier.NotifyReopenedIssue n issue)
                   (Trace.NotifyReopenedIssue (Notifier.NotifierName n) issue) w)
      as c eqn:Ec.
    clear Ec.
    destruct (IH (match val c with
                  | Some e => Some e
                  | None => lastErr
                  end) (after c)) as (I1 & I2 & I3 & I4 & I5).
    cbv zeta in I1, I2, I3, I4, I5.
    unfold reopenedNotifications, Plain.notifyResults in *.
    rewrite Hc, !flat_map_app, forallb_app. cbn [flat_map app forallb].
    cbn [notificationOnly andb map List.length].
    rewrite I1, I2, I3.
    split; [reflexivity|]. split; [reflexivity|]. split; [reflexivity|].
    split.
    + intros HF. inversion HF as [|x l Hx Hl]; subst.
      rewrite (I4 Hl). now rewrite Hx.
    + intros e post [pre Hpre] Hpost.
      destruct pre as [|x pre]; cbn [app] in Hpre;
        injection Hpre as Hv Hrest.
      * rewrite Hrest in I4. rewrite (I4 Hpost). now rewrite Hv.
      * apply (I5 e post); [now exists pre | exact Hpost].
Qed.

(** X18.  The fan-out of a reopening does as that of a new issue: every
    notifier is called once, in order, whether or not an earlier one
    failed; there is no error exactly when no notifier failed, and
    otherwise the error is that of the last notifier that failed. *)
Theorem MultiNotifier_NotifyReopenedIssue (m : MultiNotifier.MultiNotifier)
        (issue : Notifier.IssueInfo) (w : W) :
  let r := MultiNotifier.NotifyReopenedIssue m issue w in
  reopenedNotifications (events r)
  = map (fun n => (Notifier.NotifierName n, issue))
        (MultiNotifier.notifiers m)
  /\ forallb notificationOnly (events r) = true
  /\ (val r = None
      <-> Forall (fun x => x = None) (Plain.notifyResults (events r)))
  /\ (forall e post,
        (exists pre, Plain.notifyResults (events r) = pre ++ Some e :: post)
        -> Forall (fun x => x = None) post -> val r = Some e).
Proof.
  cbv zeta. unfold MultiNotifier.NotifyReopenedIssue.
  destruct (notifyReopenedIssueFrom_results (MultiNotifier.notifiers m) issue
              None w) as (I1 & I2 & _ & I4 & I5).
  cbv zeta in I1, I2, I4, I5.
  split; [exact I1|]. split; [exact I2|]. split; [|exact I5].
  split; [|exact I4].
  intros Hv.
  set (rs := Plain.notifyResults
               (events (MultiNotifier.notifyReopenedIssueFrom
                          (MultiNotifier.notifiers m) issue None w))) in *.
  assert (Hlast : forall l : list (option Go.error),
             Forall (fun x => x = None) l
             \/ exists pre e post,
                 l = pre ++ Some e :: post
                 /\ Forall (fun x => x = None) post).
  { induction l as [|x l [IHl | (pre & e & post & E & F)]].
    - left. constructor.
    - destruct x as [e|].
      + right. exists [], e, l. split; [reflexivity | exact IHl].
      + left. now constructor.
    - right. exists (x :: pre), e, post. split; [now rewrite E | exact F]. }
  destruct (Hlast rs) as [HF | (pre & e & post & E & F)]; [exact HF|].
  rewrite (I5 e post (ex_intro _ pre E) F) in Hv. discriminate Hv.
Qed.

End MultiNotifierFacts.

Example MultiNotifier_last_error :
  let m := MultiNotifier.NewMultiNotifier
             [Fake.broken; Fake.slack; Fake.broken; Fake.slack] in
  let r := MultiNotifier.NotifyNewIssue m
             (Design.newIssueEvent Fake.openIssue "t" "id" Fake.coffee)
             (Fake.world [] []) in
  Eff.val r = Some "Discord webhook returned status 500"
  /\ map fst (Observe.newIssueNotifications (Eff.events r))
     = ["discord"; "slack"; "discord"; "slack"]
  /\ Fake.delivered (Eff.after r) = ["new #7"; "new #7"].
Proof. vm_compute. repeat split. Qed.

(** ** From Loki's lines to entries *)

Section ParseFacts.
Context {lib : LokiLib}.
Local Open Scope list_scope.

Lemma parseValue_acc entries value :
  LokiClient.parseValue entries value
  = entries ++ LokiClient.parseValue [] value.
Proof.
  destruct value as [|v0 [|v1 more]]; cbn [LokiClient.parseValue];
    rewrite ?app_nil_r; reflexivity.
Qed.

Lemma fold_parseValue values :
  forall entries,
    fold_left LokiClient.parseValue values entries
    = entries ++ flat_map (LokiClient.parseValue []) values.
Proof.
  induction values as [|v values IH]; intros entries; cbn [fold_left flat_map].
  - now rewrite app_nil_r.
  - rewrite IH, parseValue_acc. now rewrite <- app_assoc.
Qed.

Lemma parseStreams_flat streams :
  LokiClient.parseStreams streams
  = flat_map (fun s => flat_map (LokiClient.parseValue [])
                                (LokiClient.Values s)) streams.
Proof.
  unfold LokiClient.parseStreams.
  assert (H : forall entries,
             fold_left (fun es s =>
                          fold_left LokiClient.parseValue
                                    (LokiClient.Values s) es)
                       streams entries
             = entries
                 ++ flat_map (fun s => flat_map (LokiClient.parseValue [])
                                                (LokiClient.Values s))
                             streams).
  { induction streams as [|s streams IH]; intros entries;
      cbn [fold_left flat_map].
    - now rewrite app_nil_r.
    - rewrite IH, fold_parseValue. now rewrite <- app_assoc. }
  apply (H []).
Qed.

Lemma entryOf_Raw ts line : Loki.Raw (Plain.entryOf ts line) = line.
Proof.
  unfold Plain.entryOf. destruct (snd (json_Unmarshal line)); reflexivity.
Qed.

Lemma parseValue_entry value e :
  In e (LokiClient.parseValue [] value) ->
  exists ts, e = Plain.entryOf ts (Loki.Raw e).
Proof.
  destruct value as [|v0 [|v1 more]]; cbn [LokiClient.parseValue];
    try contradiction.
  unfold Go.append. cbn [app]. intros [H|[]].
  exists (match fmt_Sscanf_d v0 with
          | inl tsNano => tsNano
          | inr _ => Go.zeroTime
          end).
  subst e. unfold Plain.entryOf.
  destruct (snd (json_Unmarshal v1)) eqn:E;
    cbn [Loki.Raw LokiClient.extractFields LokiClient.newEntry];
    rewrite E; reflexivity.
Qed.

Lemma IsError_cases (x : Loki.LogEntry) :
  Loki.IsError x = true
  <-> (Loki.Level x = "ERROR" \/ Loki.Level x = "error"
       \/ (500 <= Loki.Status x)%Z).
Proof.
  unfold Loki.IsError.
  destruct (String.eqb_spec (Loki.Level x) "ERROR");
    destruct (String.eqb_spec (Loki.Level x) "error");
    destruct (Z.leb_spec 500 (Loki.Status x)); cbn [orb];
    intuition (discriminate || lia || auto).
Qed.

(** X7.  [parseStreams] returns one entry for each value that has at least
    a time stamp and a line, in the order of the streams and of their
    values, with the line kept as it came: values with fewer than two
    elements are dropped, and a line that is not JSON or whose time stamp
    does not parse still gives an entry. *)
Theorem parseStreams_lines (streams : list LokiClient.Stream) :
  map Loki.Raw (LokiClient.parseStreams streams) = Plain.lines streams.
Proof.
  rewrite parseStreams_flat. unfold Plain.lines.
  induction streams as [|s streams IH]; [reflexivity|].
  cbn [flat_map]. rewrite map_app, IH. f_equal.
  induction (LokiClient.Values s) as [|v values IHv]; [reflexivity|].
  cbn [flat_map]. rewrite map_app, IHv. f_equal.
  destruct v as [|v0 [|v1 more]]; cbn [LokiClient.parseValue]; try reflexivity.
  unfold Go.append. cbn [app map]. f_equal.
  destruct (snd (json_Unmarshal v1)); reflexivity.
Qed.

(** X8.  Whether an entry of [parseStreams] qualifies as an error is
    decided by its line alone.  The entry keeps the map as the decoder
    left it.  When the decoding fails no field is extracted, so the entry
    does not qualify, whatever the decoder had stored in the map before
    its error.  When the decoding succeeds the entry qualifies exactly
    when its [level] is the JSON string ERROR or error, or its [status] is
    a JSON number that converts to 500 or more; a status written as a JSON
    string does not count. *)
Theorem parseStreams_qualifies (streams : list LokiClient.Stream)
        (e : Loki.LogEntry) :
  In e (LokiClient.parseStreams streams) ->
  let parsed := fst (json_Unmarshal (Loki.Raw e)) in
  Loki.Parsed e = parsed
  /\ match snd (json_Unmarshal (Loki.Raw e)) with
     | Some _ =>
         Loki.IsError e = false /\ Loki.Level e = "" /\ Loki.Status e = 0%Z
         /\ Loki.Message e = "" /\ Loki.Method e = "" /\ Loki.Action e = ""
         /\ Loki.BugID e = ""
     | None =>
         Loki.IsError e = true
         <-> (LokiClient.get parsed "level" = Some (Json.Str "ERROR")
              \/ LokiClient.get parsed "level" = Some (Json.Str "error")
              \/ exists bits,
                  LokiClient.get parsed "status" = Some (Json.Number bits)
                  /\ (500 <= int_of_float64 bits)%Z)
     end.
Proof.
  rewrite parseStreams_flat. intros H. cbv zeta.
  apply in_flat_map in H. destruct H as [s [_ H]].
  apply in_flat_map in H. destruct H as [v [_ H]].
  apply parseValue_entry in H. destruct H as [ts H].
  unfold Plain.entryOf in H.
  set (parsed := fst (json_Unmarshal (Loki.Raw e))) in *.
  destruct (snd (json_Unmarshal (Loki.Raw e))) as [err|].
  - rewrite H. repeat split.
  - split; [rewrite H; reflexivity|].
    rewrite IsError_cases.
    assert (HL : Loki.Level e
                 = LokiClient.orKeep
                     (LokiClient.asString (LokiClient.get parsed "level")) "")
      by (rewrite H; reflexivity).
    assert (HS : Loki.Status e
                 = LokiClient.orKeep
                     (option_map int_of_float64
                        (LokiClient.asFloat64
                           (LokiClient.get parsed "status"))) 0%Z)
      by (rewrite H; reflexivity).
    rewrite HL, HS. clear HL HS H.
    destruct (LokiClient.get parsed "level") as [[ |b1|n1|l|a1|o1]|];
      destruct (LokiClient.get parsed "status") as [[ |b2|bits|s2|a2|o2]|];
      cbn [LokiClient.asString LokiClient.asFloat64 LokiClient.orKeep
           option_map];
      (split; [intros [E|[E|E]] | intros [E|[E|[b [E1 E2]]]]]);
      try discriminate E; try discriminate E1; try lia;
      try (injection E as E); try (injection E1 as E1); subst;
      try (left; reflexivity); try (right; left; reflexivity);
      try (right; right; assumption);
      try (right; right; eexists; split; [reflexivity | assumption]).
Qed.

End ParseFacts.

(** X8 on a stream with four values.  The last line has the level error,
    but its status does not fit a [float64]: the decoder reports that
    after it has stored the level, the entry keeps the map with the level
    in it, and it does not qualify. *)
Lemma parseStreams_qualifies_witness :
  let e := LokiClient.newEntry 1700000000000000000%Z Fixture.hugeLine
             [("level"%string, Json.Str "error");
              ("status"%string, Json.Null)] in
  In e (LokiClient.parseStreams (lib := Fixture.loki) Fixture.streams)
  /\ Loki.Parsed e <> []
  /\ Loki.IsError e = false.
Proof.
  cbv zeta.
  assert (Hin : In (LokiClient.newEntry 1700000000000000000%Z
                      Fixture.hugeLine
                      [("level"%string, Json.Str "error");
                       ("status"%string, Json.Null)])
                   (LokiClient.parseStreams (lib := Fixture.loki)
                      Fixture.streams))
    by (right; right; left; reflexivity).
  split; [exact Hin|]. split; [discriminate|].
  exact (proj1 (proj2 (parseStreams_qualifies (lib := Fixture.loki)
                         Fixture.streams _ Hin))).
Defined.

(** The first line of the same stream decodes to an object whose status
    is the number 500, and its entry qualifies. *)
Example parseStreams_status_500 :
  map Loki.IsError
      (LokiClient.parseStreams (lib := Fixture.loki) Fixture.streams)
  = [true; false; false].
Proof. vm_compute. reflexivity. Qed.

(** ** [Start]: the cycles of a run *)

Section StartFacts.
Import Observe.
Context {W : Type} {env : Env W} {conn : ConnEnv W} {lib : GoLib}.
Local Open Scope Z_scope.
Local Open Scope list_scope.

Lemma notificationOnly_batchEvent (evs : list Trace.Event) :
  forallb notificationOnly evs = true -> forallb Plain.batchEvent evs = true.
Proof.
  induction evs as [|ev evs IH]; intros H; [reflexivity|].
  cbn [forallb] in *. apply andb_true_iff in H. destruct H as [H1 H2].
  rewrite (IH H2).
  destruct ev as [| | | | | | | |[]]; try discriminate H1; reflexivity.
Qed.

Lemma processEntry_batchEvents p entry (w : W) :
  forallb Plain.batchEvent (Eff.events (Processor.processEntry p entry w))
  = true.
Proof.
  destruct (processEntry_run p entry w) as (He & _).
  cbv zeta in He. rewrite He. clear He.
  cbn [forallb Plain.batchEvent andb].
  destruct (gitea_SearchIssues _ w) as [[[|existing rest]|e] w1];
    cbn [fst snd]; [| |reflexivity].
  - destruct (createNewIssue_run p entry (Processor.GenerateBugID entry)
                ("bugid:" ++ Processor.GenerateBugID entry)%string w1)
      as (Ce & _).
    cbv zeta in Ce. rewrite Ce. clear Ce.
    cbn [forallb]. rewrite forallb_app.
    assert (Hp : Plain.batchEvent
                   (Trace.EnsureLabel
                      ("bugid:" ++ Processor.GenerateBugID entry)%string
                      "0366d6"
                      (Eff.val (Client.EnsureLabel
                                  ("bugid:" ++ Processor.GenerateBugID entry)%string
                                  "0366d6" w1))) = true)
      by (cbn; now destruct (Processor.GenerateBugID entry)).
    rewrite Hp. cbn [andb].
    destruct (Eff.val (Client.EnsureLabel _ _ w1)) as [le|];
      cbn [forallb Plain.batchEvent andb];
      destruct (gitea_CreateIssue _ _ _ _) as [[issue|e] w2];
      cbn [fst snd forallb Plain.batchEvent andb]; try reflexivity;
      apply notificationOnly_batchEvent;
      apply (notifyNewIssue_events (Processor.notifiers p)).
  - destruct (updateExistingIssue_run p existing entry w1) as (Ue & _).
    cbv zeta in Ue. rewrite Ue. clear Ue.
    cbn [forallb Plain.batchEvent andb].
    destruct (gitea_AddComment _ _ w1) as [[e|] w2];
      cbn [fst snd]; [reflexivity|].
    rewrite forallb_app. cbn [forallb Plain.batchEvent andb].
    rewrite andb_true_r.
    destruct (String.eqb (Gitea.State existing) "closed"); [|reflexivity].
    cbn [forallb Plain.batchEvent andb].
    destruct (gitea_ReopenIssue _ w2) as [[e|] w3];
      cbn [fst snd forallb Plain.batchEvent andb]; [reflexivity|].
    apply notificationOnly_batchEvent.
    apply (notifyReopenedIssue_events (Processor.notifiers p)).
Qed.

Lemma processEntries_batchEvents p entries :
  forall c (w : W),
    forallb Plain.batchEvent
            (Eff.events (Processor.processEntries p entries c w)) = true.
Proof.
  induction entries as [|entry rest IH]; intros c w; [reflexivity|].
  destruct (Loki.IsError entry) eqn:E.
  - rewrite (processEntries_cons p entry rest c w E). cbv zeta.
    cbn [forallb Plain.batchEvent andb].
    rewrite !forallb_app, processEntry_batchEvents, IH.
    destruct (Eff.val (Processor.processEntry p entry w)); reflexivity.
  - rewrite (processEntries_skip p entry rest c w E). apply IH.
Qed.

Lemma batchEvent_windows (evs : list Trace.Event) :
  forallb Plain.batchEvent evs = true ->
  Plain.windows evs = []
  /\ Forall (fun nc => String.prefix "bugid:" (fst nc) = true)
            (ensureLabelCalls evs).
Proof.
  induction evs as [|ev evs IH]; intros H; [split; constructor|].
  cbn [forallb] in H. apply andb_true_iff in H. destruct H as [H1 H2].
  destruct (IH H2) as [I1 I2].
  unfold Plain.windows, ensureLabelCalls in *.
  destruct ev; cbn [flat_map app]; try discriminate H1; split;
    try assumption.
  constructor; assumption.
Qed.

(** One cycle, seen from outside: its query first, then the events of the
    batch; the watermark it leaves. *)
Lemma poll_cycle (p : Processor.Processor) (w : W) :
  let now := fst (time_Now w) in
  let q := loki_QueryRange Processor.pollQuery (Processor.lastPoll p) now
             1000 (snd (time_Now w)) in
  let ok := match fst q with inl _ => true | inr _ => false end in
  exists tail,
    Eff.events (Processor.poll p w)
    = Trace.QueryRange Processor.pollQuery (Processor.lastPoll p) now 1000
        (fst q) :: tail
    /\ forallb Plain.batchEvent tail = true
    /\ Processor.lastPoll (Eff.val (Processor.poll p w))
       = (if ok then now else Processor.lastPoll p)
    /\ Processor.pollInterval (Eff.val (Processor.poll p w))
       = Processor.pollInterval p.
Proof.
  cbv zeta.
  unfold Processor.poll, Client.Now, Client.QueryRange, Eff.bind, Eff.lift,
    Eff.call.
  cbn [Eff.val Eff.after Eff.events app].
  destruct (fst (loki_QueryRange _ _ _ _ _)) as [entries|e].
  - destruct (Z.of_nat (List.length entries) =? 0).
    + eexists. split; [reflexivity|]. repeat split.
    + eexists. split; [reflexivity|].
      cbn [Eff.val Eff.after Eff.events app Eff.log Eff.emit].
      split; [|split; reflexivity].
      cbn [forallb Plain.batchEvent andb]. rewrite forallb_app.
      rewrite processEntries_batchEvents. cbn [andb].
      destruct (0 <? Eff.val _); reflexivity.
  - eexists. split; [reflexivity|]. repeat split.
Qed.

Lemma core_embed {A : Type} (m : Eff.M W A) (w : W) :
  Plain.core (Act.events (Act.embed Startup.Core m w)) = Eff.events (m w).
Proof.
  unfold Act.embed. cbn [Act.events].
  induction (Eff.events (m w)) as [|ev evs IH]; [reflexivity|].
  cbn [map]. unfold Plain.core in *. cbn [flat_map app]. now rewrite IH.
Qed.

Lemma core_app (a b : list Startup.Event) :
  Plain.core (a ++ b) = Plain.core a ++ Plain.core b.
Proof. apply flat_map_app. Qed.

Lemma windows_app (a b : list Trace.Event) :
  Plain.windows (a ++ b) = Plain.windows a ++ Plain.windows b.
Proof. apply flat_map_app. Qed.

Lemma core_Core (evs : list Trace.Event) :
  Plain.core (map Startup.Core evs) = evs.
Proof.
  induction evs as [|ev evs IH]; [reflexivity|].
  cbn [map]. unfold Plain.core in *. cbn [flat_map app]. now rewrite IH.
Qed.

Lemma loop_tick (p : Processor.Processor) signals (w : W) :
  let c := Processor.poll p w in
  let r := Startup.loop (Eff.val c) signals (Eff.after c) in
  Plain.core (Act.events (Startup.loop p (Startup.Tick :: signals) w))
  = Eff.events c ++ Plain.core (Act.events r)
  /\ Act.val (Startup.loop p (Startup.Tick :: signals) w) = Act.val r.
Proof.
  cbv zeta. split; [|reflexivity].
  rewrite <- (core_Core (Eff.events (Processor.poll p w))) at 1.
  rewrite <- core_app. reflexivity.
Qed.

Lemma loop_windows signals :
  forall (p : Processor.Processor) (w : W),
    let r := Startup.loop p signals w in
    let ws := Plain.windows (Plain.core (Act.events r)) in
    List.length ws = Plain.ticks signals
    /\ Plain.chained (Processor.lastPoll p) ws
    /\ Processor.lastPoll (snd (Act.val r))
       = Plain.watermarkAfter (Processor.lastPoll p) ws
    /\ fst (Act.val r)
       = (if Plain.cancelled signals then Startup.Returned
          else Startup.Selecting).
Proof.
  induction signals as [|s signals IH]; intros p w; cbv zeta.
  - cbn. repeat split.
  - destruct s.
    + destruct (loop_tick p signals w) as [Le Lv]. cbv zeta in Le, Lv.
      rewrite Le, Lv. clear Le Lv.
      cbn [Plain.ticks Plain.cancelled existsb orb].
      fold (Plain.cancelled signals).
      rewrite windows_app.
      destruct (poll_cycle p w) as (tail & He & Ht & Hl & _).
      cbv zeta in He, Hl.
      destruct (IH (Eff.val (Processor.poll p w))
                   (Eff.after (Processor.poll p w))) as (I1 & I2 & I3 & I4).
      cbv zeta in I1, I2, I3, I4.
      rewrite He. unfold Plain.windows at 1 3 5. cbn [flat_map app].
      fold (Plain.windows tail).
      rewrite (proj1 (batchEvent_windows tail Ht)). cbn [app].
      rewrite Hl in I2, I3.
      cbn [List.length Plain.chained Plain.watermarkAfter].
      rewrite I1. repeat split; assumption.
    + cbn. repeat split.
Qed.

Lemma ensureLabels_cons name color rest (w : W) :
  let c := Client.EnsureLabel name color w in
  Plain.core (Act.events (Startup.ensureLabels ((name, color) :: rest) w))
  = Trace.EnsureLabel name color (Eff.val c)
      :: Plain.core (Act.events (Startup.ensureLabels rest (Eff.after c))).
Proof.
  cbv zeta. cbn [Startup.ensureLabels].
  unfold Act.bind at 1. cbn [Act.events].
  rewrite core_app, core_embed, EnsureLabel_run.
  change (Act.val (Act.embed Startup.Core (Client.EnsureLabel name color) w))
    with (Eff.val (Client.EnsureLabel name color w)).
  change (Act.after (Act.embed Startup.Core (Client.EnsureLabel name color) w))
    with (Eff.after (Client.EnsureLabel name color w)).
  unfold Act.bind at 1. cbn [Act.events]. rewrite core_app.
  destruct (Eff.val (Client.EnsureLabel name color w)); reflexivity.
Qed.

Lemma ensureLabels_calls order :
  forall w : W,
    let evs := Plain.core (Act.events (Startup.ensureLabels order w)) in
    ensureLabelCalls evs = order
    /\ List.length evs = List.length order
    /\ forallb (fun ev => match ev with
                          | Trace.EnsureLabel _ _ _ => true
                          | _ => false
                          end) evs = true.
Proof.
  induction order as [|[name color] rest IH]; intros w; cbv zeta;
    [repeat split|].
  rewrite (ensureLabels_cons name color rest w). cbv zeta.
  destruct (IH (Eff.after (Client.EnsureLabel name color w)))
    as (I1 & I2 & I3).
  cbv zeta in I1, I2, I3.
  unfold ensureLabelCalls in *. cbn [flat_map app List.length forallb andb].
  rewrite I1, I2, I3. repeat split.
Qed.

(** The events of [Start] before its first cycle. *)
Lemma Start_run (p : Processor.Processor) order signals (w : W) :
  let t := gitea_TestConnection w in
  let before :=
    match fst t with
    | Some e => Act.ret tt (snd t)
    | None => Startup.ensureLabels order (snd t)
    end in
  let r := Startup.Start p order signals w in
  Plain.core (Act.events r)
  = Plain.core (Act.events before)
      ++ (if Processor.pollInterval p <=? 0 then []
          else Eff.events (Processor.poll p (Act.after before))
               ++ Plain.core
                    (Act.events
                       (Startup.loop
                          (Eff.val (Processor.poll p (Act.after before)))
                          signals
                          (Eff.after (Processor.poll p (Act.after before))))))
  /\ Act.val r
     = (if Processor.pollInterval p <=? 0 then
          (Startup.Panicked "non-positive interval for NewTicker", p)
        else Act.val
               (Startup.loop
                  (Eff.val (Processor.poll p (Act.after before)))
                  signals
                  (Eff.after (Processor.poll p (Act.after before)))))
  /\ In (Startup.TestConnection (fst t)) (Act.events r).
Proof.
  cbv zeta.
  unfold Startup.Start, Act.bind, Act.emit, Act.call, Act.ret, Act.embed.
  cbn [Act.val Act.after Act.events app fst snd].
  destruct (gitea_TestConnection w) as [[e|] w1];
    cbn [Act.val Act.after Act.events app fst snd];
    destruct (Processor.pollInterval p <=? 0);
    cbn [Act.val Act.after Act.events app fst snd];
    rewrite ?core_app, ?core_Core, ?app_nil_r;
    cbn [Plain.core flat_map app];
    repeat split; try (right; left; reflexivity);
    pose proof core_Core as HC; unfold Plain.core in *;
    rewrite ?flat_map_app, ?HC; reflexivity.
Qed.

(** X9.  With a positive poll interval [Start] polls once at once and then
    once for each tick seen before the cancellation, and not after it.
    Each cycle queries from the watermark the cycles before it left: the
    end of the last window whose query succeeded, or the initial watermark.
    So the windows of the successful queries follow one another without a
    gap, and a failed window is asked again from the same start. *)
Theorem Start_cycles (p : Processor.Processor) order signals (w : W) :
  0 < Processor.pollInterval p ->
  let r := Startup.Start p order signals w in
  let ws := Plain.windows (Plain.core (Act.events r)) in
  List.length ws = S (Plain.ticks signals)
  /\ Plain.chained (Processor.lastPoll p) ws
  /\ Processor.lastPoll (snd (Act.val r))
     = Plain.watermarkAfter (Processor.lastPoll p) ws
  /\ fst (Act.val r)
     = (if Plain.cancelled signals then Startup.Returned
        else Startup.Selecting).
Proof.
  intros Hpos. cbv zeta.
  destruct (Start_run p order signals w) as (He & Hv & _).
  cbv zeta in He, Hv. rewrite He, Hv. clear He Hv.
  replace (Processor.pollInterval p <=? 0) with false
    by (symmetry; apply Z.leb_gt; exact Hpos).
  set (before := match fst (gitea_TestConnection w) with
                 | Some _ => Act.ret tt (snd (gitea_TestConnection w))
                 | None =>
                     Startup.ensureLabels order (snd (gitea_TestConnection w))
                 end).
  assert (Hb : Plain.windows (Plain.core (Act.events before)) = []).
  { unfold before. destruct (fst (gitea_TestConnection w)); [reflexivity|].
    destruct (ensureLabels_calls order (snd (gitea_TestConnection w)))
      as (_ & _ & H). cbv zeta in H.
    induction (Plain.core (Act.events (Startup.ensureLabels order _)))
      as [|ev evs IH]; [reflexivity|].
    cbn [forallb] in H. apply andb_true_iff in H. destruct H as [H1 H2].
    destruct ev; try discriminate H1. unfold Plain.windows in *.
    cbn [flat_map app]. now apply IH. }
  rewrite !windows_app, Hb. cbn [app].
  destruct (poll_cycle p (Act.after before)) as (tail & He & Ht & Hl & _).
  cbv zeta in He, Hl.
  destruct (loop_windows signals
              (Eff.val (Processor.poll p (Act.after before)))
              (Eff.after (Processor.poll p (Act.after before))))
    as (I1 & I2 & I3 & I4).
  cbv zeta in I1, I2, I3, I4.
  rewrite He. unfold Plain.windows at 1 3 5. cbn [flat_map app].
  fold (Plain.windows tail).
  rewrite (proj1 (batchEvent_windows tail Ht)). cbn [app].
  rewrite Hl in I2, I3.
  cbn [List.length Plain.chained Plain.watermarkAfter].
  rewrite I1. repeat split; assumption.
Qed.


(** X11.  When the connection test at the start fails, the three fixed
    labels are not ensured then, and no later cycle ensures them: in the
    whole run the only labels ensured are fingerprint labels. *)
Theorem Start_without_connection (p : Processor.Processor) order signals
        (w : W) (e : Go.error) :
  fst (gitea_TestConnection w) = Some e ->
  Forall (fun nc => String.prefix "bugid:" (fst nc) = true)
         (ensureLabelCalls
            (Plain.core (Act.events (Startup.Start p order signals w)))).
Proof.
  intros Hc.
  destruct (Start_run p order signals w) as (He & _).
  cbv zeta in He. rewrite He, Hc. clear He.
  cbn [Act.ret Act.events Act.after Plain.core flat_map app].
  destruct (Processor.pollInterval p <=? 0); [constructor|].
  unfold ensureLabelCalls. rewrite flat_map_app. apply Forall_app. split.
  - destruct (poll_cycle p (snd (gitea_TestConnection w)))
      as (tail & Hp & Ht & _).
    cbv zeta in Hp. rewrite Hp. cbn [flat_map app].
    apply (batchEvent_windows tail Ht).
  - generalize (Eff.val (Processor.poll p (snd (gitea_TestConnection w))))
               (Eff.after (Processor.poll p (snd (gitea_TestConnection w)))).
    induction signals as [|s signals IH]; intros p0 w0; [constructor|].
    destruct s; [|constructor].
    cbn [Startup.loop]. unfold Act.bind at 1.
    cbn [Act.val Act.after Act.events].
    rewrite core_app, core_embed, flat_map_app. apply Forall_app. split.
    + destruct (poll_cycle p0 w0) as (tail & Hp & Ht & _).
      cbv zeta in Hp. rewrite Hp. cbn [flat_map app].
      apply (batchEvent_windows tail Ht).
    + apply IH.
Qed.

(** X12.  With a poll interval that is not positive [Start] panics when it
    makes its ticker: the connection has been tested by then, and no cycle
    is ever run. *)
Theorem Start_panics (p : Processor.Processor) order signals (w : W) :
  Processor.pollInterval p <= 0 ->
  let r := Startup.Start p order signals w in
  fst (Act.val r) = Startup.Panicked "non-positive interval for NewTicker"
  /\ Plain.windows (Plain.core (Act.events r)) = []
  /\ In (Startup.TestConnection (fst (gitea_TestConnection w)))
        (Act.events r).
Proof.
  intros Hle. cbv zeta.
  destruct (Start_run p order signals w) as (He & Hv & Hin).
  cbv zeta in He, Hv, Hin. rewrite He, Hv. clear He Hv.
  replace (Processor.pollInterval p <=? 0) with true
    by (symmetry; apply Z.leb_le; exact Hle).
  split; [reflexivity|]. split; [|exact Hin].
  rewrite app_nil_r.
  destruct (fst (gitea_TestConnection w)); [reflexivity|].
  destruct (ensureLabels_calls order (snd (gitea_TestConnection w)))
    as (_ & _ & H). cbv zeta in H.
  induction (Plain.core (Act.events (Startup.ensureLabels order _)))
    as [|ev evs IH]; [reflexivity|].
  cbn [forallb] in H. apply andb_true_iff in H. destruct H as [H1 H2].
  destruct ev; try discriminate H1. unfold Plain.windows in *.
  cbn [flat_map app]. now apply IH.
Qed.

End StartFacts.

(** X9 on the tracker kept in memory: two ticks, then the cancellation;
    the tick after it is not served. *)
Lemma Start_cycles_witness :
  List.length
    (Plain.windows
       (Plain.core
          (Act.events
             (Startup.Start (env := Fake.env) (conn := Fixture.conn)
                (lib := Fake.lib) (Fake.processor [Fake.slack])
                Startup.labels
                [Startup.Tick; Startup.Tick; Startup.Done; Startup.Tick]
                (Fake.scripted [inl [Fake.coffee]; inr "timeout"%string])))))
  = 3%nat.
Proof.
  exact (proj1 (Start_cycles (env := Fake.env) (conn := Fixture.conn)
                  (lib := Fake.lib) (Fake.processor [Fake.slack])
                  Startup.labels
                  [Startup.Tick; Startup.Tick; Startup.Done; Startup.Tick]
                  (Fake.scripted [inl [Fake.coffee]; inr "timeout"%string])
                  eq_refl)).
Defined.

(** X11 on a tracker that refuses the connection test: the first cycle
    files the coffee entry and ensures its fingerprint label only. *)
Lemma Start_without_connection_witness :
  Forall (fun nc => String.prefix "bugid:" (fst nc) = true)
         (Observe.ensureLabelCalls
            (Plain.core
               (Act.events
                  (Startup.Start (env := Fake.env) (conn := Fixture.conn)
                     (lib := Fake.lib) (Fake.processor [Fake.slack])
                     Startup.labels [Startup.Tick; Startup.Done]
                     Fixture.offline)))).
Proof.
  exact (Start_without_connection (env := Fake.env) (conn := Fixture.conn)
           (lib := Fake.lib) (Fake.processor [Fake.slack])
           Startup.labels [Startup.Tick; Startup.Done] Fixture.offline
           "invalid Gitea token"%string eq_refl).
Defined.

(** X12 on a processor whose interval is zero. *)
Lemma Start_panics_witness :
  fst (Act.val
         (Startup.Start (env := Fake.env) (conn := Fixture.conn)
            (lib := Fake.lib) Fixture.hasty Startup.labels
            [Startup.Tick; Startup.Done] (Fake.scripted [])))
  = Startup.Panicked "non-positive interval for NewTicker".
Proof.
  exact (proj1 (Start_panics (env := Fake.env) (conn := Fixture.conn)
                  (lib := Fake.lib) Fixture.hasty Startup.labels
                  [Startup.Tick; Startup.Done] (Fake.scripted [])
                  (Z.le_refl 0))).
Defined.

(** ** The Gitea client over HTTP *)

Section GiteaHttpFacts.
Context {W : Type} {http : HttpEnv W} {glib : GiteaLib}.
Local Open Scope Z_scope.

Lemma prefix_append (a b : string) : String.prefix a (a ++ b) = true.
Proof.
  induction a as [|x a IH]; cbn [append String.prefix].
  - now destruct b.
  - destruct (ascii_dec x x) as [_|N]; [exact IH | congruence].
Qed.

Lemma prefix_repo (c : GiteaHttp.Client) (rest : string) :
  String.prefix
    (GiteaHttp.baseURL c ++ "/api/v1/repos/" ++ GiteaHttp.owner c
       ++ "/" ++ GiteaHttp.repo c)
    (GiteaHttp.baseURL c ++ "/api/v1/repos/" ++ GiteaHttp.owner c
       ++ "/" ++ GiteaHttp.repo c ++ rest) = true.
Proof.
  rewrite <- (append_assoc "/" (GiteaHttp.repo c) rest).
  rewrite <- (append_assoc (GiteaHttp.owner c) ("/" ++ GiteaHttp.repo c) rest).
  rewrite <- (append_assoc "/api/v1/repos/"
                (GiteaHttp.owner c ++ "/" ++ GiteaHttp.repo c) rest).
  rewrite <- (append_assoc (GiteaHttp.baseURL c)
                ("/api/v1/repos/" ++ GiteaHttp.owner c ++ "/"
                   ++ GiteaHttp.repo c) rest).
  apply prefix_append.
Qed.

Lemma prefix_repo_only (c : GiteaHttp.Client) :
  String.prefix
    (GiteaHttp.baseURL c ++ "/api/v1/repos/" ++ GiteaHttp.owner c
       ++ "/" ++ GiteaHttp.repo c)
    (GiteaHttp.baseURL c ++ "/api/v1/repos/" ++ GiteaHttp.owner c
       ++ "/" ++ GiteaHttp.repo c) = true.
Proof.
  assert (E : forall r : string, r ++ "" = r).
  { induction r as [|x r IH]; [reflexivity|]. cbn [append]. now rewrite IH. }
  pose proof (prefix_repo c "") as H. now rewrite E in H.
Qed.

(** A request without a body, authorised by [setAuth]. *)
Lemma authorised_get (c : GiteaHttp.Client) (rest : string) :
  Plain.authorised c
    (GiteaHttp.setAuth c
       {| Http.Method := "GET";
          Http.URL := GiteaHttp.baseURL c ++ "/api/v1/repos/"
                        ++ GiteaHttp.owner c ++ "/" ++ GiteaHttp.repo c
                        ++ rest;
          Http.Header := [];
          Http.Body := None |}) = true.
Proof.
  unfold Plain.authorised, GiteaHttp.setAuth, Http.Set_.
  cbn [Http.Header Http.URL Http.Body Http.Method Http.lookup filter fst].
  cbn [String.eqb Ascii.eqb Bool.eqb].
  now rewrite String.eqb_refl, prefix_repo.
Qed.

(** A request with a body, authorised by [setAuth] and then announced as
    JSON. *)
Lemma authorised_send (c : GiteaHttp.Client) (method rest body : string) :
  Plain.authorised c
    (Http.Set_
       (GiteaHttp.setAuth c
          {| Http.Method := method;
             Http.URL := GiteaHttp.baseURL c ++ "/api/v1/repos/"
                           ++ GiteaHttp.owner c ++ "/" ++ GiteaHttp.repo c
                           ++ rest;
             Http.Header := [];
             Http.Body := Some body |})
       "Content-Type" "application/json") = true.
Proof.
  unfold Plain.authorised, GiteaHttp.setAuth, Http.Set_.
  cbn [Http.Header Http.URL Http.Body Http.Method Http.lookup filter fst
       negb].
  cbn [String.eqb Ascii.eqb Bool.eqb negb Http.lookup filter fst].
  now rewrite String.eqb_refl, prefix_repo.
Qed.

(** [EnsureLabel] sends what [createLabel] sends, and drops its error when
    the text of the error mentions 409. *)
Lemma EnsureLabel_createLabel (c : GiteaHttp.Client) name color (w : W) :
  Act.events (GiteaHttp.EnsureLabel c name color w)
  = Act.events (GiteaHttp.createLabel c name color w)
  /\ Act.val (GiteaHttp.EnsureLabel c name color w)
     = match Act.val (GiteaHttp.createLabel c name color w) with
       | Some e => if Go.Contains e "409" then None else Some e
       | None => None
       end.
Proof.
  unfold GiteaHttp.EnsureLabel, Act.bind. cbn [Act.events Act.val].
  destruct (Act.val (GiteaHttp.createLabel c name color w)) as [e|];
    [destruct (Go.Contains e "409")|];
    cbn [negb Act.ret Act.events Act.val]; now rewrite app_nil_r.
Qed.

Ltac run_client :=
  unfold Plain.orderly, Plain.requests, GiteaHttp.httpDo, GiteaHttp.NewRequest,
    Act.bind, Act.call, Act.ret;
  repeat match goal with
         | |- context [match json_Marshal ?x with _ => _ end] =>
             destruct (json_Marshal x)
         | |- context [match http_NewRequest_check ?m ?u with _ => _ end] =>
             destruct (http_NewRequest_check m u)
         end;
  cbn [Act.val Act.after Act.events app map List.length forallb];
  try (split; [lia | reflexivity]).

(** X13.  Whatever it is asked, the client calls [httpClient.Do] at most
    once, and the request it hands to that call carries the token of the
    client in its Authorization header, has a URL under the repository of
    the client, and either is a GET without a body or has a body announced
    as JSON.  This is about the request the client builds; the requests
    that [Do] may send after it when it follows a redirect are not
    covered. *)
Theorem requests_authorised (c : GiteaHttp.Client) (w : W)
        (labelName title body name color : string) (labels : list string)
        (issueNumber : Z) :
  Plain.orderly c (Act.events (GiteaHttp.SearchIssues c labelName w))
  /\ Plain.orderly c
       (Act.events (GiteaHttp.CreateIssue c title body labels w))
  /\ Plain.orderly c
       (Act.events (GiteaHttp.AddComment c issueNumber body w))
  /\ Plain.orderly c (Act.events (GiteaHttp.ReopenIssue c issueNumber w))
  /\ Plain.orderly c (Act.events (GiteaHttp.EnsureLabel c name color w))
  /\ Plain.orderly c
       (Act.events (GiteaHttp.GetIssueCommentCount c issueNumber w))
  /\ Plain.orderly c (Act.events (GiteaHttp.TestConnection c w)).
Proof.
  split; [|split; [|split; [|split; [|split; [|split]]]]].
  - unfold GiteaHttp.SearchIssues. run_client.
    destruct (fst (http_Do _ w)) as [resp|e];
      [destruct (negb (Http.StatusCode resp =? 200));
       [|destruct (json_Decode_issues (Http.RespBody resp))]|];
      cbn [Act.val Act.after Act.events app map List.length forallb];
      (split; [lia|]); now rewrite authorised_get.
  - unfold GiteaHttp.CreateIssue. run_client.
    destruct (fst (http_Do _ w)) as [resp|e];
      [destruct (negb (Http.StatusCode resp =? 201));
       [|destruct (json_Decode_issue (Http.RespBody resp))]|];
      cbn [Act.val Act.after Act.events app map List.length forallb];
      (split; [lia|]); now rewrite authorised_send.
  - unfold GiteaHttp.AddComment. run_client.
    destruct (fst (http_Do _ w)) as [resp|e];
      [destruct (negb (Http.StatusCode resp =? 201))|];
      cbn [Act.val Act.after Act.events app map List.length forallb];
      (split; [lia|]); now rewrite authorised_send.
  - unfold GiteaHttp.ReopenIssue. run_client.
    destruct (fst (http_Do _ w)) as [resp|e];
      [destruct (negb (Http.StatusCode resp =? 201)
                 && negb (Http.StatusCode resp =? 200))|];
      cbn [Act.val Act.after Act.events app map List.length forallb];
      (split; [lia|]); now rewrite authorised_send.
  - rewrite (proj1 (EnsureLabel_createLabel c name color w)).
    unfold GiteaHttp.createLabel. run_client.
    destruct (fst (http_Do _ w)) as [resp|e];
      [destruct (negb (Http.StatusCode resp =? 201))|];
      cbn [Act.val Act.after Act.events app map List.length forallb];
      (split; [lia|]); now rewrite authorised_send.
  - unfold GiteaHttp.GetIssueCommentCount. run_client.
    destruct (fst (http_Do _ w)) as [resp|e];
      [destruct (json_Decode_issue (Http.RespBody resp))|];
      cbn [Act.val Act.after Act.events app map List.length forallb];
      (split; [lia|]); now rewrite authorised_get.
  - unfold GiteaHttp.TestConnection. run_client.
    destruct (fst (http_Do _ w)) as [resp|e];
      [destruct (Http.StatusCode resp =? 404);
       [|destruct (Http.StatusCode resp =? 401);
         [|destruct (negb (Http.StatusCode resp =? 200))]]|];
      cbn [Act.val Act.after Act.events app map List.length forallb];
      (split; [lia|]);
      unfold Plain.authorised, GiteaHttp.setAuth, Http.Set_;
      cbn [Http.Header Http.URL Http.Body Http.Method Http.lookup filter fst];
      cbn [String.eqb Ascii.eqb Bool.eqb];
      now rewrite String.eqb_refl, prefix_repo_only.
Qed.

Lemma Contains_append_r (a b sub : string) :
  Go.Contains b sub = true -> Go.Contains (a ++ b) sub = true.
Proof.
  intros H. induction a as [|x a IH]; [exact H|].
  cbn [append Go.Contains]. rewrite IH. apply orb_true_r.
Qed.

Lemma statusError_409 (resp : Http.Response) :
  Http.StatusCode resp = 409 \/ Go.Contains (Http.RespBody resp) "409" = true ->
  Go.Contains (GiteaHttp.statusError resp) "409" = true.
Proof.
  unfold GiteaHttp.statusError. intros [E|E].
  - apply Contains_append_r. rewrite E.
    change (Go.itoa 409) with "409"%string. cbn [append Go.Contains].
    reflexivity.
  - now do 3 apply Contains_append_r.
Qed.

(** X14.  What [EnsureLabel] makes of the answer to its request.  When the
    request was answered, there is no error exactly when the status is 201
    or the text of the status error, which ends in the body of the
    response, mentions 409: so a status 409 gives no error, and neither
    does any other status when the body of the response has 409 somewhere
    in it.  When the request failed, the failure is dropped as well when
    its text mentions 409. *)
Theorem EnsureLabel_http (c : GiteaHttp.Client) (name color : string)
        (w : W) (req : Http.Request) (res : Http.Response + Go.error) :
  Act.events (GiteaHttp.EnsureLabel c name color w) = [GiteaHttp.Do req res] ->
  let err := Act.val (GiteaHttp.EnsureLabel c name color w) in
  match res with
  | inl resp =>
      (err = None
       <-> Http.StatusCode resp = 201
           \/ Go.Contains (GiteaHttp.statusError resp) "409" = true)
      /\ (Http.StatusCode resp = 409 -> err = None)
      /\ (Go.Contains (Http.RespBody resp) "409" = true -> err = None)
  | inr e =>
      err = None
      <-> Go.Contains ("failed to create label: " ++ e) "409" = true
  end.
Proof.
  intros H. cbv zeta.
  destruct (EnsureLabel_createLabel c name color w) as [He Hv].
  rewrite He in H. rewrite Hv. clear He Hv.
  unfold GiteaHttp.createLabel, GiteaHttp.NewRequest, GiteaHttp.httpDo,
    Act.bind, Act.call, Act.ret in *.
  destruct (json_Marshal _) as [jsonBody|e0]; [|discriminate H].
  destruct (http_NewRequest_check _ _) as [e0|]; [discriminate H|].
  cbn [Act.val Act.events Act.after] in *.
  destruct (fst (http_Do _ w)) as [resp|e].
  - destruct (Http.StatusCode resp =? 201) eqn:S;
      cbn [negb Act.val Act.events Act.after app] in *;
      injection H as _ Hres; subst res.
    + apply Z.eqb_eq in S. split; [|split]; try reflexivity.
      split; [now left | reflexivity].
    + apply Z.eqb_neq in S.
      split; [|split].
      * destruct (Go.Contains (GiteaHttp.statusError resp) "409");
          split; try reflexivity; try discriminate.
        -- now right.
        -- intros [E|E]; [contradiction | discriminate].
      * intros E. now rewrite statusError_409 by now left.
      * intros E. now rewrite statusError_409 by now right.
  - cbn [negb Act.val Act.events Act.after app] in *.
    injection H as _ Hres; subst res.
    destruct (Go.Contains ("failed to create label: " ++ e) "409");
      split; try reflexivity; discriminate.
Qed.

(** X15.  A call of the client that reports success has sent its request
    and got an answer with the status it expects: 200 for a search and for
    the connection test, 201 for a new issue, a comment and a label, 200 or
    201 for reopening.  For the calls that return nothing but an error the
    converse holds too. *)
Theorem success_status (c : GiteaHttp.Client) (w : W)
        (labelName title body name color : string) (labels : list string)
        (issueNumber : Z) :
  (forall issues,
      Act.val (GiteaHttp.SearchIssues c labelName w) = inl issues ->
      exists resp,
        Plain.answered (Act.events (GiteaHttp.SearchIssues c labelName w))
                       resp
        /\ Http.StatusCode resp = 200)
  /\ (forall issue,
         Act.val (GiteaHttp.CreateIssue c title body labels w) = inl issue ->
         exists resp,
           Plain.answered
             (Act.events (GiteaHttp.CreateIssue c title body labels w)) resp
           /\ Http.StatusCode resp = 201)
  /\ (Act.val (GiteaHttp.AddComment c issueNumber body w) = None
      <-> exists resp,
           Plain.answered
             (Act.events (GiteaHttp.AddComment c issueNumber body w)) resp
           /\ Http.StatusCode resp = 201)
  /\ (Act.val (GiteaHttp.ReopenIssue c issueNumber w) = None
      <-> exists resp,
           Plain.answered
             (Act.events (GiteaHttp.ReopenIssue c issueNumber w)) resp
           /\ (Http.StatusCode resp = 200 \/ Http.StatusCode resp = 201))
  /\ (Act.val (GiteaHttp.createLabel c name color w) = None
      <-> exists resp,
           Plain.answered
             (Act.events (GiteaHttp.createLabel c name color w)) resp
           /\ Http.StatusCode resp = 201)
  /\ (Act.val (GiteaHttp.TestConnection c w) = None
      <-> exists resp,
           Plain.answered (Act.events (GiteaHttp.TestConnection c w)) resp
           /\ Http.StatusCode resp = 200).
Proof.
  unfold Plain.answered.
  split; [|split; [|split; [|split; [|split]]]].
  - intros issues.
    unfold GiteaHttp.SearchIssues, GiteaHttp.NewRequest, GiteaHttp.httpDo,
      Act.bind, Act.call, Act.ret.
    destruct (http_NewRequest_check _ _) as [e0|];
      cbn [Act.val Act.events Act.after]; [discriminate|].
    destruct (fst (http_Do _ w)) as [resp|e];
      cbn [Act.val Act.events Act.after app]; [|discriminate].
    destruct (Http.StatusCode resp =? 200) eqn:S;
      cbn [negb Act.val Act.events Act.after app]; [|discriminate].
    destruct (json_Decode_issues _);
      cbn [Act.val Act.events Act.after app]; [|discriminate].
    intros _. exists resp. split; [eexists; reflexivity|].
    now apply Z.eqb_eq.
  - intros issue.
    unfold GiteaHttp.CreateIssue, GiteaHttp.NewRequest, GiteaHttp.httpDo,
      Act.bind, Act.call, Act.ret.
    destruct (json_Marshal _) as [jsonBody|e0];
      cbn [Act.val Act.events Act.after]; [|discriminate].
    destruct (http_NewRequest_check _ _) as [e0|];
      cbn [Act.val Act.events Act.after]; [discriminate|].
    destruct (fst (http_Do _ w)) as [resp|e];
      cbn [Act.val Act.events Act.after app]; [|discriminate].
    destruct (Http.StatusCode resp =? 201) eqn:S;
      cbn [negb Act.val Act.events Act.after app]; [|discriminate].
    destruct (json_Decode_issue _);
      cbn [Act.val Act.events Act.after app]; [|discriminate].
    intros _. exists resp. split; [eexists; reflexivity|].
    now apply Z.eqb_eq.
  - unfold GiteaHttp.AddComment, GiteaHttp.NewRequest, GiteaHttp.httpDo,
      Act.bind, Act.call, Act.ret.
    destruct (json_Marshal _) as [jsonBody|e0];
      cbn [Act.val Act.events Act.after];
      [|split; [discriminate | intros (resp & [req Hq] & _); discriminate Hq]].
    destruct (http_NewRequest_check _ _) as [e0|];
      cbn [Act.val Act.events Act.after];
      [split; [discriminate | intros (resp & [req Hq] & _); discriminate Hq]|].
    destruct (fst (http_Do _ w)) as [resp|e];
      cbn [Act.val Act.events Act.after app];
      [|split; [discriminate | intros (resp & [req Hq] & _); discriminate Hq]].
    destruct (Http.StatusCode resp =? 201) eqn:S;
      cbn [negb Act.val Act.events Act.after app].
    + apply Z.eqb_eq in S. split; [|reflexivity].
      intros _. exists resp. split; [eexists; reflexivity | exact S].
    + apply Z.eqb_neq in S. split; [discriminate|].
      intros (resp' & [req Hq] & Hs). injection Hq as _ Hr. subst resp'.
      contradiction.
  - unfold GiteaHttp.ReopenIssue, GiteaHttp.NewRequest, GiteaHttp.httpDo,
      Act.bind, Act.call, Act.ret.
    destruct (json_Marshal _) as [jsonBody|e0];
      cbn [Act.val Act.events Act.after];
      [|split; [discriminate | intros (resp & [req Hq] & _); discriminate Hq]].
    destruct (http_NewRequest_check _ _) as [e0|];
      cbn [Act.val Act.events Act.after];
      [split; [discriminate | intros (resp & [req Hq] & _); discriminate Hq]|].
    destruct (fst (http_Do _ w)) as [resp|e];
      cbn [Act.val Act.events Act.after app];
      [|split; [discriminate | intros (resp & [req Hq] & _); discriminate Hq]].
    destruct (Z.eqb_spec (Http.StatusCode resp) 201) as [S1|S1];
      destruct (Z.eqb_spec (Http.StatusCode resp) 200) as [S0|S0];
      cbn [negb andb Act.val Act.events Act.after app].
    + lia.
    + split; [|reflexivity].
      intros _. exists resp. split; [eexists; reflexivity | now right].
    + split; [|reflexivity].
      intros _. exists resp. split; [eexists; reflexivity | now left].
    + split; [discriminate|].
      intros (resp' & [req Hq] & Hs). injection Hq as _ Hr. subst resp'.
      lia.
  - unfold GiteaHttp.createLabel, GiteaHttp.NewRequest, GiteaHttp.httpDo,
      Act.bind, Act.call, Act.ret.
    destruct (json_Marshal _) as [jsonBody|e0];
      cbn [Act.val Act.events Act.after];
      [|split; [discriminate | intros (resp & [req Hq] & _); discriminate Hq]].
    destruct (http_NewRequest_check _ _) as [e0|];
      cbn [Act.val Act.events Act.after];
      [split; [discriminate | intros (resp & [req Hq] & _); discriminate Hq]|].
    destruct (fst (http_Do _ w)) as [resp|e];
      cbn [Act.val Act.events Act.after app];
      [|split; [discriminate | intros (resp & [req Hq] & _); discriminate Hq]].
    destruct (Http.StatusCode resp =? 201) eqn:S;
      cbn [negb Act.val Act.events Act.after app].
    + apply Z.eqb_eq in S. split; [|reflexivity].
      intros _. exists resp. split; [eexists; reflexivity | exact S].
    + apply Z.eqb_neq in S. split; [discriminate|].
      intros (resp' & [req Hq] & Hs). injection Hq as _ Hr. subst resp'.
      contradiction.
  - unfold GiteaHttp.TestConnection, GiteaHttp.NewRequest, GiteaHttp.httpDo,
      Act.bind, Act.call, Act.ret.
    destruct (http_NewRequest_check _ _) as [e0|];
      cbn [Act.val Act.events Act.after];
      [split; [discriminate | intros (resp & [req Hq] & _); discriminate Hq]|].
    destruct (fst (http_Do _ w)) as [resp|e];
      cbn [Act.val Act.events Act.after app];
      [|split; [discriminate | intros (resp & [req Hq] & _); discriminate Hq]].
    destruct (Z.eqb_spec (Http.StatusCode resp) 404) as [S4|S4];
      [|destruct (Z.eqb_spec (Http.StatusCode resp) 401) as [S1|S1];
        [|destruct (Z.eqb_spec (Http.StatusCode resp) 200) as [S0|S0]]];
      cbn [negb Act.val Act.events Act.after app].
    + split; [discriminate|].
      intros (resp' & [req Hq] & Hs). injection Hq as _ Hr. subst resp'.
      lia.
    + split; [discriminate|].
      intros (resp' & [req Hq] & Hs). injection Hq as _ Hr. subst resp'.
      lia.
    + split; [|reflexivity].
      intros _. exists resp. split; [eexists; reflexivity | exact S0].
    + split; [discriminate|].
      intros (resp' & [req Hq] & Hs). injection Hq as _ Hr. subst resp'.
      contradiction.
Qed.

(** X16.  [GetIssueCommentCount] does not look at the status of the
    answer: two answers with the same body give the same count and the
    same error, whatever their statuses. *)
Theorem GetIssueCommentCount_any_status (c : GiteaHttp.Client)
        (issueNumber : Z) (w1 w2 : W) (resp1 resp2 : Http.Response) :
  Plain.answered
    (Act.events (GiteaHttp.GetIssueCommentCount c issueNumber w1)) resp1 ->
  Plain.answered
    (Act.events (GiteaHttp.GetIssueCommentCount c issueNumber w2)) resp2 ->
  Http.RespBody resp1 = Http.RespBody resp2 ->
  Act.val (GiteaHttp.GetIssueCommentCount c issueNumber w1)
  = Act.val (GiteaHttp.GetIssueCommentCount c issueNumber w2).
Proof.
  unfold Plain.answered.
  unfold GiteaHttp.GetIssueCommentCount, GiteaHttp.NewRequest,
    GiteaHttp.httpDo, Act.bind, Act.call, Act.ret.
  destruct (http_NewRequest_check _ _) as [e0|];
    cbn [Act.val Act.events Act.after];
    [intros [req Hq]; discriminate Hq|].
  destruct (fst (http_Do _ w1)) as [r1|e1];
    destruct (fst (http_Do _ w2)) as [r2|e2];
    cbn [Act.val Act.events Act.after app];
    intros [q1 H1] [q2 H2] Hb;
    try (destruct (json_Decode_issue (Http.RespBody r1)) eqn:D1;
         cbn [Act.val Act.events Act.after app] in H1);
    try (destruct (json_Decode_issue (Http.RespBody r2)) eqn:D2;
         cbn [Act.val Act.events Act.after app] in H2);
    try discriminate H1; try discriminate H2;
    injection H1 as _ E1; injection H2 as _ E2; subst r1 r2;
    rewrite Hb in D1; rewrite D1 in D2;
    cbn [Act.val]; congruence.
Qed.

End GiteaHttpFacts.

(** X14 on a server that answers 500 with a body that mentions 409: the
    error is dropped. *)
Lemma EnsureLabel_http_witness :
  Act.val
    (GiteaHttp.EnsureLabel (http := Fixture.server) (lib := Fixture.gitea)
       Fixture.client "severity:error" "ff9900"
       (Fixture.answer 500 "took 409 ms"))
  = None.
Proof.
  exact (proj2 (proj2
                  (EnsureLabel_http (http := Fixture.server)
                     (glib := Fixture.gitea)
                     Fixture.client "severity:error" "ff9900"
                     (Fixture.answer 500 "took 409 ms")
                     _ (Fixture.answer 500 "took 409 ms") eq_refl))
               eq_refl).
Defined.

(** X16 on two servers that answer the same body, one with status 200 and
    one with status 404. *)
Lemma GetIssueCommentCount_any_status_witness :
  Act.val
    (GiteaHttp.GetIssueCommentCount (http := Fixture.server)
       (lib := Fixture.gitea) Fixture.client 7 (Fixture.answer 200 "{}"))
  = Act.val
      (GiteaHttp.GetIssueCommentCount (http := Fixture.server)
         (lib := Fixture.gitea) Fixture.client 7 (Fixture.answer 404 "{}")).
Proof.
  exact (GetIssueCommentCount_any_status (http := Fixture.server)
           (glib := Fixture.gitea) Fixture.client 7
           (Fixture.answer 200 "{}") (Fixture.answer 404 "{}")
           {| Http.StatusCode := 200; Http.RespBody := "{}" |}
           {| Http.StatusCode := 404; Http.RespBody := "{}" |}
           (ex_intro _ _ eq_refl) (ex_intro _ _ eq_refl) eq_refl).
Defined.

(** ** The configured processor *)

Section SetupFacts.
Context {W : Type} {env : Env W} {conn : ConnEnv W} {lib : GoLib}
        {menv : MainEnv}.
Local Open Scope Z_scope.

Lemma setupProcessor_pollInterval (ns : list (Notifier.Notifier W)) (w : W) :
  Processor.pollInterval (Eff.val (Main.setupProcessor ns w))
  = if String.eqb (os_Getenv "LOKI_POLL_INTERVAL") "" then 30000000000
    else match time_ParseDuration (os_Getenv "LOKI_POLL_INTERVAL") with
         | inl d => d
         | inr _ => 30000000000
         end.
Proof.
  unfold Main.setupProcessor, Main.NewProcessor, Client.Now, Eff.bind,
    Eff.lift, Eff.ret.
  cbn [Eff.val Processor.pollInterval Main.PollInterval].
  destruct (String.eqb (os_Getenv "LOKI_POLL_INTERVAL") ""); reflexivity.
Qed.

(** X17.  [setupProcessor] takes the interval of the environment whenever
    it parses, also when it is zero or negative, and keeps thirty seconds
    when it is not set or does not parse.  So [Start] on the configured
    processor panics exactly when LOKI_POLL_INTERVAL is set to a duration
    that is not positive. *)
Theorem configured_interval (ns : list (Notifier.Notifier W)) (w w' : W)
        (order : list (string * string)) (signals : list Startup.Signal) :
  let p := Eff.val (Main.setupProcessor ns w) in
  let interval := os_Getenv "LOKI_POLL_INTERVAL" in
  (fst (Act.val (Startup.Start p order signals w'))
   = Startup.Panicked "non-positive interval for NewTicker"
   <-> interval <> ""
       /\ exists d, time_ParseDuration interval = inl d /\ d <= 0)
  /\ (forall d, interval <> "" -> time_ParseDuration interval = inl d ->
                Processor.pollInterval p = d)
  /\ (interval = "" \/ (exists e, time_ParseDuration interval = inr e) ->
      Processor.pollInterval p = 30000000000).
Proof.
  cbv zeta.
  pose proof (setupProcessor_pollInterval ns w) as Hp.
  set (p := Eff.val (Main.setupProcessor ns w)) in *.
  set (interval := os_Getenv "LOKI_POLL_INTERVAL") in *.
  split; [|split].
  - destruct (Start_run p order signals w') as (_ & Hv & _).
    cbv zeta in Hv. rewrite Hv. clear Hv.
    destruct (Z.leb_spec (Processor.pollInterval p) 0) as [Hle|Hgt].
    + split; [intros _|reflexivity].
      rewrite Hp in Hle.
      destruct (String.eqb_spec interval "") as [E|E]; [lia|].
      split; [exact E|].
      destruct (time_ParseDuration interval) as [d|e]; [|lia].
      exists d. split; [reflexivity | exact Hle].
    + match goal with
      | |- fst (Act.val (Startup.loop ?q signals ?v)) = _ <-> _ =>
          destruct (loop_windows signals q v) as (_ & _ & _ & I4)
      end.
      cbv zeta in I4. rewrite I4. clear I4.
      split.
      * destruct (Plain.cancelled signals); discriminate.
      * intros (E & d & Hd & Hle). rewrite Hp in Hgt.
        destruct (String.eqb_spec interval "") as [E'|_]; [contradiction|].
        rewrite Hd in Hgt. lia.
  - intros d E Hd. rewrite Hp, Hd.
    destruct (String.eqb_spec interval "") as [E'|_];
      [contradiction | reflexivity].
  - intros [E|[e He]]; rewrite Hp.
    + rewrite E. reflexivity.
    + rewrite He. now destruct (String.eqb interval "").
Qed.

End SetupFacts.

(** ** The alphabet of a computed fingerprint *)

Lemma hex_digit_lowerhex (n : Z) : Regexp.lowerhex (Hex.digit n) = true.
Proof.
  unfold Hex.digit. generalize (Z.to_nat n). intros k.
  do 16 (destruct k as [|k]; [reflexivity|]). reflexivity.
Qed.

Lemma EncodeToString_lowerhex (src : list Z) :
  forallb Regexp.lowerhex (Go.bytes (Hex.EncodeToString src)) = true.
Proof.
  induction src as [|b src IH]; [reflexivity|].
  cbn [Hex.EncodeToString Go.bytes list_ascii_of_string forallb].
  rewrite !hex_digit_lowerhex. exact IH.
Qed.

Lemma lowerhex_not_reserved (b : ascii) :
  Regexp.lowerhex b = true ->
  existsb (String.eqb (Telegram.string_of_byte b)) Telegram.chars = false.
Proof.
  destruct b as [[] [] [] [] [] [] [] []]; intros H;
    try discriminate H; reflexivity.
Qed.

Lemma escaped_lowerhex (s : string) :
  forallb Regexp.lowerhex (Go.bytes s) = true ->
  Plain.escaped Telegram.chars s = s.
Proof.
  induction s as [|b s IH]; [reflexivity|].
  cbn [Go.bytes list_ascii_of_string forallb]. intros H.
  apply andb_true_iff in H. destruct H as [Hb Hs].
  cbn [Plain.escaped]. rewrite (lowerhex_not_reserved b Hb).
  now rewrite (IH Hs).
Qed.

(** X19.  A fingerprint that is computed, not taken from the entry,
    consists of the characters 0 to 9 and a to f.  So none of its
    characters is reserved by Telegram's MarkdownV2: escaping it changes
    nothing. *)
Theorem GenerateBugID_alphabet (entry : Loki.LogEntry) :
  Loki.BugID entry = "" ->
  forallb Regexp.lowerhex (Go.bytes (Processor.GenerateBugID entry)) = true
  /\ Telegram.escapeMarkdown (Processor.GenerateBugID entry)
     = Processor.GenerateBugID entry.
Proof.
  intros E.
  assert (H : forallb Regexp.lowerhex
                (Go.bytes (Processor.GenerateBugID entry)) = true).
  { unfold Processor.GenerateBugID. rewrite E. cbn [String.eqb negb].
    apply EncodeToString_lowerhex. }
  split; [exact H|].
  unfold Telegram.escapeMarkdown.
  rewrite <- (TelegramFacts.escaped_nil (Processor.GenerateBugID entry)) at 1.
  rewrite (TelegramFacts.fold_escapeChar Telegram.chars []
             (Processor.GenerateBugID entry)).
  - now apply escaped_lowerhex.
  - apply TelegramFacts.distinct_NoDup. vm_compute. reflexivity.
  - intros Hin. apply TelegramFacts.existsb_eqb_In in Hin.
    vm_compute in Hin. discriminate Hin.
Qed.

(** X19 on the coffee entry. *)
Lemma GenerateBugID_alphabet_witness :
  Telegram.escapeMarkdown (Processor.GenerateBugID Fake.coffee)
  = Processor.GenerateBugID Fake.coffee.
Proof.
  exact (proj2 (GenerateBugID_alphabet Fake.coffee eq_refl)).
Defined.
